(** * GitHub pull request action of updatecli: a shallow embedding

    The development follows [pkg/plugins/scms/github/pullrequest.go]
    (package [github]): the action configuration [ActionSpec], its
    validation, and the methods of [*PullRequest] that reconcile one
    pull request with the remote platform ([CleanAction], [CreateAction],
    [OpenPullRequest], [updatePullRequest], [closePullRequest],
    [EnablePullRequestAutoMerge], [getRemotePullRequest],
    [GetPullRequestLabelsInformation]), together with [GetBranches] of
    [*Github].  Two further sources are embedded after it: the commit
    through the API of the same package ([Commit], [CreateCommit],
    [base64EncodeFile]) and [searchAndUpdateVersion] of
    [pkg/yaml/main.go].

    - Go strings are byte strings: [string] of [Stdlib.Strings.String].
    - Go [int] values received from the platform are [Z].
    - A method returning [error] returns [option error] ([None] is [nil]);
      a method returning a value and an error returns a pair.
    - The GraphQL client, the body renderer and the helpers of the
      package that live in other files are an explicit [Platform.t]: a
      record of answers, each a function of the calls issued so far.
    - A method of [*PullRequest] is a computation [M PullRequest.t A]: it
      reads the platform, threads the receiver, and records every call to
      a remote collaborator and every [logrus] line.
    - The file has three parts: the embedding of the source, the notions
      that the statements use, and the proofs. *)

From Stdlib Require Import String Ascii List ZArith NArith Bool Lia DecimalString.
From ExtLib Require Import Structures.Monad.
Import ListNotations.
Import MonadNotation.
Local Open Scope string_scope.
Local Open Scope list_scope.
Local Open Scope monad_scope.

Set Implicit Arguments.

(** ** Strings: the functions of the Go packages [strings] and [fmt] in use *)

Module strings.

Definition byte (n : N) : ascii := ascii_of_N n.

Definition between (lo hi : N) (c : ascii) : bool :=
  (lo <=? N_of_ascii c)%N && (N_of_ascii c <=? hi)%N.

Definition isLower : ascii -> bool := between 97 122.
Definition isUpper : ascii -> bool := between 65 90.

Definition upperByte (c : ascii) : ascii :=
  if isLower c then ascii_of_N (N_of_ascii c - 32) else c.

Definition lowerByte (c : ascii) : ascii :=
  if isUpper c then ascii_of_N (N_of_ascii c + 32) else c.

Definition isByte (n : N) (c : ascii) : bool := (N_of_ascii c =? n)%N.

(** [strings.ToUpper] maps every rune through [unicode.ToUpper].  On
    UTF-8 bytes: an ASCII lower-case letter becomes its upper-case
    letter; U+017F (long s, bytes C5 BF) becomes [S] and U+0131
    (dotless i, bytes C4 B1) becomes [I], the only two runes outside
    ASCII whose upper case is inside it.  Every other rune outside
    ASCII is mapped by Go to a rune outside ASCII; the model leaves its
    bytes in place, so the result is an ASCII string exactly when Go's
    is, and then the two are the same string.  Where the result is not
    ASCII the two differ: Go upper-cases the runes that the model
    leaves in place and replaces invalid bytes by U+FFFD.  The model
    is therefore Go's function wherever the result is compared with
    an ASCII word, and on every merge method that [Validate] accepts;
    for another merge method with runes outside ASCII the method that
    [enableInput] names is not the one that Go sends. *)
Fixpoint ToUpper (s : string) : string :=
  match s with
  | EmptyString => EmptyString
  | String c rest =>
      match rest with
      | String d rest' =>
          if isByte 197 c && isByte 191 d then String "S" (ToUpper rest')
          else if isByte 196 c && isByte 177 d then String "I" (ToUpper rest')
          else String (upperByte c) (ToUpper rest)
      | EmptyString => String (upperByte c) EmptyString
      end
  end.

(** The key of a string under simple case folding, as far as ASCII is
    concerned: an ASCII letter folds to its lower case, U+017F (C5 BF)
    folds to [s] and U+212A (Kelvin sign, E2 84 AA) folds to [k]; these
    are the only runes outside ASCII in the fold orbit of an ASCII
    letter. *)
Fixpoint foldKey (s : string) : string :=
  match s with
  | EmptyString => EmptyString
  | String c rest =>
      match rest with
      | String d rest' =>
          if isByte 197 c && isByte 191 d then String "s" (foldKey rest')
          else
            match rest' with
            | String e rest'' =>
                if isByte 226 c && isByte 132 d && isByte 170 e
                then String "k" (foldKey rest'')
                else String (lowerByte c) (foldKey rest)
            | EmptyString => String (lowerByte c) (foldKey rest)
            end
      | EmptyString => String (lowerByte c) EmptyString
      end
  end.

(** [strings.EqualFold]: equality under simple Unicode case folding.
    The model compares fold keys; it agrees with Go whenever one of the
    two strings is ASCII, which is the case at every call of the
    package (the second argument is a literal). *)
Definition EqualFold (s t : string) : bool := (foldKey s =? foldKey t)%string.

End strings.

(** The verb [%d] of [fmt.Sprintf] on a Go [int]: the decimal digits,
    after a minus sign when the number is negative. *)
Definition fmt_d (n : Z) : string := NilZero.string_of_int (Z.to_int n).

(** ** Errors *)

(** A Go [error] built by [errors.New]; [Error] is its message. *)
Record error : Type := errors_New { Error : string }.

Definition ErrAutomergeNotAllowOnRepository : error :=
  errors_New "automerge is not allowed on repository".
Definition ErrBadMergeMethod : error :=
  errors_New "wrong merge method defined, accepting one of 'squash', 'merge', 'rebase', or ''".
Definition ErrPullRequestIsInCleanStatus : error :=
  errors_New "Pull request Pull request is in clean status".

(** ** Data model *)

(** [PullRequestApi]: the fields mapped to the GitHub V4 API. *)
Module PullRequestApi.
Record t : Type := mk {
  ChangedFiles : Z;
  BaseRefName : string;
  Body : string;
  HeadRefName : string;
  ID : string;
  State : string;
  Title : string;
  Url : string;
  Number : Z
}.
(** The zero value of the struct. *)
Definition zero : t := mk 0 "" "" "" "" "" "" "" 0.
End PullRequestApi.

(** [ActionSpec]: the configuration of an action of kind GitHub pull
    request. *)
Module ActionSpec.
Record t : Type := mk {
  AutoMerge : bool;
  Title : string;
  Description : string;
  Labels : list string;
  Draft : bool;
  MaintainerCannotModify : bool;
  MergeMethod : string;
  UseTitleForAutoMerge : bool;
  Parent : bool
}.
End ActionSpec.

(** Modelled from the spec: the struct [repositoryLabelApi] is declared
    in another file of the package; a label has an [ID], a [Name] and a
    [Description], the three fields that [GetPullRequestLabelsInformation]
    fills. *)
Module repositoryLabelApi.
Record t : Type := mk {
  ID : string;
  Name : string;
  Description : string
}.
Definition eq_dec (a b : t) : {a = b} + {a <> b}.
Proof. decide equality; apply string_dec. Defined.
End repositoryLabelApi.

(** Modelled from the spec: the struct [Repository] that
    [queryRepository] resolves is declared in another file of the
    package; it has the identity of the repository, the identity of its
    parent and the [Status] of the working branch against the target
    branch, the fields that the pull request code reads. *)
Module Repository.
Record t : Type := mk {
  ID : string;
  Owner : string;
  Name : string;
  ParentID : string;
  ParentOwner : string;
  ParentName : string;
  Status : string
}.
End Repository.

(** Modelled from the spec: the struct [PageInfo] of a GraphQL
    connection is declared in another file of the package; the loop over
    the pages reads [HasPreviousPage] and [StartCursor]. *)
Module PageInfo.
Record t : Type := mk {
  HasNextPage : bool;
  HasPreviousPage : bool;
  EndCursor : string;
  StartCursor : string
}.
End PageInfo.

(** One edge of the [labels] connection of a pull request. *)
Module LabelEdge.
Record t : Type := mk {
  Cursor : string;
  Node_ID : string;
  Node_Name : string;
  Node_Description : string
}.
End LabelEdge.

(** The [labels(last: 5, before: $before)] part of the query result of
    [GetPullRequestLabelsInformation]. *)
Module Labels.
Record t : Type := mk {
  TotalCount : Z;
  PageInfo : PageInfo.t;
  Edges : list LabelEdge.t
}.
End Labels.

(** Modelled from the spec: the struct [Github] is declared in another
    file of the package; these are the fields that [GetBranches] and the
    pull request code read ([Spec_Owner] is [g.Spec.Owner], and so
    on). *)
Module Github.
Record t : Type := mk {
  Spec_Owner : string;
  Spec_Repository : string;
  Spec_Branch : string;
  pipelineID : string;
  workingBranch : bool
}.
End Github.

(** Modelled from the spec: [reports.Action] belongs to another
    package; the action reads its [Title] and the text that
    [ToActionsString] renders. *)
Module reports.
Record Action : Type := mkAction {
  Title : string;
  ToActionsString : string
}.
End reports.

(** The [PullRequest] receiver.  [repository] is a pointer, [nil] until
    an entry point resolves it. *)
Module PullRequest.
Record t : Type := mk {
  gh : Github.t;
  Report : string;
  Title : string;
  spec : ActionSpec.t;
  remotePullRequest : PullRequestApi.t;
  repository : option Repository.t
}.
Definition set_Report (v : string) (p : t) : t :=
  mk (gh p) v (Title p) (spec p) (remotePullRequest p) (repository p).
Definition set_Title (v : string) (p : t) : t :=
  mk (gh p) (Report p) v (spec p) (remotePullRequest p) (repository p).
Definition set_remotePullRequest (v : PullRequestApi.t) (p : t) : t :=
  mk (gh p) (Report p) (Title p) (spec p) v (repository p).
Definition set_repository (v : option Repository.t) (p : t) : t :=
  mk (gh p) (Report p) (Title p) (spec p) (remotePullRequest p) v.
End PullRequest.

(** ** Mutation inputs (package [githubv4]); a pointer field is an option *)

Module CreatePullRequestInput.
Record t : Type := mk {
  RepositoryID : string;
  BaseRefName : string;
  HeadRefName : string;
  Title : string;
  Body : option string;
  MaintainerCanModify : option bool;
  Draft : option bool;
  HeadRepositoryID : option string
}.
End CreatePullRequestInput.

Module UpdatePullRequestInput.
Record t : Type := mk {
  PullRequestID : string;
  Title : option string;
  Body : option string;
  LabelIDs : option (list string)
}.
End UpdatePullRequestInput.

Module ClosePullRequestInput.
Record t : Type := mk { PullRequestID : string }.
End ClosePullRequestInput.

Module EnablePullRequestAutoMergeInput.
Record t : Type := mk {
  PullRequestID : string;
  MergeMethod : option string;
  CommitHeadline : option string
}.
End EnablePullRequestAutoMergeInput.

(** [githubv4.Int] is an [int32]: the conversion from [int] wraps. *)
Definition githubv4_Int (n : Z) : Z :=
  ((n + 2147483648) mod 4294967296 - 2147483648)%Z.

(** ** Collaborators: calls, log lines and the platform *)

(** Every call that leaves the pull request code: GraphQL queries and
    mutations through [p.gh.client], and the helpers of the package
    defined in other files, which query the platform themselves. *)
Inductive Call : Type :=
| queryRepository_call (sourceBranch workingBranch : string)
| getRepositoryLabels_call
| addComment_call (pullRequestID body : string)
| Query_pullRequests (owner name baseRefName headRefName : string)
| Query_pullRequestLabels (owner repository : string) (number : Z)
    (before : option string)
| Query_autoMergeAllowed (owner name : string)
| Mutate_createPullRequest (input : CreatePullRequestInput.t)
| Mutate_updatePullRequest (input : UpdatePullRequestInput.t)
| Mutate_closePullRequest (input : ClosePullRequestInput.t)
| Mutate_enablePullRequestAutoMerge (input : EnablePullRequestAutoMergeInput.t).

Inductive Level : Type := DebugLevel | InfoLevel | ErrorLevel.

(** A [logrus] line: level, format string and arguments as written. *)
Record LogEntry : Type := Log {
  level : Level;
  format : string;
  args : list string
}.

(** The answers of the collaborators.  A remote answer may depend on
    every call issued before it; [inl] is a result, [inr] an error. *)
Module Platform.
Record t : Type := mk {
  (** [nativeGitHandler.SanitizeBranchName] *)
  SanitizeBranchName : string -> string;
  (** [utils.GeneratePullRequestBody] *)
  GeneratePullRequestBody : string -> string -> string + error;
  (** [reports.MergeFromString] *)
  MergeFromString : string -> string -> string;
  (** [queryRepository] of [*Github] *)
  queryRepository : list Call -> string -> string -> Repository.t + error;
  (** [getRepositoryLabels] of [*Github] *)
  getRepositoryLabels : list Call -> list repositoryLabelApi.t + error;
  (** [addComment] of [*PullRequest] *)
  addComment : list Call -> string -> string -> option error;
  pullRequests :
    list Call -> string -> string -> string -> string ->
    list PullRequestApi.t + error;
  pullRequestLabels :
    list Call -> string -> string -> Z -> option string -> Labels.t + error;
  autoMergeAllowed : list Call -> string -> string -> bool + error;
  createPullRequest :
    list Call -> CreatePullRequestInput.t -> PullRequestApi.t + error;
  updatePullRequest :
    list Call -> UpdatePullRequestInput.t -> PullRequestApi.t + error;
  closePullRequest :
    list Call -> ClosePullRequestInput.t -> PullRequestApi.t + error;
  enablePullRequestAutoMerge :
    list Call -> EnablePullRequestAutoMergeInput.t -> PullRequestApi.t + error
}.
End Platform.

(** ** The monad of methods *)

(** How a call ends: it returns, it panics (a [nil] pointer is
    dereferenced), or the model's bound on loop iterations is reached. *)
Inductive outcome (A : Type) : Type :=
| Returns (a : A)
| Panics
| OutOfFuel.
Arguments Panics {A}.
Arguments OutOfFuel {A}.

(** A finished run: how it ended, the receiver afterwards, the calls it
    issued and the lines it logged, both in order. *)
Record Run (S A : Type) : Type := mkRun {
  out : outcome A;
  self : S;
  calls : list Call;
  logs : list LogEntry
}.

(** A computation reads the platform and the calls issued before it
    started, and transforms the receiver. *)
Definition M (S A : Type) : Type := Platform.t -> list Call -> S -> Run S A.

Definition M_ret {S A : Type} (a : A) : M S A :=
  fun _ _ s => mkRun (Returns a) s [] [].

Definition M_bind {S A B : Type} (m : M S A) (k : A -> M S B) : M S B :=
  fun pf h s =>
    match m pf h s with
    | mkRun (Returns a) s1 c1 l1 =>
        match k a pf (h ++ c1) s1 with
        | mkRun o s2 c2 l2 => mkRun o s2 (c1 ++ c2) (l1 ++ l2)
        end
    | mkRun Panics s1 c1 l1 => mkRun Panics s1 c1 l1
    | mkRun OutOfFuel s1 c1 l1 => mkRun OutOfFuel s1 c1 l1
    end.

#[global] Instance Monad_M (S : Type) : Monad (M S) :=
  {| ret := @M_ret S; bind := @M_bind S |}.

Section Primitives.
Context {S : Type}.

Definition get : M S S := fun _ _ s => mkRun (Returns s) s [] [].
Definition modify (f : S -> S) : M S unit :=
  fun _ _ s => mkRun (Returns tt) (f s) [] [].
Definition panic {A : Type} : M S A := fun _ _ s => mkRun Panics s [] [].
Definition outOfFuel {A : Type} : M S A := fun _ _ s => mkRun OutOfFuel s [] [].

(** A call to a remote collaborator: recorded, answered from the
    history. *)
Definition remote {A : Type} (c : Call) (answer : Platform.t -> list Call -> A)
  : M S A :=
  fun pf h s => mkRun (Returns (answer pf h)) s [c] [].

(** A call to a local collaborator: answered, not recorded. *)
Definition local {A : Type} (answer : Platform.t -> A) : M S A :=
  fun pf _ s => mkRun (Returns (answer pf)) s [] [].

Definition logrus (l : Level) (fmt : string) (a : list string) : M S unit :=
  fun _ _ s => mkRun (Returns tt) s [] [Log l fmt a].
Definition logrus_Debugf := logrus DebugLevel.
Definition logrus_Infof := logrus InfoLevel.
Definition logrus_Errorf := logrus ErrorLevel.

Definition nativeGitHandler_SanitizeBranchName (b : string) : M S string :=
  local (fun pf => Platform.SanitizeBranchName pf b).
Definition utils_GeneratePullRequestBody (description report : string)
  : M S (string + error) :=
  local (fun pf => Platform.GeneratePullRequestBody pf description report).
Definition reports_MergeFromString (old new : string) : M S string :=
  local (fun pf => Platform.MergeFromString pf old new).

Definition gh_queryRepository (sourceBranch workingBranch : string)
  : M S (Repository.t + error) :=
  remote (queryRepository_call sourceBranch workingBranch)
    (fun pf h => Platform.queryRepository pf h sourceBranch workingBranch).
Definition gh_getRepositoryLabels : M S (list repositoryLabelApi.t + error) :=
  remote getRepositoryLabels_call
    (fun pf h => Platform.getRepositoryLabels pf h).
Definition client_Query_pullRequests (owner name base head : string)
  : M S (list PullRequestApi.t + error) :=
  remote (Query_pullRequests owner name base head)
    (fun pf h => Platform.pullRequests pf h owner name base head).
Definition client_Query_pullRequestLabels (owner repository : string)
  (number : Z) (before : option string) : M S (Labels.t + error) :=
  remote (Query_pullRequestLabels owner repository number before)
    (fun pf h => Platform.pullRequestLabels pf h owner repository number before).
Definition client_Query_autoMergeAllowed (owner name : string)
  : M S (bool + error) :=
  remote (Query_autoMergeAllowed owner name)
    (fun pf h => Platform.autoMergeAllowed pf h owner name).
Definition client_Mutate_createPullRequest (input : CreatePullRequestInput.t)
  : M S (PullRequestApi.t + error) :=
  remote (Mutate_createPullRequest input)
    (fun pf h => Platform.createPullRequest pf h input).
Definition client_Mutate_updatePullRequest (input : UpdatePullRequestInput.t)
  : M S (PullRequestApi.t + error) :=
  remote (Mutate_updatePullRequest input)
    (fun pf h => Platform.updatePullRequest pf h input).
Definition client_Mutate_closePullRequest (input : ClosePullRequestInput.t)
  : M S (PullRequestApi.t + error) :=
  remote (Mutate_closePullRequest input)
    (fun pf h => Platform.closePullRequest pf h input).
Definition client_Mutate_enablePullRequestAutoMerge
  (input : EnablePullRequestAutoMergeInput.t) : M S (PullRequestApi.t + error) :=
  remote (Mutate_enablePullRequestAutoMerge input)
    (fun pf h => Platform.enablePullRequestAutoMerge pf h input).

(** [GetBranches] of [*Github]. *)
Definition GetBranches (g : Github.t) : M S (string * string * string) :=
  let sourceBranch := Github.Spec_Branch g in
  let workingBranch := Github.Spec_Branch g in
  let targetBranch := Github.Spec_Branch g in
  if (0 <? String.length (Github.pipelineID g))%nat && Github.workingBranch g
  then
    workingBranch <- nativeGitHandler_SanitizeBranchName
      ("updatecli_" ++ targetBranch ++ "_" ++ Github.pipelineID g)%string ;;
    ret (sourceBranch, workingBranch, targetBranch)
  else ret (sourceBranch, workingBranch, targetBranch).

End Primitives.

(** ** Validation and construction *)

Section Validation.
Context {S : Type}.

(** [isMergeMethodValid] ensures that a valid merge method is given. *)
Definition isMergeMethodValid (method : string) : M S (bool * option error) :=
  if (String.length method =? 0)%nat
     || (strings.ToUpper method =? "SQUASH")%string
     || (strings.ToUpper method =? "MERGE")%string
     || (strings.ToUpper method =? "REBASE")%string
  then ret (true, None)
  else
    logrus_Debugf "%s - %s" [method; Error ErrBadMergeMethod] ;;
    ret (false, Some ErrBadMergeMethod).

(** [Validate] ensures that the provided [ActionSpec] is valid. *)
Definition Validate (s : ActionSpec.t) : M S (option error) :=
  r <- isMergeMethodValid (ActionSpec.MergeMethod s) ;;
  match snd r with
  | Some err => ret (Some err)
  | None => ret None
  end.

Definition NewAction (spec : ActionSpec.t) (gh : Github.t)
  : M S (PullRequest.t * option error) :=
  err <- Validate spec ;;
  ret (PullRequest.mk gh "" "" spec PullRequestApi.zero None, err).

End Validation.

(** ** Labels *)

(** The labels of the repository that a configured name designates: the
    two nested loops of [updatePullRequest]. *)
Definition matchingLabels (labels : list string)
  (repositoryLabels : list repositoryLabelApi.t) : list repositoryLabelApi.t :=
  flat_map
    (fun l =>
       filter (fun repoLabel => (l =? repositoryLabelApi.Name repoLabel)%string)
         repositoryLabels)
    labels.

(** Modelled from the spec: [mergeLabels] is defined in a file of the
    package that is not part of the sources at hand.  The specification
    says of the label set of the update mutation that it is the union
    of the catalog labels matching a desired name and of the labels
    already attached to the pull request: the two lists put together,
    each label once. *)
Definition mergeLabels (a b : list repositoryLabelApi.t)
  : list repositoryLabelApi.t :=
  nodup repositoryLabelApi.eq_dec (a ++ b).

(** The label of one edge of the query result. *)
Definition labelOfEdge (node : LabelEdge.t) : repositoryLabelApi.t :=
  repositoryLabelApi.mk (LabelEdge.Node_ID node) (LabelEdge.Node_Name node)
    (LabelEdge.Node_Description node).

(** ** Methods of [*PullRequest] *)

Definition Method (A : Type) : Type := M PullRequest.t A.

(** A dereference of [p.repository]. *)
Definition p_repository : Method Repository.t :=
  p <- get ;;
  match PullRequest.repository p with
  | Some repository => ret repository
  | None => panic
  end.

(** The repository that lookups address: [owner] and [name] (or [repo])
    are those of the repository, replaced by those of its parent
    when [p.spec.Parent] is set; the same lines open
    [getRemotePullRequest] and [GetPullRequestLabelsInformation]. *)
Definition lookupOwner (spec : ActionSpec.t) (repository : Repository.t) : string :=
  if ActionSpec.Parent spec
  then Repository.ParentOwner repository else Repository.Owner repository.

Definition lookupName (spec : ActionSpec.t) (repository : Repository.t) : string :=
  if ActionSpec.Parent spec
  then Repository.ParentName repository else Repository.Name repository.

(** The [input] of [OpenPullRequest]: the struct literal, then the two
    assignments made when [p.spec.Parent] is set. *)
Definition createInput (p : PullRequest.t) (repository : Repository.t)
  (bodyPR workingBranch targetBranch : string) : CreatePullRequestInput.t :=
  let spec := PullRequest.spec p in
  CreatePullRequestInput.mk
    (if ActionSpec.Parent spec
     then Repository.ParentID repository else Repository.ID repository)
    targetBranch
    workingBranch
    (PullRequest.Title p)
    (Some bodyPR)
    (Some (negb (ActionSpec.MaintainerCannotModify spec)))
    (Some (ActionSpec.Draft spec))
    (if ActionSpec.Parent spec then Some (Repository.ID repository) else None).

(** The [input] of [updatePullRequest]: the struct literal, then
    [LabelIDs] set when [len(p.spec.Labels) != 0]. *)
Definition updateInput (p : PullRequest.t) (bodyPR : string)
  (labelsID : list string) : UpdatePullRequestInput.t :=
  UpdatePullRequestInput.mk
    (PullRequestApi.ID (PullRequest.remotePullRequest p))
    (Some (PullRequest.Title p))
    (Some bodyPR)
    (if negb (length (ActionSpec.Labels (PullRequest.spec p)) =? 0)%nat
     then Some labelsID else None).

(** The [input] of [EnablePullRequestAutoMerge]: the struct literal,
    then the merge method when one is configured, then the commit
    headline. *)
Definition enableInput (p : PullRequest.t) : EnablePullRequestAutoMergeInput.t :=
  let spec := PullRequest.spec p in
  EnablePullRequestAutoMergeInput.mk
    (PullRequestApi.ID (PullRequest.remotePullRequest p))
    (if (0 <? String.length (ActionSpec.MergeMethod spec))%nat
     then Some (strings.ToUpper (ActionSpec.MergeMethod spec))
     else None)
    (if ActionSpec.UseTitleForAutoMerge spec
     then
       if strings.EqualFold (ActionSpec.MergeMethod spec) "squash"
       then
         Some (PullRequest.Title p ++ " (#"
               ++ fmt_d (PullRequestApi.Number (PullRequest.remotePullRequest p))
               ++ ")")%string
       else if strings.EqualFold (ActionSpec.MergeMethod spec) "rebase"
       then Some (PullRequest.Title p)
       else None
     else None).

Definition p_addComment (body : string) : Method (option error) :=
  p <- get ;;
  let id := PullRequestApi.ID (PullRequest.remotePullRequest p) in
  remote (addComment_call id body) (fun pf h => Platform.addComment pf h id body).

Definition isAhead : Method bool :=
  repository <- p_repository ;;
  ret (Repository.Status repository =? "AHEAD")%string.

(** [closePullRequest] closes an existing pull request. *)
Definition closePullRequest : Method (option error) :=
  p <- get ;;
  let input :=
    ClosePullRequestInput.mk (PullRequestApi.ID (PullRequest.remotePullRequest p)) in
  r <- client_Mutate_closePullRequest input ;;
  match r with
  | inr err =>
      logrus_Debugf "Closing pull request: %s" [Error err] ;;
      ret (Some err)
  | inl mutation =>
      let msg := "Pull request closed as no changed file detected" in
      logrus_Infof "%s at:\n\n\t%s\n\n" [msg; PullRequestApi.Url mutation] ;;
      err <- p_addComment msg ;;
      match err with
      | Some e => logrus_Errorf "Commenting pull-request: %s" [Error e]
      | None => ret tt
      end ;;
      ret None
  end.

(** The loop of [GetPullRequestLabelsInformation]: one query per
    iteration, the labels of the page appended, the cursor moved to the
    start of the page.  [fuel] bounds the iterations of the model, the
    loop of the source has no bound: a run that reaches the bound ends
    [OutOfFuel].  [query.RateLimit.Show], which returns nothing, is left
    out. *)
Fixpoint labelsLoop (fuel : nat) (owner repo : string) (number : Z)
  (before : option string) (pullRequestLabels : list repositoryLabelApi.t)
  : Method (list repositoryLabelApi.t * option error) :=
  match fuel with
  | O => outOfFuel
  | Datatypes.S fuel' =>
      r <- client_Query_pullRequestLabels owner repo number before ;;
      match r with
      | inr err =>
          logrus_Errorf "\t%s" [Error err] ;;
          ret ([], Some err)
      | inl labels =>
          let pullRequestLabels :=
            pullRequestLabels ++ map labelOfEdge (Labels.Edges labels) in
          if negb (PageInfo.HasPreviousPage (Labels.PageInfo labels))
          then ret (pullRequestLabels, None)
          else
            labelsLoop fuel' owner repo number
              (Some (PageInfo.StartCursor (Labels.PageInfo labels)))
              pullRequestLabels
      end
  end.

(** [GetPullRequestLabelsInformation] queries the labels assigned to the
    pull request. *)
Definition GetPullRequestLabelsInformation (fuel : nat)
  : Method (list repositoryLabelApi.t * option error) :=
  p <- get ;;
  repository <- p_repository ;;
  let owner := lookupOwner (PullRequest.spec p) repository in
  let repo := lookupName (PullRequest.spec p) repository in
  labelsLoop fuel owner repo
    (githubv4_Int (PullRequestApi.Number (PullRequest.remotePullRequest p)))
    None [].

(** [updatePullRequest] updates an existing pull request. *)
Definition updatePullRequest (fuel : nat) : Method (option error) :=
  logrus_Debugf "Updating GitHub Pull Request" [] ;;
  p <- get ;;
  bodyPR <- utils_GeneratePullRequestBody
    (ActionSpec.Description (PullRequest.spec p)) (PullRequest.Report p) ;;
  match bodyPR with
  | inr err => ret (Some err)
  | inl bodyPR =>
      repositoryLabels <- gh_getRepositoryLabels ;;
      match repositoryLabels with
      | inr err =>
          logrus_Debugf "Error fetching repository labels: %s" [Error err] ;;
          ret (Some err)
      | inl repositoryLabels =>
          let matchingLabels :=
            matchingLabels (ActionSpec.Labels (PullRequest.spec p)) repositoryLabels in
          remotePRLabels <- GetPullRequestLabelsInformation fuel ;;
          match snd remotePRLabels with
          | Some err =>
              logrus_Debugf "Error fetching labels information: %s" [Error err] ;;
              ret (Some err)
          | None =>
              let labelsID :=
                map repositoryLabelApi.ID
                  (mergeLabels matchingLabels (fst remotePRLabels)) in
              let input := updateInput p bodyPR labelsID in
              r <- client_Mutate_updatePullRequest input ;;
              match r with
              | inr err =>
                  logrus_Debugf "Error updating pull-request: %s" [Error err] ;;
                  ret (Some err)
              | inl mutation =>
                  logrus_Infof "\nPull Request available at:\n\n\t%s\n\n"
                    [PullRequestApi.Url mutation] ;;
                  ret None
              end
          end
      end
  end.

(** [isAutoMergedEnabledOnRepository] checks whether the remote
    repository allows auto-merging pull requests. *)
Definition isAutoMergedEnabledOnRepository : Method (bool * option error) :=
  p <- get ;;
  r <- client_Query_autoMergeAllowed
    (Github.Spec_Owner (PullRequest.gh p)) (Github.Spec_Repository (PullRequest.gh p)) ;;
  match r with
  | inr err => ret (false, Some err)
  | inl autoMergeAllowed => ret (autoMergeAllowed, None)
  end.

(** [EnablePullRequestAutoMerge] sets the auto-merge flag of an existing
    pull request. *)
Definition EnablePullRequestAutoMerge : Method (option error) :=
  r <- isAutoMergedEnabledOnRepository ;;
  match snd r with
  | Some err => ret (Some err)
  | None =>
      if negb (fst r) then ret (Some ErrAutomergeNotAllowOnRepository)
      else
        p <- get ;;
        let input := enableInput p in
        r <- client_Mutate_enablePullRequestAutoMerge input ;;
        match r with
        | inr err => ret (Some err)
        | inl _ => ret None
        end
  end.

(** [OpenPullRequest] creates a new pull request. *)
Definition OpenPullRequest : Method (option error) :=
  p <- get ;;
  bodyPR <- utils_GeneratePullRequestBody
    (ActionSpec.Description (PullRequest.spec p)) (PullRequest.Report p) ;;
  match bodyPR with
  | inr err => ret (Some err)
  | inl bodyPR =>
      branches <- GetBranches (PullRequest.gh p) ;;
      let '(_, workingBranch, targetBranch) := branches in
      isAhead <- isAhead ;;
      if negb isAhead
      then
        logrus_Debugf "GitHub pullrequest not needed" [] ;;
        ret None
      else
        repository <- p_repository ;;
        let input := createInput p repository bodyPR workingBranch targetBranch in
        logrus_Debugf "Opening pull-request against repo from %q to %q"
          [CreatePullRequestInput.BaseRefName input;
           CreatePullRequestInput.HeadRefName input] ;;
        r <- client_Mutate_createPullRequest input ;;
        match r with
        | inr err =>
            logrus_Infof "\nError creating pull request:\n\n\t%s\n\n" [Error err] ;;
            ret (Some err)
        | inl mutation =>
            modify (PullRequest.set_remotePullRequest mutation) ;;
            ret None
        end
  end.

(** [getRemotePullRequest] checks whether an open pull request already
    exists for the pair of branches. *)
Definition getRemotePullRequest (resetBody : bool) : Method (option error) :=
  p <- get ;;
  repository <- p_repository ;;
  let owner := lookupOwner (PullRequest.spec p) repository in
  let name := lookupName (PullRequest.spec p) repository in
  branches <- GetBranches (PullRequest.gh p) ;;
  let '(_, workingBranch, targetBranch) := branches in
  r <- client_Query_pullRequests owner name targetBranch workingBranch ;;
  match r with
  | inr err =>
      logrus_Debugf "Error getting existing pull-request: %s" [Error err] ;;
      ret (Some err)
  | inl [] =>
      logrus_Debugf "No existing pull-request found in repo: %s/%s" [owner; name] ;;
      ret None
  | inl (node :: _) =>
      modify (PullRequest.set_remotePullRequest node) ;;
      (if resetBody
       then logrus_Debugf "Resetting pull-request body with new report" []
       else
         logrus_Debugf "Merging existing pull-request body with new report" [] ;;
         report <- reports_MergeFromString (PullRequestApi.Body node) (PullRequest.Report p) ;;
         modify (PullRequest.set_Report report)) ;;
      logrus_Infof "Existing GitHub pull request found: %s" [PullRequestApi.Url node] ;;
      ret None
  end.

(** [CleanAction] verifies whether an existing action requires some
    cleanup, such as closing a pull request with no changes. *)
Definition CleanAction (report : reports.Action) : Method (option error) :=
  repository <- gh_queryRepository "" "" ;;
  match repository with
  | inr err => ret (Some err)
  | inl repository =>
      modify (PullRequest.set_repository (Some repository)) ;;
      err <- getRemotePullRequest false ;;
      match err with
      | Some err => ret (Some err)
      | None =>
          p <- get ;;
          if (PullRequestApi.ID (PullRequest.remotePullRequest p) =? "")%string
          then
            logrus_Debugf "nothing to clean" [] ;;
            ret None
          else if (PullRequestApi.ChangedFiles (PullRequest.remotePullRequest p) =? 0)%Z
          then
            logrus_Debugf "No changed file detected at pull request:\n\t%s"
              [PullRequestApi.Url (PullRequest.remotePullRequest p)] ;;
            closePullRequest
          else ret None
      end
  end.

(** [CreateAction] creates a new pull request or updates an existing
    one. *)
Definition CreateAction (report : reports.Action) (resetDescription : bool)
  (fuel : nat) : Method (option error) :=
  modify (PullRequest.set_Report (reports.ToActionsString report)) ;;
  modify (PullRequest.set_Title (reports.Title report)) ;;
  p <- get ;;
  (if negb (ActionSpec.Title (PullRequest.spec p) =? "")%string
   then modify (PullRequest.set_Title (ActionSpec.Title (PullRequest.spec p)))
   else ret tt) ;;
  branches <- GetBranches (PullRequest.gh p) ;;
  let '(sourceBranch, workingBranch, _) := branches in
  repository <- gh_queryRepository sourceBranch workingBranch ;;
  match repository with
  | inr err => ret (Some err)
  | inl repository =>
      modify (PullRequest.set_repository (Some repository)) ;;
      err <- getRemotePullRequest resetDescription ;;
      match err with
      | Some err => ret (Some err)
      | None =>
          p <- get ;;
          err <-
            (if (String.length (PullRequestApi.ID (PullRequest.remotePullRequest p)) =? 0)%nat
             then OpenPullRequest else ret None) ;;
          match err with
          | Some err => ret (Some err)
          | None =>
              err <- updatePullRequest fuel ;;
              match err with
              | Some err => ret (Some err)
              | None =>
                  isAhead <- isAhead ;;
                  p <- get ;;
                  repository <- p_repository ;;
                  logrus_Debugf "Branch %s is %s of %s"
                    [workingBranch; Repository.Status repository; sourceBranch] ;;
                  if negb isAhead
                  then
                    logrus_Debugf "GitHub pullrequest not needed" [] ;;
                    ret None
                  else if (PullRequestApi.ChangedFiles (PullRequest.remotePullRequest p) =? 0)%Z
                  then
                    logrus_Debugf "No changed file detected in pull request %s"
                      [PullRequestApi.Url (PullRequest.remotePullRequest p)] ;;
                    closePullRequest
                  else if ActionSpec.AutoMerge (PullRequest.spec p)
                  then
                    err <- EnablePullRequestAutoMerge ;;
                    match err with
                    | Some err =>
                        (if (Error err =? Error ErrAutomergeNotAllowOnRepository)%string
                         then logrus_Errorf
                                "Automerge can't be enabled. Make sure to all it on the repository." []
                         else if (Error err =? Error ErrPullRequestIsInCleanStatus)%string
                         then logrus_Errorf
                                "Automerge can't be enabled. Make sure to have branch protection rules enabled on the repository." []
                         else logrus_Debugf "Error enabling automerge: %s" [Error err]) ;;
                        ret (Some err)
                    | None => ret None
                    end
                  else ret None
              end
          end
      end
  end.

(** * Commits through the API: the git operations of [*Github]

    [Commit], [CreateCommit] and [base64EncodeFile] of package
    [github].  The working directory, the native git handler, the
    commit message generator, the file system and the GraphQL client are
    an explicit [Workspace.t]; a method returns its result together
    with the commands that change something, in order. *)

(** Modelled from the spec: the struct [Github] is declared in another
    file of the package; next to the fields of [Github.t] these are the
    fields that [Commit] and [CreateCommit] read ([Spec_GPG_SigningKey]
    is [g.Spec.GPG.SigningKey], and so on). *)
Module Scm.
Record t : Type := mk {
  github : Github.t;
  Spec_Directory : string;
  Spec_User : string;
  Spec_Email : string;
  Spec_GPG_SigningKey : string;
  Spec_GPG_Passphrase : string;
  commitUsingApi : bool
}.
End Scm.

(** [githubv4.FileAddition] *)
Module FileAddition.
Record t : Type := mk {
  Path : string;
  Contents : string
}.
End FileAddition.

(** [githubv4.CreateCommitOnBranchInput]; a pointer field is an
    option. *)
Module CreateCommitOnBranchInput.
Record t : Type := mk {
  Branch_RepositoryNameWithOwner : option string;
  Branch_BranchName : option string;
  ExpectedHeadOid : string;
  Message_Headline : string;
  FileChanges_Additions : option (list FileAddition.t);
  FileChanges_Deletions : option (list string)
}.
End CreateCommitOnBranchInput.

(** An open file: what [io.Copy] reads from it, or the error that it
    meets. *)
Record File : Type := { contents : string + error }.

(** A command that changes the repository, local or remote. *)
Inductive GitCall : Type :=
| nativeGitHandler_Commit (user email message workingDir signingKey passphrase : string)
| Mutate_createCommitOnBranch (input : CreateCommitOnBranchInput.t).

Module Workspace.
Record t : Type := mk {
  (** [g.Spec.CommitMessage.Generate] *)
  Generate : string -> string + error;
  (** [g.nativeGitHandler.GetChangedFiles] *)
  GetChangedFiles : string -> list string + error;
  (** [g.nativeGitHandler.GetLatestCommitHash] *)
  GetLatestCommitHash : string -> string + error;
  (** [g.nativeGitHandler.Commit] *)
  Commit : string -> string -> string -> string -> string -> string -> option error;
  (** [os.Open] *)
  Open : string -> File + error;
  (** [base64.StdEncoding] applied to a whole content *)
  EncodeToString : string -> string;
  (** [g.client.Mutate] with a [createCommitOnBranch] input *)
  createCommitOnBranch : CreateCommitOnBranchInput.t -> option error
}.
End Workspace.

(** [GetDirectory] returns the local git repository path. *)
Definition GetDirectory (g : Scm.t) : string := Scm.Spec_Directory g.

(** [base64EncodeFile]: the file is opened and copied through the
    encoder into a buffer; closing the encoder of a buffer does not
    fail. *)
Definition base64EncodeFile (ws : Workspace.t) (path : string) : string + error :=
  match Workspace.Open ws path with
  | inr err => inr err
  | inl file =>
      match contents file with
      | inr err => inr err
      | inl content => inl (Workspace.EncodeToString ws content)
      end
  end.

(** The loop of [CreateCommit] over the changed files, from file [f]
    on. *)
Fixpoint CreateCommit_additions (ws : Workspace.t) (workingDir : string)
  (files : list string) (additions : list FileAddition.t)
  : list FileAddition.t + error :=
  match files with
  | [] => inl additions
  | f :: files' =>
      let fullPath := (workingDir ++ "/" ++ f)%string in
      match base64EncodeFile ws fullPath with
      | inr err => inr err
      | inl enc =>
          CreateCommit_additions ws workingDir files'
            (additions ++ [FileAddition.mk f enc])
      end
  end.

Definition CreateCommit (ws : Workspace.t) (g : Scm.t) (commitMessage : string)
  : option error * list GitCall :=
  let workingDir := GetDirectory g in
  match Workspace.GetChangedFiles ws workingDir with
  | inr err => (Some err, [])
  | inl files =>
      match CreateCommit_additions ws workingDir files [] with
      | inr err => (Some err, [])
      | inl additions =>
          let repositoryName :=
            (Github.Spec_Owner (Scm.github g) ++ "/"
             ++ Github.Spec_Repository (Scm.github g))%string in
          match Workspace.GetLatestCommitHash ws workingDir with
          | inr err => (Some err, [])
          | inl headOid =>
              let input :=
                CreateCommitOnBranchInput.mk (Some repositoryName)
                  (Some (Github.Spec_Branch (Scm.github g))) headOid commitMessage
                  (Some additions) None in
              match Workspace.createCommitOnBranch ws input with
              | Some err => (Some err, [Mutate_createCommitOnBranch input])
              | None => (None, [Mutate_createCommitOnBranch input])
              end
          end
      end
  end.

(** [Commit] runs [git commit], or commits through the API. *)
Definition Commit (ws : Workspace.t) (g : Scm.t) (message : string)
  : option error * list GitCall :=
  match Workspace.Generate ws message with
  | inr err => (Some err, [])
  | inl commitMessage =>
      if Scm.commitUsingApi g
      then
        match CreateCommit ws g commitMessage with
        | (Some err, calls) => (Some err, calls)
        | (None, calls) => (None, calls)
        end
      else
        let call :=
          nativeGitHandler_Commit (Scm.Spec_User g) (Scm.Spec_Email g) commitMessage
            (GetDirectory g) (Scm.Spec_GPG_SigningKey g) (Scm.Spec_GPG_Passphrase g) in
        match Workspace.Commit ws (Scm.Spec_User g) (Scm.Spec_Email g) commitMessage
                (GetDirectory g) (Scm.Spec_GPG_SigningKey g) (Scm.Spec_GPG_Passphrase g) with
        | Some err => (Some err, [call])
        | None => (None, [call])
        end
  end.

(** * The key of a YAML file: [pkg/yaml/main.go]

    [searchAndUpdateVersion] walks a parsed YAML document, a tree of
    [yaml.Node] of [gopkg.in/yaml.v3], along a path of keys and
    overwrites the scalar that it reaches.

    - The nodes of a parsed document form a tree: [Content] holds the
      children of a node, none of them [nil].  The function writes to
      the nodes in place; the model returns the tree after the call
      next to the three results.
    - Of the fields of [yaml.Node] the model keeps those that the
      function or [SetString] reads or writes, and [Line]; anchors,
      aliases and comments are left out.
    - [SetString] belongs to [gopkg.in/yaml.v3]: it is a parameter of
      the model.
    - An index out of range panics: the function returns [None]. *)

Module yaml.

(** [yaml.Kind]: [DocumentNode = 1 << iota] and so on. *)
Definition Kind : Type := N.
Definition DocumentNode : Kind := 1%N.
Definition SequenceNode : Kind := 2%N.
Definition MappingNode : Kind := 4%N.
Definition ScalarNode : Kind := 8%N.
Definition AliasNode : Kind := 16%N.

#[local] Unset Elimination Schemes.
(** [yaml.Node]; [Kind_] is its field [Kind]. *)
Inductive Node : Type := mk {
  Kind_ : Kind;
  Style : N;
  Tag : string;
  Value : string;
  Content : list Node;
  Line : Z;
  Column : Z
}.
#[local] Set Elimination Schemes.

(** The node with other children. *)
Definition withContent (n : Node) (content : list Node) : Node :=
  mk (Kind_ n) (Style n) (Tag n) (Value n) content (Line n) (Column n).

End yaml.

(** The results of [searchAndUpdateVersion], [found], [oldVersion] and
    [column], and what the loop leaves of the children at hand. *)
Definition Searched (A : Type) : Type := option (bool * string * Z * A).

Definition searched {A B : Type} (f : A -> B) (r : Searched A) : Searched B :=
  match r with
  | Some (found, oldVersion, column, a) => Some (found, oldVersion, column, f a)
  | None => None
  end.

Section searchAndUpdateVersion_loop.
(** [content.SetString(version)] *)
Variable SetString : string -> yaml.Node -> yaml.Node.
(** The recursive call on a child. *)
Variable searchAndUpdateVersion :
  yaml.Node -> list string -> Z -> Searched yaml.Node.
Variables (version : string) (columnRef : Z).

(** The loop [for _, content := range entry.Content] from the child
    at hand on, with the variables [keys], [valueFound], [oldVersion],
    [column] and [nextLevel] of the function; [break] returns the
    children left as they are, [continue] goes on with the next
    child. *)
Fixpoint searchAndUpdateVersion_loop (contents : list yaml.Node) (keys : list string)
  (valueFound : bool) (oldVersion : string) (column : Z) (nextLevel : bool)
  {struct contents} : Searched (list yaml.Node) :=
  match contents with
  | [] => Some (valueFound, oldVersion, column, [])
  | content :: rest =>
      if (yaml.Column content <? column)%Z
      then Some (valueFound, oldVersion, column, content :: rest)
      else
        let column := if nextLevel then yaml.Column content else column in
        let nextLevel := if nextLevel then false else nextLevel in
        match keys with
        | [] => None
        | key :: keys' =>
            let matched :=
              (yaml.Value content =? key)%string
              && (yaml.Column content =? columnRef)%Z in
            let column := if matched then yaml.Column content else column in
            let nextLevel := if matched then true else nextLevel in
            if matched && (length keys =? 1)%nat
            then
              searched (cons content)
                (searchAndUpdateVersion_loop rest keys true oldVersion column nextLevel)
            else
              let keys := if matched && (1 <? length keys)%nat then keys' else keys in
              if (yaml.Kind_ content =? yaml.ScalarNode)%N && Bool.eqb valueFound true
              then
                Some (valueFound, yaml.Value content, yaml.Column content,
                      SetString version content :: rest)
              else if (yaml.Kind_ content =? yaml.MappingNode)%N
              then
                match searchAndUpdateVersion content keys column with
                | None => None
                | Some (valueFound, oldVersion, column, content) =>
                    searched (cons content)
                      (searchAndUpdateVersion_loop rest keys valueFound oldVersion
                         column nextLevel)
                end
              else
                searched (cons content)
                  (searchAndUpdateVersion_loop rest keys valueFound oldVersion
                     column nextLevel)
        end
  end.
End searchAndUpdateVersion_loop.

(** [searchAndUpdateVersion] parses a yaml object looking for a specific
    key that needs to be updated. *)
Fixpoint searchAndUpdateVersion (SetString : string -> yaml.Node -> yaml.Node)
  (entry : yaml.Node) (keys : list string) (version : string) (columnRef : Z)
  {struct entry} : Searched yaml.Node :=
  searched (yaml.withContent entry)
    (searchAndUpdateVersion_loop SetString
       (fun content keys column =>
          searchAndUpdateVersion SetString content keys version column)
       version columnRef (yaml.Content entry) keys false "" columnRef false).

(** * Notions used by the statements *)

(** ** Letters *)

Module letters.
Import strings.

(** A lower-case ASCII letter other than [i] and [k]: its upper case
    is the upper case of no rune outside ASCII but the long s, and
    its fold orbit holds no rune outside ASCII but the long s. *)
Definition plainLetter (l : ascii) : bool :=
  isLower l && negb (isByte 105 l) && negb (isByte 107 l).

Fixpoint plain (t : string) : bool :=
  match t with
  | EmptyString => true
  | String l t' => plainLetter l && plain t'
  end.

Fixpoint upperBytes (t : string) : string :=
  match t with
  | EmptyString => EmptyString
  | String l t' => String (upperByte l) (upperBytes t')
  end.

(** A test that holds of all 256 bytes. *)
Definition allBytes (f : ascii -> bool) : bool :=
  forallb f (map ascii_of_nat (seq 0 256)).

(** What the proofs need to know about a plain letter [l] and a byte
    [c]; checked by evaluation over all pairs. *)
Definition letterFacts (l c : ascii) : bool :=
  implb (plainLetter l)
    (Bool.eqb (Ascii.eqb "S" (upperByte l)) (Ascii.eqb "s" l)
     && negb (Ascii.eqb "I" (upperByte l))
     && negb (Ascii.eqb "k" l)
     && Bool.eqb (Ascii.eqb (upperByte c) (upperByte l)) (Ascii.eqb (lowerByte c) l)
     && negb (isByte 196 c && Ascii.eqb (lowerByte c) l)
     && negb (isByte 226 c && Ascii.eqb (upperByte c) (upperByte l))).
End letters.

(** The merge methods that the action accepts, compared under case
    folding as [EnablePullRequestAutoMerge] compares them. *)
Definition acceptedMergeMethod (method : string) : Prop :=
  method = ""
  \/ strings.EqualFold method "squash" = true
  \/ strings.EqualFold method "merge" = true
  \/ strings.EqualFold method "rebase" = true.

(** ** Branches *)

(** The three branches that [GetBranches] returns. *)
Definition branchesOf (pf : Platform.t) (g : Github.t) : string * string * string :=
  let b := Github.Spec_Branch g in
  if (0 <? String.length (Github.pipelineID g))%nat && Github.workingBranch g
  then (b, Platform.SanitizeBranchName pf ("updatecli_" ++ b ++ "_" ++ Github.pipelineID g)%string, b)
  else (b, b, b).

Definition sourceOf (pf : Platform.t) (g : Github.t) : string := fst (fst (branchesOf pf g)).
Definition workingOf (pf : Platform.t) (g : Github.t) : string := snd (fst (branchesOf pf g)).
Definition targetOf (pf : Platform.t) (g : Github.t) : string := snd (branchesOf pf g).

(** ** Pages of labels *)

Definition hasPrevious (page : Labels.t) : bool :=
  PageInfo.HasPreviousPage (Labels.PageInfo page).

Definition startOf (page : Labels.t) : string :=
  PageInfo.StartCursor (Labels.PageInfo page).

Definition labelsOf (page : Labels.t) : list repositoryLabelApi.t :=
  map labelOfEdge (Labels.Edges page).

(** The platform serves [pages], in this order, and then answers
    [final], to the queries for the labels of pull request [number] of
    [owner]/[repo] that start after history [h] with cursor [before]
    and continue, page after page, from the start cursor of the page
    just served. *)
Fixpoint served (pf : Platform.t) (h : list Call) (owner repo : string)
  (number : Z) (before : option string) (pages : list Labels.t)
  (final : Labels.t + error) : Prop :=
  match pages with
  | [] => Platform.pullRequestLabels pf h owner repo number before = final
  | page :: rest =>
      Platform.pullRequestLabels pf h owner repo number before = inl page
      /\ served pf (h ++ [Query_pullRequestLabels owner repo number before])
           owner repo number (Some (startOf page)) rest final
  end.

(** The cursors of the queries that fetch [pages] and one more page:
    [before], then the start cursor of each page. *)
Definition cursors (before : option string) (pages : list Labels.t)
  : list (option string) :=
  before :: map (fun page => Some (startOf page)) pages.

Definition labelQueries (owner repo : string) (number : Z)
  (before : option string) (pages : list Labels.t) : list Call :=
  map (Query_pullRequestLabels owner repo number) (cursors before pages).

(** ** What a method may send *)

(** The title that [CreateAction] gives the pull request. *)
Definition chosenTitle (spec : ActionSpec.t) (report : reports.Action) : string :=
  if negb (ActionSpec.Title spec =? "")%string
  then ActionSpec.Title spec else reports.Title report.

(** The label set that [updatePullRequest] computes from the configured
    names, the labels of the repository and the labels of the pull
    request. *)
Definition labelSet (desired : list string)
  (catalog attached : list repositoryLabelApi.t) : list repositoryLabelApi.t :=
  mergeLabels (matchingLabels desired catalog) attached.

Definition closingComment : string :=
  "Pull request closed as no changed file detected".

Definition sentByLabels (p : PullRequest.t) (c : Call) : Prop :=
  exists r before,
    PullRequest.repository p = Some r
    /\ c = Query_pullRequestLabels
             (lookupOwner (PullRequest.spec p) r) (lookupName (PullRequest.spec p) r)
             (githubv4_Int (PullRequestApi.Number (PullRequest.remotePullRequest p)))
             before.

Definition sentByUpdate (p : PullRequest.t) (c : Call) : Prop :=
  c = getRepositoryLabels_call
  \/ sentByLabels p c
  \/ exists bodyPR catalog attached,
       c = Mutate_updatePullRequest
             (updateInput p bodyPR
                (map repositoryLabelApi.ID
                   (labelSet (ActionSpec.Labels (PullRequest.spec p)) catalog attached))).

Definition sentByOpen (pf : Platform.t) (p : PullRequest.t) (c : Call) : Prop :=
  exists r bodyPR,
    PullRequest.repository p = Some r
    /\ Repository.Status r = "AHEAD"
    /\ c = Mutate_createPullRequest
             (createInput p r bodyPR (workingOf pf (PullRequest.gh p))
                (targetOf pf (PullRequest.gh p))).

Definition sentByClose (p : PullRequest.t) (c : Call) : Prop :=
  c = Mutate_closePullRequest
        (ClosePullRequestInput.mk (PullRequestApi.ID (PullRequest.remotePullRequest p)))
  \/ c = addComment_call (PullRequestApi.ID (PullRequest.remotePullRequest p))
           closingComment.

Definition sentByEnable (p : PullRequest.t) (c : Call) : Prop :=
  c = Query_autoMergeAllowed (Github.Spec_Owner (PullRequest.gh p))
        (Github.Spec_Repository (PullRequest.gh p))
  \/ c = Mutate_enablePullRequestAutoMerge (enableInput p).

Definition sentByLookup (pf : Platform.t) (p : PullRequest.t) (c : Call) : Prop :=
  exists r,
    PullRequest.repository p = Some r
    /\ c = Query_pullRequests
             (lookupOwner (PullRequest.spec p) r) (lookupName (PullRequest.spec p) r)
             (targetOf pf (PullRequest.gh p)) (workingOf pf (PullRequest.gh p)).

(** The fields that no method changes once an entry point has set
    them. *)
Definition framed (p q : PullRequest.t) : Prop :=
  PullRequest.gh q = PullRequest.gh p
  /\ PullRequest.spec q = PullRequest.spec p
  /\ PullRequest.Title q = PullRequest.Title p
  /\ PullRequest.repository q = PullRequest.repository p.

(** Receiver [q] has the configuration of [p], the title [title] and
    the resolved repository [r]. *)
Definition prepared (p : PullRequest.t) (title : string) (r : Repository.t)
  (q : PullRequest.t) : Prop :=
  PullRequest.gh q = PullRequest.gh p
  /\ PullRequest.spec q = PullRequest.spec p
  /\ PullRequest.Title q = title
  /\ PullRequest.repository q = Some r.

(** A call of [CreateAction], started on receiver [p] with [report],
    after the repository was resolved to [r]: the resolution itself, or
    a call sent by one of the steps on a receiver that has the
    configuration of [p], the chosen title and the repository [r]; the
    steps that close and that enable auto-merge run only when the
    branch is ahead. *)
Definition sentByCreateAction (pf : Platform.t) (p : PullRequest.t)
  (report : reports.Action) (r : Repository.t) (c : Call) : Prop :=
  c = queryRepository_call (sourceOf pf (PullRequest.gh p)) (workingOf pf (PullRequest.gh p))
  \/ exists q,
       prepared p (chosenTitle (PullRequest.spec p) report) r q
       /\ (sentByLookup pf q c \/ sentByOpen pf q c \/ sentByUpdate q c
           \/ (Repository.Status r = "AHEAD" /\ (sentByClose q c \/ sentByEnable q c))).

(** The same for [CleanAction], which leaves the title alone. *)
Definition sentByCleanAction (pf : Platform.t) (p : PullRequest.t)
  (r : Repository.t) (c : Call) : Prop :=
  c = queryRepository_call "" ""
  \/ exists q,
       prepared p (PullRequest.Title p) r q
       /\ (sentByLookup pf q c \/ sentByClose q c).

(** ** What the specification says of a call *)

Definition isCreate (c : Call) : bool :=
  match c with Mutate_createPullRequest _ => true | _ => false end.


Definition isEnable (c : Call) : bool :=
  match c with Mutate_enablePullRequestAutoMerge _ => true | _ => false end.

(** A call that neither creates nor closes a pull request, nor comments
    on one, nor asks for or enables auto-merge. *)
Definition onlyReconciles (c : Call) : Prop :=
  match c with
  | Mutate_createPullRequest _ | Mutate_closePullRequest _
  | Mutate_enablePullRequestAutoMerge _ | addComment_call _ _
  | Query_autoMergeAllowed _ _ => False
  | _ => True
  end.

(** A mutation that creates or updates the pull request carries
    [title]. *)
Definition carriesTitle (title : string) (c : Call) : Prop :=
  match c with
  | Mutate_createPullRequest input => CreatePullRequestInput.Title input = title
  | Mutate_updatePullRequest input => UpdatePullRequestInput.Title input = Some title
  | _ => True
  end.

(** A lookup of pull requests or of the labels of a pull request
    addresses the parent of [r]; a create mutation has the parent as its
    base repository and [r] as its head repository. *)
Definition targetsParent (r : Repository.t) (c : Call) : Prop :=
  match c with
  | Query_pullRequests owner name _ _ =>
      owner = Repository.ParentOwner r /\ name = Repository.ParentName r
  | Query_pullRequestLabels owner repo _ _ =>
      owner = Repository.ParentOwner r /\ repo = Repository.ParentName r
  | Mutate_createPullRequest input =>
      CreatePullRequestInput.RepositoryID input = Repository.ParentID r
      /\ CreatePullRequestInput.HeadRepositoryID input = Some (Repository.ID r)
  | _ => True
  end.

(** An update mutation has no [LabelIDs] when no label is configured,
    and otherwise the identifiers of a label set computed from
    [desired]. *)
Definition carriesLabels (desired : list string) (c : Call) : Prop :=
  match c with
  | Mutate_updatePullRequest input =>
      match desired with
      | [] => UpdatePullRequestInput.LabelIDs input = None
      | _ :: _ =>
          exists catalog attached,
            UpdatePullRequestInput.LabelIDs input
            = Some (map repositoryLabelApi.ID (labelSet desired catalog attached))
      end
  | _ => True
  end.

(** ** Platforms that answer *)


(** Within [fuel] pages the platform lists the labels of any pull
    request, and it lists the labels of the repository. *)
Definition listsLabels (pf : Platform.t) (fuel : nat) : Prop :=
  (forall h, exists catalog, Platform.getRepositoryLabels pf h = inl catalog)
  /\ (forall h owner repo number,
        exists pages final,
          served pf h owner repo number None pages (inl final)
          /\ forallb hasPrevious pages = true
          /\ hasPrevious final = false
          /\ length pages < fuel).





(** The line that [closePullRequest] logs when the comment fails. *)
Definition commentFailure (err : error) : LogEntry :=
  Log ErrorLevel "Commenting pull-request: %s" [Error err].


(** ** A platform to run the action on *)

Module Sample.

Definition gh : Github.t := Github.mk "octo" "fork" "main" "deps" true.

Definition repository (status : string) : Repository.t :=
  Repository.mk "R_fork" "octo" "fork" "R_parent" "upstream" "project" status.

Definition spec : ActionSpec.t :=
  ActionSpec.mk true "Bump x to 2.0" "" ["chore"; "dependencies"] false false
    "squash" true true.

(** What [NewAction] returns for [spec]. *)
Definition action : PullRequest.t :=
  PullRequest.mk gh "" "" spec PullRequestApi.zero None.

Definition report : reports.Action := reports.mkAction "bump x" "x: 1.0 -> 2.0".

(** An open pull request; [changed] is its number of changed files. *)
Definition pullRequest (changed : Z) : PullRequestApi.t :=
  PullRequestApi.mk changed "main" "x: 0.9 -> 1.0" "updatecli_main_deps" "PR_42"
    "OPEN" "Bump x to 1.0" "https://example.com/pull/42" 42.

Definition bug : repositoryLabelApi.t := repositoryLabelApi.mk "L_1" "bug" "".
Definition chore : repositoryLabelApi.t := repositoryLabelApi.mk "L_2" "chore" "".
Definition docs : repositoryLabelApi.t := repositoryLabelApi.mk "L_3" "docs" "".
Definition dependencies : repositoryLabelApi.t :=
  repositoryLabelApi.mk "L_4" "dependencies" "".

Definition catalog : list repositoryLabelApi.t := [bug; chore; docs; dependencies].

Definition edge (cursor : string) (l : repositoryLabelApi.t) : LabelEdge.t :=
  LabelEdge.mk cursor (repositoryLabelApi.ID l) (repositoryLabelApi.Name l)
    (repositoryLabelApi.Description l).

(** The labels of the pull request come in three pages, the most
    recent first. *)
Definition newest : Labels.t :=
  Labels.mk 3 (PageInfo.mk false true "c3" "c3") [edge "c3" docs].
Definition middle : Labels.t :=
  Labels.mk 3 (PageInfo.mk true true "c2" "c2") [edge "c2" bug].
Definition oldest : Labels.t :=
  Labels.mk 3 (PageInfo.mk true false "c1" "c1") [edge "c1" chore].

Definition page (before : option string) : Labels.t + error :=
  match before with
  | None => inl newest
  | Some cursor =>
      if (cursor =? "c3")%string then inl middle
      else if (cursor =? "c2")%string then inl oldest
      else inr (errors_New "unknown cursor")
  end.

Definition unavailable : error := errors_New "502 Bad Gateway".
Definition forbidden : error := errors_New "Resource not accessible".

(** A platform on which the branch has [status], the lookup finds
    [existing], an update is answered by [updated], a comment by
    [commented] and the question whether auto-merge is allowed by
    [allowed]. *)
Definition platform (status : string) (existing : list PullRequestApi.t)
  (updated : PullRequestApi.t + error) (commented : option error)
  (allowed : bool + error) : Platform.t :=
  Platform.mk
    (fun b => b)
    (fun description report => inl (description ++ report)%string)
    (fun old new => (old ++ new)%string)
    (fun _ _ _ => inl (repository status))
    (fun _ => inl catalog)
    (fun _ _ _ => commented)
    (fun _ _ _ _ _ => inl existing)
    (fun _ _ _ _ before => page before)
    (fun _ _ _ => allowed)
    (fun _ _ => inl (pullRequest 1))
    (fun _ _ => updated)
    (fun _ _ => inl (pullRequest 0))
    (fun _ _ => inl (pullRequest 1)).

End Sample.

(** * Further notions: the steps of the entry points *)

(** A run that does not end on a [nil] dereference. *)
Definition noPanic {A : Type} (o : outcome A) : Prop :=
  match o with
  | Panics => False
  | _ => True
  end.

(** Receiver [p] renders to [bodyPR]: the [utils.GeneratePullRequestBody]
    call that opens [OpenPullRequest] and [updatePullRequest]. *)
Definition rendered (pf : Platform.t) (p : PullRequest.t) (bodyPR : string) : Prop :=
  Platform.GeneratePullRequestBody pf
    (ActionSpec.Description (PullRequest.spec p)) (PullRequest.Report p)
  = inl bodyPR.

(** A create or an update mutation carries the body that
    [utils.GeneratePullRequestBody] renders from [description] and
    [text]. *)
Definition carriesBody (pf : Platform.t) (description text : string) (c : Call) : Prop :=
  match c with
  | Mutate_createPullRequest input =>
      exists body,
        Platform.GeneratePullRequestBody pf description text = inl body
        /\ CreatePullRequestInput.Body input = Some body
  | Mutate_updatePullRequest input =>
      exists body,
        Platform.GeneratePullRequestBody pf description text = inl body
        /\ UpdatePullRequestInput.Body input = Some body
  | _ => True
  end.

(** The text [p.Report] of a receiver during [CreateAction]: the text of
    [report], or, when the description is not reset, that text merged by
    [reports.MergeFromString] into the body of a pull request that a
    lookup returned first. *)
Definition reportOf (pf : Platform.t) (report : reports.Action) (reset : bool)
  (text : string) : Prop :=
  text = reports.ToActionsString report
  \/ (reset = false
      /\ exists h owner name base head node nodes,
           Platform.pullRequests pf h owner name base head = inl (node :: nodes)
           /\ text = Platform.MergeFromString pf (PullRequestApi.Body node)
                       (reports.ToActionsString report)).

(** A call of [CreateAction], started on receiver [p] with [report],
    after the repository was resolved to [r]: the resolution itself, or
    a call sent by one step on a receiver [q] that has the configuration
    of [p], the chosen title and the repository [r], together with what
    the source tests before it runs the step. *)
Definition stepOfCreateAction (pf : Platform.t) (p : PullRequest.t)
  (report : reports.Action) (reset : bool) (r : Repository.t) (c : Call) : Prop :=
  c = queryRepository_call (sourceOf pf (PullRequest.gh p)) (workingOf pf (PullRequest.gh p))
  \/ exists q,
       prepared p (chosenTitle (PullRequest.spec p) report) r q
       /\ reportOf pf report reset (PullRequest.Report q)
       /\ carriesBody pf (ActionSpec.Description (PullRequest.spec p)) (PullRequest.Report q) c
       /\ ((PullRequest.Report q = reports.ToActionsString report
            /\ PullRequest.remotePullRequest q = PullRequest.remotePullRequest p
            /\ sentByLookup pf q c)
           \/ (PullRequestApi.ID (PullRequest.remotePullRequest q) = ""
               /\ sentByOpen pf q c)
           \/ sentByUpdate q c
           \/ (Repository.Status r = "AHEAD"
               /\ PullRequestApi.ChangedFiles (PullRequest.remotePullRequest q) = 0%Z
               /\ sentByClose q c)
           \/ (Repository.Status r = "AHEAD"
               /\ PullRequestApi.ChangedFiles (PullRequest.remotePullRequest q) <> 0%Z
               /\ ActionSpec.AutoMerge (PullRequest.spec p) = true
               /\ sentByEnable q c)).

(** ** What a call is *)

Definition isUpdate (c : Call) : bool :=
  match c with Mutate_updatePullRequest _ => true | _ => false end.

(** The question whether auto-merge is allowed, or the mutation that
    enables it. *)
Definition isAutoMerge (c : Call) : bool :=
  match c with
  | Query_autoMergeAllowed _ _ | Mutate_enablePullRequestAutoMerge _ => true
  | _ => false
  end.

(** A call that [CleanAction] may send. *)
Definition cleans (c : Call) : bool :=
  match c with
  | queryRepository_call _ _ | Query_pullRequests _ _ _ _
  | Mutate_closePullRequest _ | addComment_call _ _ => true
  | _ => false
  end.

(** A lookup of pull requests or of the labels of a pull request
    addresses [r] itself; a create mutation has [r] as its base
    repository and names no head repository. *)
Definition targetsSelf (r : Repository.t) (c : Call) : Prop :=
  match c with
  | Query_pullRequests owner name _ _ =>
      owner = Repository.Owner r /\ name = Repository.Name r
  | Query_pullRequestLabels owner repo _ _ =>
      owner = Repository.Owner r /\ repo = Repository.Name r
  | Mutate_createPullRequest input =>
      CreatePullRequestInput.RepositoryID input = Repository.ID r
      /\ CreatePullRequestInput.HeadRepositoryID input = None
  | _ => True
  end.

(** The question whether auto-merge is allowed addresses the repository
    [owner]/[name]. *)
Definition asksAbout (owner name : string) (c : Call) : Prop :=
  match c with
  | Query_autoMergeAllowed o n => o = owner /\ n = name
  | _ => True
  end.

(** A create mutation goes from branch [head] to branch [base], as a
    draft or not, and lets the maintainers modify the branch or not. *)
Definition opensFrom (head base : string) (draft maintainerCanModify : bool)
  (c : Call) : Prop :=
  match c with
  | Mutate_createPullRequest input =>
      CreatePullRequestInput.HeadRefName input = head
      /\ CreatePullRequestInput.BaseRefName input = base
      /\ CreatePullRequestInput.Draft input = Some draft
      /\ CreatePullRequestInput.MaintainerCanModify input = Some maintainerCanModify
  | _ => True
  end.

(** An update mutation, or a lookup of labels, concerns pull request
    [pr]. *)
Definition concerns (pr : PullRequestApi.t) (c : Call) : Prop :=
  match c with
  | Mutate_updatePullRequest input =>
      UpdatePullRequestInput.PullRequestID input = PullRequestApi.ID pr
  | Query_pullRequestLabels _ _ number _ =>
      number = githubv4_Int (PullRequestApi.Number pr)
  | _ => True
  end.

(** The platform accepts the create mutation and answers [pr]. *)
Definition creates (pf : Platform.t) (pr : PullRequestApi.t) : Prop :=
  forall h input, Platform.createPullRequest pf h input = inl pr.

(** The lookup of pull requests finds nothing. *)
Definition findsNone (pf : Platform.t) : Prop :=
  forall h owner name base head, Platform.pullRequests pf h owner name base head = inl [].

(** The merge methods of the GraphQL enumeration
    [PullRequestMergeMethod]. *)
Definition PullRequestMergeMethod : list string := ["MERGE"; "SQUASH"; "REBASE"].

(** ** Runs of the lookup *)

(** The lookup of pull requests that a receiver with repository [r]
    sends. *)
Definition lookupCall (pf : Platform.t) (p : PullRequest.t) (r : Repository.t) : Call :=
  Query_pullRequests (lookupOwner (PullRequest.spec p) r) (lookupName (PullRequest.spec p) r)
    (targetOf pf (PullRequest.gh p)) (workingOf pf (PullRequest.gh p)).

(** What the platform answers to it after history [h]. *)
Definition lookupAnswer (pf : Platform.t) (h : list Call) (p : PullRequest.t)
  (r : Repository.t) : list PullRequestApi.t + error :=
  Platform.pullRequests pf h
    (lookupOwner (PullRequest.spec p) r) (lookupName (PullRequest.spec p) r)
    (targetOf pf (PullRequest.gh p)) (workingOf pf (PullRequest.gh p)).

(** The receiver after [getRemotePullRequest] has found [node]. *)
Definition found (pf : Platform.t) (resetBody : bool) (node : PullRequestApi.t)
  (p : PullRequest.t) : PullRequest.t :=
  if resetBody
  then PullRequest.set_remotePullRequest node p
  else
    PullRequest.set_Report
      (Platform.MergeFromString pf (PullRequestApi.Body node) (PullRequest.Report p))
      (PullRequest.set_remotePullRequest node p).

(** The receiver of [CreateAction] when it looks the pull request up. *)
Definition readied (p : PullRequest.t) (report : reports.Action) (r : Repository.t)
  : PullRequest.t :=
  PullRequest.set_repository (Some r)
    (PullRequest.set_Title (chosenTitle (PullRequest.spec p) report)
       (PullRequest.set_Report (reports.ToActionsString report) p)).

(** ** Platforms with one answer replaced *)

Definition withLookup (answer : list PullRequestApi.t + error) (pf : Platform.t)
  : Platform.t :=
  Platform.mk (Platform.SanitizeBranchName pf) (Platform.GeneratePullRequestBody pf)
    (Platform.MergeFromString pf) (Platform.queryRepository pf)
    (Platform.getRepositoryLabels pf) (Platform.addComment pf)
    (fun _ _ _ _ _ => answer)
    (Platform.pullRequestLabels pf) (Platform.autoMergeAllowed pf)
    (Platform.createPullRequest pf) (Platform.updatePullRequest pf)
    (Platform.closePullRequest pf) (Platform.enablePullRequestAutoMerge pf).

(** An enable mutation names no merge method or one of the
    enumeration. *)
Definition namesMergeMethod (c : Call) : Prop :=
  match c with
  | Mutate_enablePullRequestAutoMerge input =>
      match EnablePullRequestAutoMergeInput.MergeMethod input with
      | None => True
      | Some method => In method PullRequestMergeMethod
      end
  | _ => True
  end.

(** The range of [int32]. *)
Definition int32 (n : Z) : Prop := (-2147483648 <= n < 2147483648)%Z.

(** A lookup of labels names a pull request by a number [n] of the range
    of [int32] that is [number] up to a multiple of [2^32], and
    [number] itself when [number] is in the range. *)
Definition numbered (number : Z) (c : Call) : Prop :=
  match c with
  | Query_pullRequestLabels _ _ n _ =>
      int32 n
      /\ ((n - number) mod 4294967296 = 0)%Z
      /\ (int32 number -> n = number)
  | _ => True
  end.

Definition withLabels (answer : option string -> Labels.t + error) (pf : Platform.t)
  : Platform.t :=
  Platform.mk (Platform.SanitizeBranchName pf) (Platform.GeneratePullRequestBody pf)
    (Platform.MergeFromString pf) (Platform.queryRepository pf)
    (Platform.getRepositoryLabels pf) (Platform.addComment pf) (Platform.pullRequests pf)
    (fun _ _ _ _ before => answer before)
    (Platform.autoMergeAllowed pf) (Platform.createPullRequest pf)
    (Platform.updatePullRequest pf) (Platform.closePullRequest pf)
    (Platform.enablePullRequestAutoMerge pf).

(** A first page of labels whose start cursor the platform does not
    know when it is asked for the page before. *)
Definition stalePage (before : option string) : Labels.t + error :=
  match before with
  | None => inl (Labels.mk 3 (PageInfo.mk false true "c9" "c9") [])
  | Some _ => Sample.page before
  end.

(** ** The run of [CreateAction] around its lookup *)

(** The resolution of the repository that opens [CreateAction]. *)
Definition resolveCall (pf : Platform.t) (p : PullRequest.t) : Call :=
  queryRepository_call (sourceOf pf (PullRequest.gh p)) (workingOf pf (PullRequest.gh p)).

(** The text [p.Report] once the lookup of [CreateAction] is answered
    [answer]: the text of [report], merged by [reports.MergeFromString]
    into the body of the first pull request of [answer] when there is
    one and the description is not reset. *)
Definition reportText (pf : Platform.t) (report : reports.Action) (reset : bool)
  (answer : list PullRequestApi.t + error) : string :=
  match answer with
  | inl (node :: _) =>
      if reset then reports.ToActionsString report
      else Platform.MergeFromString pf (PullRequestApi.Body node)
             (reports.ToActionsString report)
  | _ => reports.ToActionsString report
  end.

(** The platform lists the labels of the repository. *)
Definition listsCatalog (pf : Platform.t) : Prop :=
  forall h, exists catalog, Platform.getRepositoryLabels pf h = inl catalog.

(** The platform does not know the pull request with the empty ID: it
    answers [err] to an update mutation for it. *)
Definition rejectsEmptyID (pf : Platform.t) (err : error) : Prop :=
  forall h input,
    UpdatePullRequestInput.PullRequestID input = "" ->
    Platform.updatePullRequest pf h input = inr err.

(** Modelled from the spec: [getRepositoryLabels] is defined in a file
    of the package that is not part of the sources at hand, and
    [updatePullRequest] calls it on [p.gh] without an argument, so the
    sources do not show which repository it lists.  The specification
    has [ListRepositoryLabels(repo)] list the catalog of the repository
    of the run and says that with [TargetParentOfFork] all subsequent
    label and pull-request lookups must address the parent, not the
    fork: the catalog is that of the repository that the other lookups
    of the receiver address. *)
Definition getRepositoryLabels_addresses (spec : ActionSpec.t) (repository : Repository.t)
  : string * string :=
  (lookupOwner spec repository, lookupName spec repository).

(** The repository that a lookup sent for a receiver with configuration
    [spec] and repository [r] addresses; other calls are no lookups. *)
Definition addressed (spec : ActionSpec.t) (r : Repository.t) (c : Call)
  : option (string * string) :=
  match c with
  | Query_pullRequests owner name _ _ => Some (owner, name)
  | Query_pullRequestLabels owner repo _ _ => Some (owner, repo)
  | getRepositoryLabels_call => Some (getRepositoryLabels_addresses spec r)
  | _ => None
  end.

(** Every lookup addresses the parent of [r], and a create mutation has
    the parent as its base repository and [r] as its head repository. *)
Definition addressesParent (spec : ActionSpec.t) (r : Repository.t) (c : Call) : Prop :=
  match addressed spec r c with
  | Some repo => repo = (Repository.ParentOwner r, Repository.ParentName r)
  | None => True
  end
  /\ match c with
     | Mutate_createPullRequest input =>
         CreatePullRequestInput.RepositoryID input = Repository.ParentID r
         /\ CreatePullRequestInput.HeadRepositoryID input = Some (Repository.ID r)
     | _ => True
     end.

(** ** Platforms without the pull request of number 0 *)

Definition unknownNumber : error :=
  errors_New "Could not resolve to a PullRequest with the number of 0.".

Definition unknownID : error :=
  errors_New "Could not resolve to a node with the global id of ''".

(** A platform that does not know the pull request with number 0: it
    answers [unknownNumber] to a lookup of its labels. *)
Definition withoutNumber0 (pf : Platform.t) : Platform.t :=
  Platform.mk (Platform.SanitizeBranchName pf) (Platform.GeneratePullRequestBody pf)
    (Platform.MergeFromString pf) (Platform.queryRepository pf)
    (Platform.getRepositoryLabels pf) (Platform.addComment pf) (Platform.pullRequests pf)
    (fun h owner repo number before =>
       if (number =? 0)%Z then inr unknownNumber
       else Platform.pullRequestLabels pf h owner repo number before)
    (Platform.autoMergeAllowed pf) (Platform.createPullRequest pf)
    (Platform.updatePullRequest pf) (Platform.closePullRequest pf)
    (Platform.enablePullRequestAutoMerge pf).

(** * Notions about commits *)

(** Addition [a] is file [Path a] of the working directory, with the
    encoding of what the file holds as contents. *)
Definition addsFile (ws : Workspace.t) (workingDir : string) (a : FileAddition.t) : Prop :=
  exists file content,
    Workspace.Open ws (workingDir ++ "/" ++ FileAddition.Path a)%string = inl file
    /\ contents file = inl content
    /\ FileAddition.Contents a = Workspace.EncodeToString ws content.

(** The input of the mutation commits the changed files of the working
    directory of [g], and nothing else, on top of the latest local
    commit, on the branch [g.Spec.Branch] of the repository of [g],
    with headline [message]. *)
Definition commitsChanges (ws : Workspace.t) (g : Scm.t) (message : string)
  (input : CreateCommitOnBranchInput.t) : Prop :=
  CreateCommitOnBranchInput.Branch_RepositoryNameWithOwner input
  = Some (Github.Spec_Owner (Scm.github g) ++ "/"
          ++ Github.Spec_Repository (Scm.github g))%string
  /\ CreateCommitOnBranchInput.Branch_BranchName input
     = Some (Github.Spec_Branch (Scm.github g))
  /\ CreateCommitOnBranchInput.Message_Headline input = message
  /\ Workspace.GetLatestCommitHash ws (Scm.Spec_Directory g)
     = inl (CreateCommitOnBranchInput.ExpectedHeadOid input)
  /\ CreateCommitOnBranchInput.FileChanges_Deletions input = None
  /\ exists additions,
       CreateCommitOnBranchInput.FileChanges_Additions input = Some additions
       /\ Workspace.GetChangedFiles ws (Scm.Spec_Directory g)
          = inl (map FileAddition.Path additions)
       /\ Forall (addsFile ws (Scm.Spec_Directory g)) additions.

Definition isNativeCommit (c : GitCall) : bool :=
  match c with nativeGitHandler_Commit _ _ _ _ _ _ => true | _ => false end.

Definition isApiCommit (c : GitCall) : bool :=
  match c with Mutate_createCommitOnBranch _ => true | _ => false end.

(** A working directory to commit. *)
Module Workdir.

Definition g (commitUsingApi : bool) : Scm.t :=
  Scm.mk Sample.gh "/tmp/updatecli/octo/fork" "updatecli" "bot@example.com" "" ""
    commitUsingApi.

(** Two files have changed; [unreadable] cannot be opened. *)
Definition workspace (unreadable : string) : Workspace.t :=
  Workspace.mk
    (fun message => inl ("chore: " ++ message)%string)
    (fun _ => inl ["Chart.yaml"; "values.yaml"])
    (fun _ => inl "4f2a9c1")
    (fun _ _ _ _ _ _ => None)
    (fun path =>
       if (path =? unreadable)%string then inr (errors_New "permission denied")
       else inl (Build_File (inl path)))
    (fun content => ("b64:" ++ content)%string)
    (fun _ => None).

End Workdir.

(** * Notions about YAML trees *)

(** ** Documents in block style *)

Section Entries.
Variable block : yaml.Node -> bool.
Variable c : Z.

(** A key of a block mapping that starts in column [c]. *)
Definition isKey (key : yaml.Node) : bool :=
  (yaml.Kind_ key =? yaml.ScalarNode)%N && (yaml.Column key =? c)%Z.

(** The value of such a key: a scalar or a block mapping further to
    the right, or a node of another kind (a sequence, an alias), that
    has no value of its own, not further to the left. *)
Definition isValue (value : yaml.Node) : bool :=
  if (yaml.Kind_ value =? yaml.ScalarNode)%N then (c <? yaml.Column value)%Z
  else if (yaml.Kind_ value =? yaml.MappingNode)%N
  then (c <? yaml.Column value)%Z && block value
  else (c <=? yaml.Column value)%Z && (yaml.Value value =? "")%string.

(** The children of a block mapping: keys and values in turn. *)
Fixpoint entries (contents : list yaml.Node) : bool :=
  match contents with
  | [] => true
  | key :: value :: rest => isKey key && isValue value && entries rest
  | [_] => false
  end.
End Entries.

(** A mapping in block style: it has no value of its own, its keys are
    scalars that start in the column of the mapping, and so on in the
    mappings below. *)
Fixpoint block (n : yaml.Node) : bool :=
  (yaml.Kind_ n =? yaml.MappingNode)%N
  && (yaml.Value n =? "")%string
  && entries block (yaml.Column n) (yaml.Content n).

(** Every node that a search below [n] visits lies to the right of
    column [c]. *)
Fixpoint beyond (c : Z) (n : yaml.Node) : bool :=
  forallb
    (fun m =>
       (c <? yaml.Column m)%Z
       && (if (yaml.Kind_ m =? yaml.MappingNode)%N then beyond c m else true))
    (yaml.Content n).

(** No key of the entries [contents] is [key]. *)
Fixpoint absent (key : string) (contents : list yaml.Node) : bool :=
  match contents with
  | k :: _ :: rest => negb (yaml.Value k =? key)%string && absent key rest
  | _ => true
  end.

(** ** The scalar at the end of a path *)

Section Resolves.
Variable SetString : string -> yaml.Node -> yaml.Node.
Variable version : string.

(** The path [keys] leads, through the first entry of each mapping
    whose key is the next key of the path, from the entries
    [contents] to a scalar with value [oldVersion] that starts in
    column [column]; [contents'] are the entries with [SetString
    version] applied to that scalar. *)
Inductive resolves : list string -> list yaml.Node -> string -> Z ->
                     list yaml.Node -> Prop :=
| resolves_here key k v rest :
    yaml.Value k = key ->
    yaml.Kind_ v = yaml.ScalarNode ->
    resolves [key] (k :: v :: rest) (yaml.Value v) (yaml.Column v)
      (k :: SetString version v :: rest)
| resolves_below key keys k v rest oldVersion column contents' :
    yaml.Value k = key ->
    keys <> [] ->
    yaml.Kind_ v = yaml.MappingNode ->
    resolves keys (yaml.Content v) oldVersion column contents' ->
    resolves (key :: keys) (k :: v :: rest) oldVersion column
      (k :: yaml.withContent v contents' :: rest)
| resolves_next key keys k v rest oldVersion column rest' :
    yaml.Value k <> key ->
    resolves (key :: keys) rest oldVersion column rest' ->
    resolves (key :: keys) (k :: v :: rest) oldVersion column (k :: v :: rest').

#[local] Unset Elimination Schemes.
(** Tree [n'] is tree [n] with [SetString version] applied to some
    of its scalars: the shape is the same, and so is every node that
    is not a scalar. *)
Inductive rewrites : yaml.Node -> yaml.Node -> Prop :=
| rewrites_none n : rewrites n n
| rewrites_scalar n :
    yaml.Kind_ n = yaml.ScalarNode -> rewrites n (SetString version n)
| rewrites_below n contents' :
    Forall2 rewrites (yaml.Content n) contents' ->
    rewrites n (yaml.withContent n contents').
#[local] Set Elimination Schemes.
End Resolves.

(** Induction on a tree: the property holds of a node when it holds of
    its children. *)
Fixpoint Node_ind' (P : yaml.Node -> Prop)
  (step : forall n, Forall P (yaml.Content n) -> P n) (n : yaml.Node) {struct n} : P n :=
  step n
    ((fix children (l : list yaml.Node) : Forall P l :=
        match l with
        | [] => @Forall_nil yaml.Node P
        | m :: l' => Forall_cons m (@Node_ind' P step m) (children l')
        end) (yaml.Content n)).

(** ** A document to search *)

Module Values.

Definition scalar (value : string) (line column : Z) : yaml.Node :=
  yaml.mk yaml.ScalarNode 0 "!!str" value [] line column.

Definition mapping (contents : list yaml.Node) (line column : Z) : yaml.Node :=
  yaml.mk yaml.MappingNode 0 "!!map" "" contents line column.

Definition sequence (contents : list yaml.Node) (line column : Z) : yaml.Node :=
  yaml.mk yaml.SequenceNode 0 "!!seq" "" contents line column.

Definition document (root : yaml.Node) : yaml.Node :=
  yaml.mk yaml.DocumentNode 0 "" "" [root] 1 1.

(** [SetString] for a text without line break: the node becomes a
    string scalar with that text. *)
Definition SetString (s : string) (n : yaml.Node) : yaml.Node :=
  yaml.mk yaml.ScalarNode (yaml.Style n) "!!str" s (yaml.Content n) (yaml.Line n)
    (yaml.Column n).

(** The document
<<
image:
repository: nginx
tag: 1.0
replicas: 2
>> *)
Definition image (tag : string) : yaml.Node :=
  mapping [scalar "repository" 2 3; scalar "nginx" 2 15;
           scalar "tag" 3 3; scalar tag 3 8] 2 3.

Definition root (tag : string) : yaml.Node :=
  mapping [scalar "image" 1 1; image tag;
           scalar "replicas" 4 1; scalar "2" 4 11] 1 1.

(** The document
<<
args:
- --verbose
tag: 1.0
>> *)
Definition flat (key : string) : yaml.Node :=
  mapping [scalar "args" 1 1; sequence [scalar "--verbose" 2 3] 2 1;
           scalar key 3 1; scalar "1.0" 3 6] 1 1.

End Values.

(** * Proofs *)

Unset Implicit Arguments.

(** ** Symbolic execution *)

Ltac mrun :=
  cbv beta iota zeta delta
    [bind ret Monad_M M_bind M_ret get modify panic outOfFuel remote local logrus
     logrus_Debugf logrus_Infof logrus_Errorf
     nativeGitHandler_SanitizeBranchName utils_GeneratePullRequestBody
     reports_MergeFromString gh_queryRepository gh_getRepositoryLabels
     client_Query_pullRequests client_Query_pullRequestLabels
     client_Query_autoMergeAllowed client_Mutate_createPullRequest
     client_Mutate_updatePullRequest client_Mutate_closePullRequest
     client_Mutate_enablePullRequestAutoMerge
     p_repository p_addComment isAhead];
  cbn [app out self calls logs fst snd negb
       PullRequest.gh PullRequest.Report PullRequest.Title PullRequest.spec
       PullRequest.remotePullRequest PullRequest.repository
       PullRequest.set_Report PullRequest.set_Title
       PullRequest.set_remotePullRequest PullRequest.set_repository];
  try rewrite !app_nil_r.

(** Case analysis on the answer of a collaborator that the goal is
    waiting for. *)
Ltac answer :=
  match goal with
  | |- context [Platform.GeneratePullRequestBody ?pf ?a ?b] =>
      destruct (Platform.GeneratePullRequestBody pf a b) as [?bodyPR|?err] eqn:?Hbody
  | |- context [Platform.queryRepository ?pf ?h ?a ?b] =>
      destruct (Platform.queryRepository pf h a b) as [?repo|?err] eqn:?Hrepo
  | |- context [Platform.getRepositoryLabels ?pf ?h] =>
      destruct (Platform.getRepositoryLabels pf h) as [?catalog|?err] eqn:?Hcatalog
  | |- context [Platform.addComment ?pf ?h ?a ?b] =>
      destruct (Platform.addComment pf h a b) as [?err|] eqn:?Hcomment
  | |- context [Platform.pullRequests ?pf ?h ?a ?b ?c ?d] =>
      destruct (Platform.pullRequests pf h a b c d) as [[|?node ?nodes]|?err] eqn:?Hlookup
  | |- context [Platform.autoMergeAllowed ?pf ?h ?a ?b] =>
      destruct (Platform.autoMergeAllowed pf h a b) as [[|]|?err] eqn:?Hallowed
  | |- context [Platform.createPullRequest ?pf ?h ?a] =>
      destruct (Platform.createPullRequest pf h a) as [?mutation|?err] eqn:?Hcreate
  | |- context [Platform.updatePullRequest ?pf ?h ?a] =>
      destruct (Platform.updatePullRequest pf h a) as [?mutation|?err] eqn:?Hupdate
  | |- context [Platform.closePullRequest ?pf ?h ?a] =>
      destruct (Platform.closePullRequest pf h a) as [?mutation|?err] eqn:?Hclose
  | |- context [Platform.enablePullRequestAutoMerge ?pf ?h ?a] =>
      destruct (Platform.enablePullRequestAutoMerge pf h a) as [?mutation|?err] eqn:?Henable
  end; mrun.

Lemma GetBranches_run (S : Type) (g : Github.t) pf h (s : S) :
  GetBranches g pf h s = mkRun (Returns (branchesOf pf g)) s [] [].
Proof.
  unfold GetBranches, branchesOf.
  destruct ((0 <? String.length (Github.pipelineID g))%nat && Github.workingBranch g);
    reflexivity.
Qed.

(** ** The loop over the pages of labels *)

Lemma labelsLoop_self fuel : forall owner repo number before acc pf h s,
  self (labelsLoop fuel owner repo number before acc pf h s) = s
  /\ Forall (fun c => exists b, c = Query_pullRequestLabels owner repo number b)
       (calls (labelsLoop fuel owner repo number before acc pf h s)).
Proof.
  induction fuel as [|fuel IH]; intros; cbn [labelsLoop].
  - mrun. auto.
  - mrun. destruct (Platform.pullRequestLabels pf h owner repo number before) as [page|err].
    + destruct (negb (PageInfo.HasPreviousPage (Labels.PageInfo page))).
      * mrun. split; [reflexivity|]. repeat constructor. eauto.
      * specialize (IH owner repo number (Some (PageInfo.StartCursor (Labels.PageInfo page)))
                      (acc ++ map labelOfEdge (Labels.Edges page)) pf
                      (h ++ [Query_pullRequestLabels owner repo number before]) s).
        destruct (labelsLoop fuel owner repo number _ _ pf _ s) as [o s1 c1 l1].
        cbn [self calls] in IH. destruct IH as [-> IH].
        destruct o; mrun; (split; [reflexivity|]); constructor; eauto.
    + mrun. split; [reflexivity|]. repeat constructor. eauto.
Qed.

(** The loop on a platform that serves [pages], each with a previous
    page, and then a page without one. *)
Lemma labelsLoop_served pf owner repo number s : forall pages fuel h before acc final,
  served pf h owner repo number before pages (inl final) ->
  forallb hasPrevious pages = true ->
  hasPrevious final = false ->
  length pages < fuel ->
  labelsLoop fuel owner repo number before acc pf h s
  = mkRun (Returns (acc ++ flat_map labelsOf (pages ++ [final]), None)) s
      (labelQueries owner repo number before pages) [].
Proof.
  induction pages as [|page pages IH]; intros fuel h before acc final Hs Hp Hf Hfuel;
    (destruct fuel as [|fuel]; [simpl in Hfuel; lia|]); cbn [labelsLoop served] in *.
  - mrun. rewrite Hs. fold (hasPrevious final). rewrite Hf. cbn [negb]. mrun.
    cbn [flat_map app]. rewrite app_nil_r. reflexivity.
  - destruct Hs as [Hpage Hs]. cbn [forallb] in Hp. apply andb_prop in Hp as [Hp1 Hp].
    mrun. rewrite Hpage. fold (hasPrevious page). rewrite Hp1. cbn [negb].
    fold (startOf page).
    rewrite (IH fuel _ _ (acc ++ map labelOfEdge (Labels.Edges page)) final Hs Hp Hf)
      by (simpl in Hfuel; lia).
    cbn [flat_map app]. fold (labelsOf page). rewrite <- app_assoc. reflexivity.
Qed.

(** The loop on a platform that serves [pages], each with a previous
    page, and then fails. *)
Lemma labelsLoop_failed pf owner repo number s : forall pages fuel h before acc err,
  served pf h owner repo number before pages (inr err) ->
  forallb hasPrevious pages = true ->
  length pages < fuel ->
  labelsLoop fuel owner repo number before acc pf h s
  = mkRun (Returns ([], Some err)) s
      (labelQueries owner repo number before pages) [Log ErrorLevel "\t%s" [Error err]].
Proof.
  induction pages as [|page pages IH]; intros fuel h before acc err Hs Hp Hfuel;
    (destruct fuel as [|fuel]; [simpl in Hfuel; lia|]); cbn [labelsLoop served] in *.
  - mrun. rewrite Hs. mrun. reflexivity.
  - destruct Hs as [Hpage Hs]. cbn [forallb] in Hp. apply andb_prop in Hp as [Hp1 Hp].
    mrun. rewrite Hpage. fold (hasPrevious page). rewrite Hp1. cbn [negb].
    fold (startOf page).
    rewrite (IH fuel _ _ (acc ++ map labelOfEdge (Labels.Edges page)) err Hs Hp)
      by (simpl in Hfuel; lia).
    reflexivity.
Qed.

(** ** What each method sends and what it leaves of the receiver *)

Lemma GetPullRequestLabelsInformation_sends fuel pf h s :
  self (GetPullRequestLabelsInformation fuel pf h s) = s
  /\ Forall (sentByLabels s) (calls (GetPullRequestLabelsInformation fuel pf h s)).
Proof.
  unfold GetPullRequestLabelsInformation. mrun.
  destruct (PullRequest.repository s) as [r|] eqn:Hr; mrun; [|auto].
  match goal with |- context [labelsLoop ?f ?o ?n ?z ?b ?a ?pf ?h ?s] =>
    pose proof (labelsLoop_self f o n z b a pf h s) as [Hs Hc];
    destruct (labelsLoop f o n z b a pf h s) as [o1 s1 c1 l1] end.
  cbn [self calls] in *. subst s1. split; [reflexivity|].
  eapply Forall_impl; [|exact Hc]. intros c [b ->]. exists r, b. auto.
Qed.

Lemma Forall_one (P : Call -> Prop) c : P c -> Forall P [c].
Proof. intros H. constructor; [exact H|constructor]. Qed.

Lemma Forall_two (P : Call -> Prop) c d : P c -> P d -> Forall P [c; d].
Proof. intros H H'. constructor; [exact H|apply Forall_one; exact H']. Qed.

Lemma updatePullRequest_sends fuel pf h s :
  self (updatePullRequest fuel pf h s) = s
  /\ Forall (sentByUpdate s) (calls (updatePullRequest fuel pf h s)).
Proof.
  assert (H0 : sentByUpdate s getRepositoryLabels_call) by (left; reflexivity).
  unfold updatePullRequest. mrun.
  answer; [|auto].
  answer.
  2: { split; [reflexivity|]. apply Forall_one, H0. }
  match goal with |- context [GetPullRequestLabelsInformation ?f ?pf ?h ?s] =>
    pose proof (GetPullRequestLabelsInformation_sends f pf h s) as [Hs Hc];
    destruct (GetPullRequestLabelsInformation f pf h s) as [o1 s1 c1 l1] end.
  cbn [self calls] in *. subst s1.
  assert (Hc' : Forall (sentByUpdate s) c1).
  { eapply Forall_impl; [|exact Hc]. intros c Hl. right. left. exact Hl. }
  destruct o1 as [[attached [err|]]| |]; mrun.
  - split; [reflexivity|]. constructor; [exact H0|exact Hc'].
  - answer;
      (split; [reflexivity|]); (constructor; [exact H0|]);
      (apply Forall_app; split; [exact Hc'|]); apply Forall_one;
      right; right; exists bodyPR, catalog, attached; reflexivity.
  - split; [reflexivity|]. constructor; [exact H0|exact Hc'].
  - split; [reflexivity|]. constructor; [exact H0|exact Hc'].
Qed.

Lemma closePullRequest_sends pf h s :
  self (closePullRequest pf h s) = s
  /\ Forall (sentByClose s) (calls (closePullRequest pf h s)).
Proof.
  unfold closePullRequest. mrun.
  answer.
  - answer;
      (split; [reflexivity|]); (apply Forall_two; [left|right]; reflexivity).
  - split; [reflexivity|]. apply Forall_one. left. reflexivity.
Qed.

Lemma EnablePullRequestAutoMerge_sends pf h s :
  self (EnablePullRequestAutoMerge pf h s) = s
  /\ Forall (sentByEnable s) (calls (EnablePullRequestAutoMerge pf h s)).
Proof.
  unfold EnablePullRequestAutoMerge, isAutoMergedEnabledOnRepository. mrun.
  answer.
  - answer;
      (split; [reflexivity|]); (apply Forall_two; [left|right]; reflexivity).
  - split; [reflexivity|]. apply Forall_one. left. reflexivity.
  - split; [reflexivity|]. apply Forall_one. left. reflexivity.
Qed.

Lemma OpenPullRequest_sends pf h s :
  framed s (self (OpenPullRequest pf h s))
  /\ Forall (sentByOpen pf s) (calls (OpenPullRequest pf h s)).
Proof.
  assert (F : framed s s) by (repeat split).
  unfold OpenPullRequest. mrun.
  answer; [|auto].
  rewrite GetBranches_run. mrun.
  destruct (branchesOf pf (PullRequest.gh s)) as [[src wrk] tgt] eqn:Hb.
  unfold isAhead. mrun.
  destruct (PullRequest.repository s) as [r|] eqn:Hr; mrun; [|auto].
  destruct (Repository.Status r =? "AHEAD")%string eqn:Ha; cbn [negb]; mrun; [|auto].
  rewrite Hr. mrun.
  assert (Hsent : sentByOpen pf s
            (Mutate_createPullRequest (createInput s r bodyPR wrk tgt))).
  { exists r, bodyPR. split; [exact Hr|]. split; [apply String.eqb_eq; exact Ha|].
    unfold workingOf, targetOf. rewrite Hb. reflexivity. }
  answer.
  - split; [repeat split; try reflexivity; exact Hr|]. apply Forall_one, Hsent.
  - split; [exact F|]. apply Forall_one, Hsent.
Qed.

Lemma getRemotePullRequest_sends resetBody pf h s :
  framed s (self (getRemotePullRequest resetBody pf h s))
  /\ Forall (sentByLookup pf s) (calls (getRemotePullRequest resetBody pf h s)).
Proof.
  assert (F : framed s s) by (repeat split).
  unfold getRemotePullRequest. mrun.
  destruct (PullRequest.repository s) as [r|] eqn:Hr; mrun; [|auto].
  rewrite GetBranches_run. mrun.
  destruct (branchesOf pf (PullRequest.gh s)) as [[src wrk] tgt] eqn:Hb.
  assert (Hsent : sentByLookup pf s
            (Query_pullRequests (lookupOwner (PullRequest.spec s) r)
               (lookupName (PullRequest.spec s) r) tgt wrk)).
  { exists r. split; [exact Hr|]. unfold workingOf, targetOf. rewrite Hb. reflexivity. }
  mrun. answer.
  - split; [exact F|]. apply Forall_one, Hsent.
  - destruct resetBody; mrun;
      (split; [repeat split; try reflexivity; exact Hr|]); apply Forall_one, Hsent.
  - split; [exact F|]. apply Forall_one, Hsent.
Qed.

Lemma prepared_framed p title r s q :
  prepared p title r s -> framed s q -> prepared p title r q.
Proof.
  intros (Hg & Hs & Ht & Hr) (Fg & Fs & Ft & Fr).
  repeat split; congruence.
Qed.

Section Lifting.
Variables (pf : Platform.t) (p : PullRequest.t) (report : reports.Action)
  (r : Repository.t) (s : PullRequest.t).
Hypothesis Ps : prepared p (chosenTitle (PullRequest.spec p) report) r s.

Lemma lift_lookup cs :
  Forall (sentByLookup pf s) cs -> Forall (sentByCreateAction pf p report r) cs.
Proof.
  apply Forall_impl. intros c Hc. right. exists s. split; [exact Ps|]. left. exact Hc.
Qed.

Lemma lift_open cs :
  Forall (sentByOpen pf s) cs -> Forall (sentByCreateAction pf p report r) cs.
Proof.
  apply Forall_impl. intros c Hc. right. exists s. split; [exact Ps|].
  right. left. exact Hc.
Qed.

Lemma lift_update cs :
  Forall (sentByUpdate s) cs -> Forall (sentByCreateAction pf p report r) cs.
Proof.
  apply Forall_impl. intros c Hc. right. exists s. split; [exact Ps|].
  right. right. left. exact Hc.
Qed.

Lemma lift_close cs :
  (Repository.Status r =? "AHEAD")%string = true ->
  Forall (sentByClose s) cs -> Forall (sentByCreateAction pf p report r) cs.
Proof.
  intros Ha. apply String.eqb_eq in Ha.
  apply Forall_impl. intros c Hc. right. exists s. split; [exact Ps|].
  right. right. right. split; [exact Ha|]. left. exact Hc.
Qed.

Lemma lift_enable cs :
  (Repository.Status r =? "AHEAD")%string = true ->
  Forall (sentByEnable s) cs -> Forall (sentByCreateAction pf p report r) cs.
Proof.
  intros Ha. apply String.eqb_eq in Ha.
  apply Forall_impl. intros c Hc. right. exists s. split; [exact Ps|].
  right. right. right. split; [exact Ha|]. right. exact Hc.
Qed.
End Lifting.

(** A callee whose run the goal is waiting for: its lemma is recalled,
    lifted to the entry point, and its run is taken apart. *)
Ltac callee :=
  match goal with
  | Ps : prepared ?p (chosenTitle _ ?rep) ?r ?s |- context [getRemotePullRequest ?b ?pf ?h ?s] =>
      let F := fresh "Fr" in let C := fresh "Sent" in
      pose proof (getRemotePullRequest_sends b pf h s) as [F C];
      apply (prepared_framed _ _ _ _ _ Ps) in F; apply (lift_lookup pf p rep r s Ps) in C;
      destruct (getRemotePullRequest b pf h s) as [[[?err|]| |] ?q ?cs ?ls]
  | Ps : prepared ?p (chosenTitle _ ?rep) ?r ?s |- context [OpenPullRequest ?pf ?h ?s] =>
      let F := fresh "Fr" in let C := fresh "Sent" in
      pose proof (OpenPullRequest_sends pf h s) as [F C];
      apply (prepared_framed _ _ _ _ _ Ps) in F; apply (lift_open pf p rep r s Ps) in C;
      destruct (OpenPullRequest pf h s) as [[[?err|]| |] ?q ?cs ?ls]
  | Ps : prepared ?p (chosenTitle _ ?rep) ?r ?s |- context [updatePullRequest ?f ?pf ?h ?s] =>
      let F := fresh "Fr" in let C := fresh "Sent" in
      pose proof (updatePullRequest_sends f pf h s) as [F C];
      apply (lift_update pf p rep r s Ps) in C;
      destruct (updatePullRequest f pf h s) as [[[?err|]| |] ?q ?cs ?ls];
      cbn [self] in F; subst
  | Ps : prepared ?p (chosenTitle _ ?rep) ?r ?s, Ha : (_ =? "AHEAD")%string = true
    |- context [closePullRequest ?pf ?h ?s] =>
      let F := fresh "Fr" in let C := fresh "Sent" in
      pose proof (closePullRequest_sends pf h s) as [F C];
      apply (lift_close pf p rep r s Ps _ Ha) in C;
      destruct (closePullRequest pf h s) as [[[?err|]| |] ?q ?cs ?ls];
      cbn [self] in F; subst
  | Ps : prepared ?p (chosenTitle _ ?rep) ?r ?s, Ha : (_ =? "AHEAD")%string = true
    |- context [EnablePullRequestAutoMerge ?pf ?h ?s] =>
      let F := fresh "Fr" in let C := fresh "Sent" in
      pose proof (EnablePullRequestAutoMerge_sends pf h s) as [F C];
      apply (lift_enable pf p rep r s Ps _ Ha) in C;
      destruct (EnablePullRequestAutoMerge pf h s) as [[[?err|]| |] ?q ?cs ?ls];
      cbn [self] in F; subst
  end;
  cbn [out self calls logs] in *; mrun.

(** The repository of a prepared receiver is known. *)
Ltac resolved :=
  match goal with
  | Ps : prepared _ _ _ ?s |- context [PullRequest.repository ?s] =>
      rewrite (proj2 (proj2 (proj2 Ps)))
  end; mrun.

Ltac branch :=
  match goal with
  | |- context [if negb ?b then _ else _] => destruct b eqn:?
  | |- context [if ?b then _ else _] => destruct b eqn:?
  end; mrun.

Ltac sent :=
  cbn [calls];
  repeat first
    [ assumption
    | apply Forall_nil
    | apply Forall_cons
    | apply Forall_app; split ].

Lemma CreateAction_sends report reset fuel pf h p :
  match Platform.queryRepository pf h (sourceOf pf (PullRequest.gh p))
          (workingOf pf (PullRequest.gh p)) with
  | inl r =>
      Forall (sentByCreateAction pf p report r)
        (calls (CreateAction report reset fuel pf h p))
  | inr err =>
      calls (CreateAction report reset fuel pf h p)
      = [queryRepository_call (sourceOf pf (PullRequest.gh p))
           (workingOf pf (PullRequest.gh p))]
      /\ out (CreateAction report reset fuel pf h p) = Returns (Some err)
  end.
Proof.
  unfold CreateAction, sourceOf, workingOf. mrun.
  destruct (negb (ActionSpec.Title (PullRequest.spec p) =? "")%string) eqn:HT; mrun;
    rewrite GetBranches_run; mrun;
    (destruct (branchesOf pf (PullRequest.gh p)) as [[src wrk] tgt] eqn:Hb); mrun;
    (answer; [|auto]).
  all: assert (H0 : sentByCreateAction pf p report repo (queryRepository_call src wrk))
         by (left; unfold sourceOf, workingOf; rewrite Hb; reflexivity).
  all: match goal with |- context [getRemotePullRequest _ _ _ ?s] =>
         assert (P0 : prepared p (chosenTitle (PullRequest.spec p) report) repo s) 
           by (unfold chosenTitle; rewrite HT; repeat split) end.
  all: callee; try solve [sent].
  all: repeat first [ solve [sent] | callee | resolved | branch ].
Qed.

Lemma CleanAction_sends report pf h p :
  match Platform.queryRepository pf h "" "" with
  | inl r => Forall (sentByCleanAction pf p r) (calls (CleanAction report pf h p))
  | inr err =>
      calls (CleanAction report pf h p) = [queryRepository_call "" ""]
      /\ out (CleanAction report pf h p) = Returns (Some err)
  end.
Proof.
  unfold CleanAction. mrun. answer; [|auto].
  assert (H0 : sentByCleanAction pf p repo (queryRepository_call "" ""))
    by (left; reflexivity).
  match goal with |- context [getRemotePullRequest _ _ _ ?s] =>
    assert (P0 : prepared p (PullRequest.Title p) repo s) by (repeat split);
    pose proof (getRemotePullRequest_sends false pf (h ++ [queryRepository_call "" ""]) s)
      as [Fr Sent];
    apply (prepared_framed _ _ _ _ _ P0) in Fr;
    assert (Sent' : Forall (sentByCleanAction pf p repo)
              (calls (getRemotePullRequest false pf (h ++ [queryRepository_call "" ""]) s)))
      by (revert Sent; apply Forall_impl; intros c Hc; right; exists s; split;
          [exact P0|left; exact Hc]);
    clear Sent;
    destruct (getRemotePullRequest false pf (h ++ [queryRepository_call "" ""]) s)
      as [[[err|]| |] q cs ls]
  end; cbn [out self calls logs] in *; mrun; try solve [sent].
  branch; [solve [sent]|]. branch; [|solve [sent]].
  pose proof (closePullRequest_sends pf (h ++ queryRepository_call "" "" :: cs) q)
    as [_ Sent].
  assert (Sent0 : Forall (sentByCleanAction pf p repo)
            (calls (closePullRequest pf (h ++ queryRepository_call "" "" :: cs) q)))
    by (revert Sent; apply Forall_impl; intros c Hc; right; exists q; split;
        [exact Fr|right; exact Hc]).
  clear Sent.
  match goal with |- context [closePullRequest ?a ?b ?c] =>
    replace (closePullRequest a b c)
      with (closePullRequest pf (h ++ queryRepository_call "" "" :: cs) q)
      by (f_equal; rewrite <- app_assoc; reflexivity)
  end.
  destruct (closePullRequest pf (h ++ queryRepository_call "" "" :: cs) q)
    as [o q' cs' ls'].
  cbn [calls] in *. destruct o; sent.
Qed.

(** ** Labels *)

Lemma matchingLabels_In desired catalog x :
  In x (matchingLabels desired catalog)
  <-> In x catalog /\ In (repositoryLabelApi.Name x) desired.
Proof.
  unfold matchingLabels. rewrite in_flat_map. split.
  - intros (l & Hl & Hx). apply filter_In in Hx as [Hx Hn].
    apply String.eqb_eq in Hn. subst l. auto.
  - intros [Hx Hn]. exists (repositoryLabelApi.Name x). split; [exact Hn|].
    apply filter_In. split; [exact Hx|]. apply String.eqb_refl.
Qed.

Lemma mergeLabels_In a b x : In x (mergeLabels a b) <-> In x a \/ In x b.
Proof. unfold mergeLabels. rewrite nodup_In. apply in_app_iff. Qed.

(** C2.  The label set computed for the update mutation is the union
    of the labels of the repository whose name is a configured name and
    of the labels already attached to the pull request: a label is in
    the set exactly when it is one or the other, so every attached
    label is in it, and the set lists no label twice. *)
Theorem labelSet_union desired catalog attached :
  (forall x,
     In x (labelSet desired catalog attached)
     <-> (In x catalog /\ In (repositoryLabelApi.Name x) desired) \/ In x attached)
  /\ incl attached (labelSet desired catalog attached)
  /\ NoDup (labelSet desired catalog attached).
Proof.
  unfold labelSet. split; [|split].
  - intros x. rewrite mergeLabels_In, matchingLabels_In. reflexivity.
  - intros x Hx. apply mergeLabels_In. right. exact Hx.
  - apply NoDup_nodup.
Qed.

(** The example of the specification: repository labels A, B, C,
    configured names B and C, label A attached. *)
Example labelSet_example :
  let A := repositoryLabelApi.mk "1" "A" "" in
  let B := repositoryLabelApi.mk "2" "B" "" in
  let C := repositoryLabelApi.mk "3" "C" "" in
  labelSet ["B"; "C"] [A; B; C] [A] = [B; C; A].
Proof. vm_compute. reflexivity. Qed.

(** ** Pages of labels *)

Lemma NoDup_map_injective (A B : Type) (f : A -> B) (l : list A) :
  (forall a b, f a = f b -> a = b) -> NoDup l -> NoDup (map f l).
Proof.
  intros Hf. induction 1 as [|a l Ha Hl IH]; cbn [map]; constructor; [|exact IH].
  rewrite in_map_iff. intros (b & Hb & Hin). apply Hf in Hb. subst b. auto.
Qed.

Lemma labelQueries_NoDup owner repo number pages :
  NoDup (map startOf pages) -> NoDup (labelQueries owner repo number None pages).
Proof.
  intros Hn. unfold labelQueries, cursors.
  apply NoDup_map_injective.
  - intros a b H. injection H. auto.
  - constructor.
    + rewrite in_map_iff. intros (page & H & _). discriminate H.
    + rewrite <- (map_map startOf (@Some string)).
      apply NoDup_map_injective; [|exact Hn].
      intros a b H. injection H. auto.
Qed.

(** C3.  On a platform that serves [pages], each announcing a previous
    page, to the queries that the loop sends (the first without cursor,
    each next one before the start cursor of the page just fetched):
    if the platform then serves a page [final] without previous page,
    [GetPullRequestLabelsInformation] returns the labels of all pages
    in one list and no error, after exactly one query per page, the
    last for [final]; the queries are pairwise distinct when the start
    cursors are; if the platform instead fails, the method returns the
    error and no label.  The bound of the model plays no part: any
    [fuel] above the number of pages gives the result. *)
Theorem GetPullRequestLabelsInformation_pages pf h p r fuel pages :
  PullRequest.repository p = Some r ->
  forallb hasPrevious pages = true ->
  length pages < fuel ->
  let owner := lookupOwner (PullRequest.spec p) r in
  let repo := lookupName (PullRequest.spec p) r in
  let number := githubv4_Int (PullRequestApi.Number (PullRequest.remotePullRequest p)) in
  let R := GetPullRequestLabelsInformation fuel pf h p in
  (forall final,
     served pf h owner repo number None pages (inl final) ->
     hasPrevious final = false ->
     out R = Returns (flat_map labelsOf (pages ++ [final]), None)
     /\ calls R = labelQueries owner repo number None pages
     /\ length (calls R) = S (length pages)
     /\ (NoDup (map startOf pages) -> NoDup (calls R)))
  /\ (forall err,
        served pf h owner repo number None pages (inr err) ->
        out R = Returns ([], Some err)
        /\ calls R = labelQueries owner repo number None pages).
Proof.
  intros Hr Hp Hfuel owner repo number R. subst R.
  unfold GetPullRequestLabelsInformation. mrun. rewrite Hr. mrun.
  fold owner repo number. split.
  - intros final Hs Hf.
    rewrite (labelsLoop_served pf owner repo number p pages fuel h None [] final Hs Hp Hf Hfuel). cbn [out calls app].
    split; [reflexivity|]. split; [reflexivity|]. split.
    + unfold labelQueries, cursors. rewrite length_map. cbn [length].
      rewrite length_map. reflexivity.
    + apply labelQueries_NoDup.
  - intros err Hs.
    rewrite (labelsLoop_failed pf owner repo number p pages fuel h None [] err Hs Hp Hfuel). cbn [out calls].
    split; reflexivity.
Qed.

(** On the sample platform the labels come in three pages. *)
Lemma GetPullRequestLabelsInformation_pages_witness :
  let pf := Sample.platform "AHEAD" [] (inl (Sample.pullRequest 1)) None (inl true) in
  let p := PullRequest.set_repository (Some (Sample.repository "AHEAD"))
             (PullRequest.set_remotePullRequest (Sample.pullRequest 1) Sample.action) in
  let R := GetPullRequestLabelsInformation 3 pf [] p in
  out R = Returns ([Sample.docs; Sample.bug; Sample.chore], None)
  /\ calls R = [Query_pullRequestLabels "upstream" "project" 42 None;
                Query_pullRequestLabels "upstream" "project" 42 (Some "c3");
                Query_pullRequestLabels "upstream" "project" 42 (Some "c2")]
  /\ length (calls R) = 3
  /\ (NoDup ["c3"; "c2"] -> NoDup (calls R)).
Proof.
  exact (proj1
    (GetPullRequestLabelsInformation_pages
       (Sample.platform "AHEAD" [] (inl (Sample.pullRequest 1)) None (inl true)) []
       (PullRequest.set_repository (Some (Sample.repository "AHEAD"))
          (PullRequest.set_remotePullRequest (Sample.pullRequest 1) Sample.action))
       (Sample.repository "AHEAD") 3 [Sample.newest; Sample.middle]
       eq_refl eq_refl (le_n 3))
    Sample.oldest (conj eq_refl (conj eq_refl eq_refl)) eq_refl).
Defined.

(** ** Auto-merge *)

(** The run of [EnablePullRequestAutoMerge], by the answer to its
    question. *)
Lemma EnablePullRequestAutoMerge_runs pf h p :
  let question :=
    Query_autoMergeAllowed (Github.Spec_Owner (PullRequest.gh p))
      (Github.Spec_Repository (PullRequest.gh p)) in
  let R := EnablePullRequestAutoMerge pf h p in
  match Platform.autoMergeAllowed pf h (Github.Spec_Owner (PullRequest.gh p))
          (Github.Spec_Repository (PullRequest.gh p)) with
  | inl false =>
      out R = Returns (Some ErrAutomergeNotAllowOnRepository) /\ calls R = [question]
  | inr err => out R = Returns (Some err) /\ calls R = [question]
  | inl true =>
      calls R = [question; Mutate_enablePullRequestAutoMerge (enableInput p)]
      /\ out R =
         Returns
           match Platform.enablePullRequestAutoMerge pf (h ++ [question]) (enableInput p) with
           | inl _ => None
           | inr err => Some err
           end
  end.
Proof.
  unfold EnablePullRequestAutoMerge, isAutoMergedEnabledOnRepository. mrun.
  answer; [answer| |]; split; reflexivity.
Qed.

(** C7.  [EnablePullRequestAutoMerge] first asks whether auto-merge is
    allowed on the repository.  When the answer is no, it returns
    [ErrAutomergeNotAllowOnRepository] and the question is the only call
    it made; when the question fails, it returns that error and the
    question is again the only call; the enable mutation is sent only
    after the answer yes, as the second call. *)
Theorem EnablePullRequestAutoMerge_gate pf h p :
  let question :=
    Query_autoMergeAllowed (Github.Spec_Owner (PullRequest.gh p))
      (Github.Spec_Repository (PullRequest.gh p)) in
  let R := EnablePullRequestAutoMerge pf h p in
  match Platform.autoMergeAllowed pf h (Github.Spec_Owner (PullRequest.gh p))
          (Github.Spec_Repository (PullRequest.gh p)) with
  | inl false =>
      out R = Returns (Some ErrAutomergeNotAllowOnRepository)
      /\ calls R = [question]
      /\ existsb isEnable (calls R) = false
  | inr err =>
      out R = Returns (Some err)
      /\ calls R = [question]
      /\ existsb isEnable (calls R) = false
  | inl true =>
      calls R = [question; Mutate_enablePullRequestAutoMerge (enableInput p)]
  end.
Proof.
  pose proof (EnablePullRequestAutoMerge_runs pf h p) as G. cbv zeta in G |- *.
  destruct (Platform.autoMergeAllowed pf h _ _) as [[|]|err].
  - exact (proj1 G).
  - destruct G as [Ho Hc]. rewrite Hc. repeat split. exact Ho.
  - destruct G as [Ho Hc]. rewrite Hc. repeat split. exact Ho.
Qed.

(** Auto-merge is not allowed, or the question cannot be asked. *)
Example EnablePullRequestAutoMerge_refused :
  let p := PullRequest.set_remotePullRequest (Sample.pullRequest 1) Sample.action in
  let run allowed :=
    EnablePullRequestAutoMerge
      (Sample.platform "AHEAD" [] (inl (Sample.pullRequest 1)) None allowed) [] p in
  out (run (inl false)) = Returns (Some ErrAutomergeNotAllowOnRepository)
  /\ calls (run (inl false)) = [Query_autoMergeAllowed "octo" "fork"]
  /\ out (run (inr Sample.forbidden)) = Returns (Some Sample.forbidden)
  /\ calls (run (inr Sample.forbidden)) = [Query_autoMergeAllowed "octo" "fork"].
Proof. vm_compute. repeat split. Qed.

(** ** Letters and case *)

Lemma allBytes_spec f : letters.allBytes f = true -> forall c, f c = true.
Proof.
  intros H c. unfold letters.allBytes in H. rewrite forallb_forall in H. apply H.
  rewrite <- (ascii_nat_embedding c). apply in_map. apply in_seq.
  pose proof (nat_ascii_bounded c). lia.
Qed.

Lemma letterFacts_all l c : letters.letterFacts l c = true.
Proof.
  revert c. apply allBytes_spec. revert l. apply allBytes_spec.
  vm_compute. reflexivity.
Qed.

Lemma plainLetter_fixed l :
  letters.plainLetter l = true ->
  strings.lowerByte l = l /\ strings.isByte 197 l = false /\ strings.isByte 226 l = false.
Proof.
  intros Hl.
  assert (H : implb (letters.plainLetter l)
                (Ascii.eqb (strings.lowerByte l) l
                 && negb (strings.isByte 197 l) && negb (strings.isByte 226 l)) = true).
  { revert l Hl. intros l _. revert l. apply allBytes_spec. vm_compute. reflexivity. }
  rewrite Hl in H. cbn [implb] in H.
  apply andb_prop in H as [H H2]. apply andb_prop in H as [H0 H1].
  apply Ascii.eqb_eq in H0. apply negb_true_iff in H1, H2. auto.
Qed.

Lemma String_eq a x b y : String a x = String b y <-> (Ascii.eqb a b = true /\ x = y).
Proof.
  rewrite Ascii.eqb_eq. split; [intros H; injection H; auto | intros [-> ->]; reflexivity].
Qed.

Lemma ToUpper_cons c rest :
  strings.ToUpper (String c rest) =
  match rest with
  | String d rest' =>
      if strings.isByte 197 c && strings.isByte 191 d
      then String "S" (strings.ToUpper rest')
      else if strings.isByte 196 c && strings.isByte 177 d
      then String "I" (strings.ToUpper rest')
      else String (strings.upperByte c) (strings.ToUpper rest)
  | EmptyString => String (strings.upperByte c) (strings.ToUpper rest)
  end.
Proof. destruct rest; reflexivity. Qed.

Lemma foldKey_cons c rest :
  strings.foldKey (String c rest) =
  match rest with
  | String d rest' =>
      if strings.isByte 197 c && strings.isByte 191 d
      then String "s" (strings.foldKey rest')
      else
        match rest' with
        | String e rest'' =>
            if strings.isByte 226 c && strings.isByte 132 d && strings.isByte 170 e
            then String "k" (strings.foldKey rest'')
            else String (strings.lowerByte c) (strings.foldKey rest)
        | EmptyString => String (strings.lowerByte c) (strings.foldKey rest)
        end
  | EmptyString => String (strings.lowerByte c) (strings.foldKey rest)
  end.
Proof. destruct rest as [|d [|e r]]; reflexivity. Qed.

(** A string has the upper case of plain letters exactly when it has
    their fold key; by induction on a bound of its length, since both
    functions consume one, two or three bytes at a time. *)
Lemma ToUpper_foldKey_le n : forall m t,
  String.length m <= n -> letters.plain t = true ->
  (strings.ToUpper m = letters.upperBytes t <-> strings.foldKey m = t).
Proof.
  induction n as [|n IH]; intros m t Hlen Ht.
  - destruct m; [|simpl in Hlen; lia]. destruct t; simpl; split; congruence.
  - destruct m as [|c rest].
    { destruct t; simpl; split; congruence. }
    rewrite ToUpper_cons, foldKey_cons.
    destruct t as [|l t'].
    { cbn [letters.upperBytes]. destruct rest as [|d rest'].
      - split; discriminate.
      - split; intros H; exfalso; revert H.
        + destruct (strings.isByte 197 c && strings.isByte 191 d); [discriminate|].
          destruct (strings.isByte 196 c && strings.isByte 177 d); discriminate.
        + destruct (strings.isByte 197 c && strings.isByte 191 d); [discriminate|].
          destruct rest' as [|e r'']; [discriminate|].
          destruct (strings.isByte 226 c && strings.isByte 132 d && strings.isByte 170 e);
            discriminate. }
    simpl in Ht. apply andb_prop in Ht as [Hl Ht'].
    pose proof (letterFacts_all l c) as F. unfold letters.letterFacts in F.
    rewrite Hl in F. cbn [implb] in F.
    apply andb_prop in F as [F F226]. apply andb_prop in F as [F F196].
    apply andb_prop in F as [F F3]. apply andb_prop in F as [F Fk].
    apply andb_prop in F as [FS FI].
    apply Bool.eqb_prop in FS, F3. apply negb_true_iff in FI, Fk, F196, F226.
    simpl in Hlen.
    assert (Hrest : strings.ToUpper rest = letters.upperBytes t' <-> strings.foldKey rest = t')
      by (apply IH; auto; lia).
    cbn [letters.upperBytes]. destruct rest as [|d rest'].
    + rewrite !String_eq, F3, Hrest. reflexivity.
    + simpl in Hlen. destruct (strings.isByte 197 c && strings.isByte 191 d) eqn:E1.
      * rewrite !String_eq, FS. rewrite (IH rest' t') by (auto; lia). reflexivity.
      * destruct (strings.isByte 196 c && strings.isByte 177 d) eqn:E2.
        -- apply andb_prop in E2 as [E2 _]. rewrite E2 in F196. cbn [andb] in F196.
           assert (strings.isByte 226 c = false) as E226.
           { unfold strings.isByte in *. apply N.eqb_eq in E2. rewrite E2. reflexivity. }
           rewrite E226. cbn [andb].
           assert (forall X : string,
                     match rest' with String _ _ => X | EmptyString => X end = X) as ->
             by (intros; destruct rest'; reflexivity).
           rewrite !String_eq, FI, F196. intuition congruence.
        -- destruct rest' as [|e r''].
           ++ rewrite !String_eq, F3, Hrest. reflexivity.
           ++ destruct (strings.isByte 226 c && strings.isByte 132 d && strings.isByte 170 e)
                eqn:E3.
              ** apply andb_prop in E3 as [E3 _]. apply andb_prop in E3 as [E3 _].
                 rewrite E3 in F226. cbn [andb] in F226.
                 rewrite !String_eq, F226, Fk. intuition congruence.
              ** rewrite !String_eq, F3, Hrest. reflexivity.
Qed.

Lemma foldKey_plain t : letters.plain t = true -> strings.foldKey t = t.
Proof.
  induction t as [|l t IH]; [reflexivity|]. cbn [letters.plain]. intros H.
  apply andb_prop in H as [Hl Ht]. apply plainLetter_fixed in Hl as (H0 & H1 & H2).
  rewrite foldKey_cons, H1, H2, H0, (IH Ht). cbn [andb]. destruct t as [|d [|e t]]; reflexivity.
Qed.

(** The comparison of the upper case that [isMergeMethodValid] makes and
    the comparison under case folding that [EnablePullRequestAutoMerge]
    makes agree on words of plain letters. *)
Lemma ToUpper_EqualFold method t :
  letters.plain t = true ->
  (strings.ToUpper method =? letters.upperBytes t)%string = strings.EqualFold method t.
Proof.
  intros Ht. unfold strings.EqualFold. rewrite (foldKey_plain t Ht).
  pose proof (ToUpper_foldKey_le (String.length method) method t (le_n _) Ht) as H.
  destruct (String.eqb_spec (strings.ToUpper method) (letters.upperBytes t)) as [E|E];
    destruct (String.eqb_spec (strings.foldKey method) t) as [E'|E']; tauto.
Qed.

(** ** Validation *)

(** C9.  [NewAction] and [Validate] return no error exactly when the
    configured merge method is the empty string or is [squash], [merge]
    or [rebase] up to case, and return [ErrBadMergeMethod] exactly when it
    is none of these; the constructor makes no call to the platform and
    returns the action with its [spec] either way. *)
Theorem NewAction_validates (S : Type) spec gh pf h (s : S) :
  let R := NewAction spec gh pf h s in
  exists err,
    out R = Returns (PullRequest.mk gh "" "" spec PullRequestApi.zero None, err)
    /\ out (Validate spec pf h s) = Returns err
    /\ calls R = []
    /\ (err = None <-> acceptedMergeMethod (ActionSpec.MergeMethod spec))
    /\ (err = Some ErrBadMergeMethod <-> ~ acceptedMergeMethod (ActionSpec.MergeMethod spec)).
Proof.
  unfold NewAction, Validate, isMergeMethodValid, acceptedMergeMethod.
  set (method := ActionSpec.MergeMethod spec).
  change "SQUASH" with (letters.upperBytes "squash").
  change "MERGE" with (letters.upperBytes "merge").
  change "REBASE" with (letters.upperBytes "rebase").
  rewrite !ToUpper_EqualFold by reflexivity.
  assert (Hlen : (String.length method =? 0)%nat = true <-> method = "").
  { rewrite Nat.eqb_eq. destruct method; simpl; split; congruence. }
  destruct (String.length method =? 0)%nat eqn:E0;
    destruct (strings.EqualFold method "squash") eqn:E1;
    destruct (strings.EqualFold method "merge") eqn:E2;
    destruct (strings.EqualFold method "rebase") eqn:E3;
    cbn [orb]; mrun; eexists; (split; [reflexivity|]); (split; [reflexivity|]);
    (split; [reflexivity|]); split; split; intros H; try discriminate H;
    try reflexivity; try tauto; try (exfalso; apply H; tauto);
    try (destruct H as [H|[H|[H|H]]]; try discriminate H; apply Hlen in H; discriminate H).
  all: intros [H'|[H'|[H'|H']]]; try discriminate H'; apply Hlen in H'; discriminate H'.
Qed.

Example NewAction_examples :
  let err method :=
    out (Validate (ActionSpec.mk false "" "" [] false false method false false)
           (Sample.platform "AHEAD" [] (inl (Sample.pullRequest 1)) None (inl true))
           [] tt) in
  err "" = Returns None
  /\ err "SQUASH" = Returns None
  /\ err "Rebase" = Returns None
  /\ err "merge" = Returns None
  /\ err "fast-forward" = Returns (Some ErrBadMergeMethod)
  /\ err " squash" = Returns (Some ErrBadMergeMethod).
Proof. vm_compute. repeat split. Qed.

(** The long s (U+017F, bytes C5 BF) has upper case [S] and folds to
    [s]: with it in place of a letter [s], the method is accepted, sent
    as [SQUASH], and treated as squash. *)
Example long_s_squash :
  let method := String (strings.byte 197) (String (strings.byte 191) "quash") in
  strings.ToUpper method = "SQUASH"
  /\ strings.EqualFold method "squash" = true
  /\ out (Validate (ActionSpec.mk false "" "" [] false false method false false)
            (Sample.platform "AHEAD" [] (inl (Sample.pullRequest 1)) None (inl true))
            [] tt) = Returns None.
Proof. vm_compute. repeat split. Qed.

(** ** The commit headline *)

Lemma EqualFold_ToUpper method t :
  letters.plain t = true ->
  strings.EqualFold method t = true ->
  strings.ToUpper method = letters.upperBytes t.
Proof.
  intros Ht H. rewrite <- (ToUpper_EqualFold method t Ht) in H.
  apply String.eqb_eq. exact H.
Qed.

(** C8.  When the configuration asks for the title as commit message
    and auto-merge is allowed, the enable mutation carries as commit
    headline the title followed by the number of the pull request
    between [ (#] and [)] when the merge method is [squash] up to case
    (the mutation then names the method [SQUASH]), the bare title when
    the merge method is [rebase] up to case (the mutation then names
    [REBASE]), and no headline for any other merge method. *)
Theorem EnablePullRequestAutoMerge_headline pf h p :
  ActionSpec.UseTitleForAutoMerge (PullRequest.spec p) = true ->
  Platform.autoMergeAllowed pf h (Github.Spec_Owner (PullRequest.gh p))
    (Github.Spec_Repository (PullRequest.gh p)) = inl true ->
  let method := ActionSpec.MergeMethod (PullRequest.spec p) in
  let title := PullRequest.Title p in
  let number := PullRequestApi.Number (PullRequest.remotePullRequest p) in
  exists input,
    calls (EnablePullRequestAutoMerge pf h p)
    = [Query_autoMergeAllowed (Github.Spec_Owner (PullRequest.gh p))
         (Github.Spec_Repository (PullRequest.gh p));
       Mutate_enablePullRequestAutoMerge input]
    /\ (strings.EqualFold method "squash" = true ->
        EnablePullRequestAutoMergeInput.CommitHeadline input
        = Some (title ++ " (#" ++ fmt_d number ++ ")")%string
        /\ EnablePullRequestAutoMergeInput.MergeMethod input = Some "SQUASH")
    /\ (strings.EqualFold method "rebase" = true ->
        EnablePullRequestAutoMergeInput.CommitHeadline input = Some title
        /\ EnablePullRequestAutoMergeInput.MergeMethod input = Some "REBASE")
    /\ (strings.EqualFold method "squash" = false ->
        strings.EqualFold method "rebase" = false ->
        EnablePullRequestAutoMergeInput.CommitHeadline input = None).
Proof.
  intros Huse Hallowed method title number.
  pose proof (EnablePullRequestAutoMerge_runs pf h p) as G. cbv zeta in G.
  rewrite Hallowed in G. destruct G as [G _].
  exists (enableInput p). split; [exact G|].
  unfold enableInput. cbn [EnablePullRequestAutoMergeInput.CommitHeadline
                             EnablePullRequestAutoMergeInput.MergeMethod].
  rewrite Huse. fold method title number.
  assert (Hne : forall t, letters.plain t = true -> t <> "" ->
                  strings.EqualFold method t = true ->
                  (if (0 <? String.length method)%nat
                   then Some (strings.ToUpper method) else None)
                  = Some (letters.upperBytes t)).
  { intros t Ht Hn He. rewrite (EqualFold_ToUpper method t Ht He).
    destruct method as [|c m]; [|reflexivity].
    exfalso. apply Hn. unfold strings.EqualFold in He.
    rewrite (foldKey_plain t Ht) in He. apply String.eqb_eq in He. cbn in He. congruence. }
  split; [|split].
  - intros Hs. rewrite Hs. split; [reflexivity|].
    apply (Hne "squash"); [reflexivity|discriminate|exact Hs].
  - intros Hr.
    assert (Hs : strings.EqualFold method "squash" = false).
    { destruct (strings.EqualFold method "squash") eqn:Hs; [|reflexivity].
      apply (EqualFold_ToUpper method "squash" eq_refl) in Hs.
      apply (EqualFold_ToUpper method "rebase" eq_refl) in Hr.
      rewrite Hs in Hr. discriminate Hr. }
    rewrite Hs, Hr. split; [reflexivity|].
    apply (Hne "rebase"); [reflexivity|discriminate|exact Hr].
  - intros Hs Hr. rewrite Hs, Hr. reflexivity.
Qed.

(** The example of the specification: squash, title [Bump x to 2.0],
    pull request 42. *)
Lemma EnablePullRequestAutoMerge_headline_witness :
  let pf := Sample.platform "AHEAD" [] (inl (Sample.pullRequest 1)) None (inl true) in
  let p := PullRequest.set_Title "Bump x to 2.0"
             (PullRequest.set_remotePullRequest (Sample.pullRequest 1) Sample.action) in
  exists input,
    calls (EnablePullRequestAutoMerge pf [] p)
    = [Query_autoMergeAllowed "octo" "fork"; Mutate_enablePullRequestAutoMerge input]
    /\ EnablePullRequestAutoMergeInput.CommitHeadline input = Some "Bump x to 2.0 (#42)"
    /\ EnablePullRequestAutoMergeInput.MergeMethod input = Some "SQUASH".
Proof.
  destruct (EnablePullRequestAutoMerge_headline
              (Sample.platform "AHEAD" [] (inl (Sample.pullRequest 1)) None (inl true)) []
              (PullRequest.set_Title "Bump x to 2.0"
                 (PullRequest.set_remotePullRequest (Sample.pullRequest 1) Sample.action))
              eq_refl eq_refl) as (input & Hcalls & Hsquash & _).
  exists input. split; [exact Hcalls|]. exact (Hsquash eq_refl).
Defined.

Example headline_examples :
  let headline method :=
    EnablePullRequestAutoMergeInput.CommitHeadline
      (enableInput
         (PullRequest.mk Sample.gh "" "Bump x to 2.0"
            (ActionSpec.mk true "" "" [] false false method true false)
            (Sample.pullRequest 1) None)) in
  headline "squash" = Some "Bump x to 2.0 (#42)"
  /\ headline "SQUASH" = Some "Bump x to 2.0 (#42)"
  /\ headline "rebase" = Some "Bump x to 2.0"
  /\ headline "Rebase" = Some "Bump x to 2.0"
  /\ headline "merge" = None
  /\ headline "" = None.
Proof. vm_compute. repeat split. Qed.

(** ** What the calls of the entry points carry *)

Lemma updateInput_labels q bodyPR catalog attached desired :
  ActionSpec.Labels (PullRequest.spec q) = desired ->
  carriesLabels desired
    (Mutate_updatePullRequest
       (updateInput q bodyPR
          (map repositoryLabelApi.ID
             (labelSet (ActionSpec.Labels (PullRequest.spec q)) catalog attached)))).
Proof.
  intros Hd. unfold carriesLabels, updateInput.
  cbn [UpdatePullRequestInput.LabelIDs]. rewrite Hd.
  destruct desired as [|l desired]; [reflexivity|]. cbn [length Nat.eqb negb].
  exists catalog, attached. reflexivity.
Qed.

Lemma sentByUpdate_carries q c :
  sentByUpdate q c ->
  carriesTitle (PullRequest.Title q) c
  /\ carriesLabels (ActionSpec.Labels (PullRequest.spec q)) c
  /\ onlyReconciles c
  /\ forall r, PullRequest.repository q = Some r ->
       ActionSpec.Parent (PullRequest.spec q) = true -> targetsParent r c.
Proof.
  intros [->|[(r & before & Hr & ->)|(bodyPR & catalog & attached & ->)]].
  - split; [exact I|]. split; [exact I|]. split; [exact I|]. intros; exact I.
  - split; [exact I|]. split; [exact I|]. split; [exact I|].
    intros r' Hr' Hp. rewrite Hr in Hr'. injection Hr' as <-.
    unfold lookupOwner, lookupName. rewrite Hp. cbn. auto.
  - split; [reflexivity|]. split; [apply updateInput_labels; reflexivity|].
    split; [exact I|]. intros; exact I.
Qed.

Lemma sentByCreateAction_carries pf p report r c :
  sentByCreateAction pf p report r c ->
  carriesTitle (chosenTitle (PullRequest.spec p) report) c
  /\ carriesLabels (ActionSpec.Labels (PullRequest.spec p)) c
  /\ (ActionSpec.Parent (PullRequest.spec p) = true -> targetsParent r c)
  /\ (Repository.Status r <> "AHEAD" -> onlyReconciles c).
Proof.
  intros [->|(q & (Hg & Hs & Ht & Hr) & Hc)];
    [split; [exact I|]; split; [exact I|]; split; intros; exact I|].
  destruct Hc as [(r' & Hr' & ->)|[(r' & bodyPR & Hr' & Ha & ->)|[Hu|[Ha Hc]]]].
  - rewrite Hr in Hr'. injection Hr' as <-.
    split; [exact I|]. split; [exact I|]. split; [|intros; exact I].
    intros Hp. unfold lookupOwner, lookupName. rewrite Hs, Hp. cbn. auto.
  - rewrite Hr in Hr'. injection Hr' as <-. split; [exact Ht|].
    split; [exact I|]. split.
    + intros Hp. unfold createInput. rewrite Hs, Hp. cbn. auto.
    + intros Hn. exfalso. exact (Hn Ha).
  - apply sentByUpdate_carries in Hu as (H1 & H2 & H3 & H4).
    rewrite Ht in H1. rewrite Hs in H2, H4. split; [exact H1|]. split; [exact H2|].
    split; [intros Hp; exact (H4 r Hr Hp)|intros _; exact H3].
  - assert (Hn : Repository.Status r <> "AHEAD" -> onlyReconciles c)
      by (intros Hn; exfalso; exact (Hn Ha)).
    destruct Hc as [[-> | ->]|[-> | ->]];
      (split; [exact I|]); (split; [exact I|]); (split; [intros; exact I|exact Hn]).
Qed.

Lemma sentByCleanAction_carries pf p r c :
  sentByCleanAction pf p r c ->
  ActionSpec.Parent (PullRequest.spec p) = true -> targetsParent r c.
Proof.
  intros [->|(q & (Hg & Hs & Ht & Hr) & Hc)] Hp; [exact I|].
  destruct Hc as [(r' & Hr' & ->)|[-> | ->]]; try exact I.
  rewrite Hr in Hr'. injection Hr' as <-.
  unfold lookupOwner, lookupName. rewrite Hs, Hp. cbn. auto.
Qed.

(** The calls of [CreateAction], whatever the platform answers. *)
Lemma CreateAction_carries report reset fuel pf h p (P : Call -> Prop) :
  P (queryRepository_call (sourceOf pf (PullRequest.gh p)) (workingOf pf (PullRequest.gh p))) ->
  (forall r c,
     Platform.queryRepository pf h (sourceOf pf (PullRequest.gh p))
       (workingOf pf (PullRequest.gh p)) = inl r ->
     sentByCreateAction pf p report r c -> P c) ->
  Forall P (calls (CreateAction report reset fuel pf h p)).
Proof.
  intros H0 H. pose proof (CreateAction_sends report reset fuel pf h p) as S.
  destruct (Platform.queryRepository pf h _ _) as [r|err].
  - revert S. apply Forall_impl. intros c. apply H. reflexivity.
  - destruct S as [-> _]. apply Forall_one. exact H0.
Qed.

(** The calls of [updatePullRequest] on a platform that renders the
    body, lists the labels of the repository and serves the labels of
    the pull request in [pages] and [final]: the update mutation comes
    last and carries the label set computed from these answers. *)
Lemma updatePullRequest_calls fuel pf h s r bodyPR catalog pages final :
  PullRequest.repository s = Some r ->
  Platform.GeneratePullRequestBody pf (ActionSpec.Description (PullRequest.spec s))
    (PullRequest.Report s) = inl bodyPR ->
  Platform.getRepositoryLabels pf h = inl catalog ->
  served pf (h ++ [getRepositoryLabels_call])
    (lookupOwner (PullRequest.spec s) r) (lookupName (PullRequest.spec s) r)
    (githubv4_Int (PullRequestApi.Number (PullRequest.remotePullRequest s)))
    None pages (inl final) ->
  forallb hasPrevious pages = true ->
  hasPrevious final = false ->
  length pages < fuel ->
  calls (updatePullRequest fuel pf h s)
  = getRepositoryLabels_call
    :: labelQueries (lookupOwner (PullRequest.spec s) r) (lookupName (PullRequest.spec s) r)
         (githubv4_Int (PullRequestApi.Number (PullRequest.remotePullRequest s)))
         None pages
    ++ [Mutate_updatePullRequest
          (updateInput s bodyPR
             (map repositoryLabelApi.ID
                (labelSet (ActionSpec.Labels (PullRequest.spec s)) catalog
                   (flat_map labelsOf (pages ++ [final])))))].
Proof.
  intros Hr Hbody Hcatalog Hs Hp Hf Hfuel.
  unfold updatePullRequest, GetPullRequestLabelsInformation. mrun.
  rewrite Hbody. mrun. rewrite Hcatalog. mrun. rewrite Hr. mrun.
  rewrite (labelsLoop_served pf _ _ _ s pages fuel _ None [] final Hs Hp Hf Hfuel).
  mrun. unfold labelSet. answer; reflexivity.
Qed.

(** C4.  An update mutation, sent by [updatePullRequest] alone or in the
    course of [CreateAction], has no [LabelIDs] field when no label is
    configured, and when labels are configured it has the field, filled
    with the identifiers of the computed label set.  When the steps
    before it succeed the mutation is sent, as the last call, and the
    label set is computed from the labels that the platform listed. *)
Theorem updatePullRequest_LabelIDs pf h p fuel report reset :
  Forall (carriesLabels (ActionSpec.Labels (PullRequest.spec p)))
    (calls (updatePullRequest fuel pf h p))
  /\ Forall (carriesLabels (ActionSpec.Labels (PullRequest.spec p)))
       (calls (CreateAction report reset fuel pf h p))
  /\ (forall r bodyPR catalog pages final,
        PullRequest.repository p = Some r ->
        Platform.GeneratePullRequestBody pf (ActionSpec.Description (PullRequest.spec p))
          (PullRequest.Report p) = inl bodyPR ->
        Platform.getRepositoryLabels pf h = inl catalog ->
        served pf (h ++ [getRepositoryLabels_call])
          (lookupOwner (PullRequest.spec p) r) (lookupName (PullRequest.spec p) r)
          (githubv4_Int (PullRequestApi.Number (PullRequest.remotePullRequest p)))
          None pages (inl final) ->
        forallb hasPrevious pages = true ->
        hasPrevious final = false ->
        length pages < fuel ->
        exists input,
          last (calls (updatePullRequest fuel pf h p)) getRepositoryLabels_call
          = Mutate_updatePullRequest input
          /\ UpdatePullRequestInput.LabelIDs input
             = match ActionSpec.Labels (PullRequest.spec p) with
               | [] => None
               | desired =>
                   Some (map repositoryLabelApi.ID
                           (labelSet desired catalog (flat_map labelsOf (pages ++ [final]))))
               end).
Proof.
  split; [|split].
  - destruct (updatePullRequest_sends fuel pf h p) as [_ S]. revert S.
    apply Forall_impl. intros c Hc. apply sentByUpdate_carries in Hc. tauto.
  - apply CreateAction_carries; [exact I|]. intros r c _ Hc.
    apply sentByCreateAction_carries in Hc. tauto.
  - intros r bodyPR catalog pages final Hr Hbody Hcatalog Hs Hp Hf Hfuel.
    rewrite (updatePullRequest_calls fuel pf h p r bodyPR catalog pages final
               Hr Hbody Hcatalog Hs Hp Hf Hfuel).
    eexists. split.
    + rewrite app_comm_cons. apply last_last.
    + unfold updateInput. cbn [UpdatePullRequestInput.LabelIDs].
      destruct (ActionSpec.Labels (PullRequest.spec p)); reflexivity.
Qed.

(** On the sample platform, with the labels [chore] and [dependencies]
    configured and the labels [docs], [bug] and [chore] attached. *)
Lemma updatePullRequest_LabelIDs_witness :
  let pf := Sample.platform "AHEAD" [] (inl (Sample.pullRequest 1)) None (inl true) in
  let p := PullRequest.set_repository (Some (Sample.repository "AHEAD"))
             (PullRequest.set_remotePullRequest (Sample.pullRequest 1) Sample.action) in
  exists input,
    last (calls (updatePullRequest 3 pf [] p)) getRepositoryLabels_call
    = Mutate_updatePullRequest input
    /\ UpdatePullRequestInput.LabelIDs input
       = Some (map repositoryLabelApi.ID
                 [Sample.dependencies; Sample.docs; Sample.bug; Sample.chore]).
Proof.
  exact (proj2 (proj2
    (updatePullRequest_LabelIDs
       (Sample.platform "AHEAD" [] (inl (Sample.pullRequest 1)) None (inl true)) []
       (PullRequest.set_repository (Some (Sample.repository "AHEAD"))
          (PullRequest.set_remotePullRequest (Sample.pullRequest 1) Sample.action))
       3 Sample.report false))
    (Sample.repository "AHEAD") "" Sample.catalog [Sample.newest; Sample.middle]
    Sample.oldest eq_refl eq_refl eq_refl (conj eq_refl (conj eq_refl eq_refl))
    eq_refl eq_refl (le_n 3)).
Defined.

(** The whole run: the lookups go to the parent
    [upstream/project], the question about auto-merge to the fork. *)
Example CreateAction_run :
  calls (CreateAction Sample.report false 5
           (Sample.platform "AHEAD" [] (inl (Sample.pullRequest 1)) None (inl true))
           [] Sample.action)
  = [queryRepository_call "main" "updatecli_main_deps";
     Query_pullRequests "upstream" "project" "main" "updatecli_main_deps";
     Mutate_createPullRequest
       (CreatePullRequestInput.mk "R_parent" "main" "updatecli_main_deps"
          "Bump x to 2.0" (Some "x: 1.0 -> 2.0") (Some true) (Some false)
          (Some "R_fork"));
     getRepositoryLabels_call;
     Query_pullRequestLabels "upstream" "project" 42 None;
     Query_pullRequestLabels "upstream" "project" 42 (Some "c3");
     Query_pullRequestLabels "upstream" "project" 42 (Some "c2");
     Mutate_updatePullRequest
       (UpdatePullRequestInput.mk "PR_42" (Some "Bump x to 2.0")
          (Some "x: 1.0 -> 2.0") (Some ["L_4"; "L_3"; "L_1"; "L_2"]));
     Query_autoMergeAllowed "octo" "fork";
     Mutate_enablePullRequestAutoMerge
       (EnablePullRequestAutoMergeInput.mk "PR_42" (Some "SQUASH")
          (Some "Bump x to 2.0 (#42)"))].
Proof. vm_compute. reflexivity. Qed.

(** [CleanAction] on a pull request without changed file whose comment
    is refused. *)
Example CleanAction_run :
  let R := CleanAction Sample.report
             (Sample.platform "AHEAD" [Sample.pullRequest 0] (inl (Sample.pullRequest 0))
                (Some Sample.forbidden) (inl true))
             [] Sample.action in
  out R = Returns None
  /\ calls R
     = [queryRepository_call "" "";
        Query_pullRequests "upstream" "project" "main" "updatecli_main_deps";
        Mutate_closePullRequest (ClosePullRequestInput.mk "PR_42");
        addComment_call "PR_42" closingComment]
  /\ last (logs R) (Log DebugLevel "" []) = commentFailure Sample.forbidden.
Proof. vm_compute. repeat split. Qed.

(** Without configured labels the update mutation has no [LabelIDs]. *)
Example updatePullRequest_without_labels :
  let spec := ActionSpec.mk false "" "" [] false false "" false false in
  let p := PullRequest.mk Sample.gh "report" "title" spec (Sample.pullRequest 1)
             (Some (Sample.repository "AHEAD")) in
  calls (updatePullRequest 5
           (Sample.platform "AHEAD" [] (inl (Sample.pullRequest 1)) None (inl true)) [] p)
  = [getRepositoryLabels_call;
     Query_pullRequestLabels "octo" "fork" 42 None;
     Query_pullRequestLabels "octo" "fork" 42 (Some "c3");
     Query_pullRequestLabels "octo" "fork" 42 (Some "c2");
     Mutate_updatePullRequest
       (UpdatePullRequestInput.mk "PR_42" (Some "title") (Some "report") None)].
Proof. vm_compute. reflexivity. Qed.

(** ** Runs on a platform that answers *)

Lemma length_zero (s : string) : (String.length s =? 0)%nat = (s =? "")%string.
Proof. destruct s; reflexivity. Qed.





(** ** No changed file: the pull request is closed *)

Lemma closePullRequest_runs pf h s :
  let id := PullRequestApi.ID (PullRequest.remotePullRequest s) in
  let close := Mutate_closePullRequest (ClosePullRequestInput.mk id) in
  match Platform.closePullRequest pf h (ClosePullRequestInput.mk id) with
  | inl mutation =>
      closePullRequest pf h s
      = mkRun (Returns None) s [close; addComment_call id closingComment]
          (Log InfoLevel "%s at:\n\n\t%s\n\n" [closingComment; PullRequestApi.Url mutation]
           :: match Platform.addComment pf (h ++ [close]) id closingComment with
              | Some err => [commentFailure err]
              | None => []
              end)
  | inr err =>
      closePullRequest pf h s
      = mkRun (Returns (Some err)) s [close] [Log DebugLevel "Closing pull request: %s" [Error err]]
  end.
Proof.
  unfold closePullRequest, closingComment. mrun.
  destruct (Platform.closePullRequest pf h
              (ClosePullRequestInput.mk (PullRequestApi.ID (PullRequest.remotePullRequest s))))
    as [mutation|err]; mrun; [|reflexivity].
  answer; reflexivity.
Qed.







(** * Further properties of the pull request action *)

(** ** No method panics once the repository is resolved *)

Lemma labelsLoop_noPanic fuel : forall owner repo number before acc pf h s,
  noPanic (out (labelsLoop fuel owner repo number before acc pf h s)).
Proof.
  induction fuel as [|fuel IH]; intros; cbn [labelsLoop].
  - exact I.
  - mrun. destruct (Platform.pullRequestLabels pf h owner repo number before) as [page|err].
    + destruct (negb (PageInfo.HasPreviousPage (Labels.PageInfo page))).
      * exact I.
      * specialize (IH owner repo number (Some (PageInfo.StartCursor (Labels.PageInfo page)))
                      (acc ++ map labelOfEdge (Labels.Edges page)) pf
                      (h ++ [Query_pullRequestLabels owner repo number before]) s).
        destruct (labelsLoop fuel owner repo number _ _ pf _ s) as [o s1 c1 l1].
        destruct o; exact IH.
    + exact I.
Qed.

Lemma GetPullRequestLabelsInformation_noPanic fuel pf h s r :
  PullRequest.repository s = Some r ->
  noPanic (out (GetPullRequestLabelsInformation fuel pf h s)).
Proof.
  intros Hr. unfold GetPullRequestLabelsInformation. mrun. rewrite Hr. mrun.
  match goal with |- context [labelsLoop ?f ?o ?n ?z ?b ?a ?pf ?h ?s] =>
    pose proof (labelsLoop_noPanic f o n z b a pf h s) as N;
    destruct (labelsLoop f o n z b a pf h s) as [o1 s1 c1 l1] end.
  destruct o1; exact N.
Qed.


(** [updatePullRequest]: the body of the mutation is the rendering of
    the report of the receiver. *)
Lemma updatePullRequest_more fuel pf h s :
  let R := updatePullRequest fuel pf h s in
  Forall (carriesBody pf (ActionSpec.Description (PullRequest.spec s)) (PullRequest.Report s))
    (calls R)
  /\ (forall r, PullRequest.repository s = Some r -> noPanic (out R)).
Proof.
  cbv zeta. unfold updatePullRequest. mrun.
  answer; [|split; [constructor|intros; exact I]].
  answer; [|split; [apply Forall_one; exact I|intros; exact I]].
  match goal with |- context [GetPullRequestLabelsInformation ?f ?pf ?h ?s] =>
    pose proof (GetPullRequestLabelsInformation_sends f pf h s) as [Hs Hc];
    pose proof (GetPullRequestLabelsInformation_noPanic f pf h s) as N;
    destruct (GetPullRequestLabelsInformation f pf h s) as [o1 s1 c1 l1] end.
  cbn [self calls out] in *. subst s1.
  assert (Hc' : Forall (carriesBody pf (ActionSpec.Description (PullRequest.spec s))
                          (PullRequest.Report s)) c1).
  { eapply Forall_impl; [|exact Hc]. intros c (r & b & _ & ->). exact I. }
  destruct o1 as [[attached [err|]]| |]; mrun.
  - split; [constructor; [exact I|exact Hc']|intros; exact I].
  - answer;
      (split; [|intros; exact I]); (constructor; [exact I|]);
      (apply Forall_app; split; [exact Hc'|]); apply Forall_one;
      exists bodyPR; split; [exact Hbody|reflexivity| exact Hbody|reflexivity].
  - split; [constructor; [exact I|exact Hc']|exact N].
  - split; [constructor; [exact I|exact Hc']|intros; exact I].
Qed.

(** [OpenPullRequest]: the report is left alone, the body of the
    mutation is its rendering, and at most one call is sent. *)
Lemma OpenPullRequest_more pf h s :
  let R := OpenPullRequest pf h s in
  PullRequest.Report (self R) = PullRequest.Report s
  /\ Forall (carriesBody pf (ActionSpec.Description (PullRequest.spec s)) (PullRequest.Report s))
       (calls R)
  /\ (forall r, PullRequest.repository s = Some r -> noPanic (out R)).
Proof.
  cbv zeta. unfold OpenPullRequest. mrun.
  answer; [|split; [reflexivity|split; [constructor|intros; exact I]]].
  rewrite GetBranches_run. mrun.
  destruct (branchesOf pf (PullRequest.gh s)) as [[src wrk] tgt] eqn:Hb.
  unfold isAhead. mrun.
  destruct (PullRequest.repository s) as [r|] eqn:Hr; mrun.
  2: { split; [reflexivity|]. split; [constructor|]. intros r H. discriminate H. }
  destruct (Repository.Status r =? "AHEAD")%string eqn:Ha; cbn [negb]; mrun.
  2: { split; [reflexivity|]. split; [constructor|]. intros; exact I. }
  rewrite Hr. mrun.
  answer; (split; [reflexivity|]); (split; [|intros; exact I]);
    apply Forall_one; exists bodyPR; (split; [exact Hbody|reflexivity]).
Qed.

(** [getRemotePullRequest]: the receiver keeps its pull request and its
    report when the lookup finds nothing; otherwise it takes the first
    pull request found, and the report is kept when the body is reset
    and merged into the body found when it is not. *)
Lemma getRemotePullRequest_more resetBody pf h s :
  let R := getRemotePullRequest resetBody pf h s in
  (forall r, PullRequest.repository s = Some r -> noPanic (out R))
  /\ ((PullRequest.Report (self R) = PullRequest.Report s
       /\ (PullRequest.remotePullRequest (self R) = PullRequest.remotePullRequest s
           \/ resetBody = true))
      \/ (resetBody = false
          /\ exists h' owner name base head node nodes,
               Platform.pullRequests pf h' owner name base head = inl (node :: nodes)
               /\ PullRequest.Report (self R)
                  = Platform.MergeFromString pf (PullRequestApi.Body node)
                      (PullRequest.Report s))).
Proof.
  cbv zeta. unfold getRemotePullRequest. mrun.
  destruct (PullRequest.repository s) as [r|] eqn:Hr; mrun.
  2: { split; [intros r H; discriminate H|]. left. auto. }
  rewrite GetBranches_run. mrun.
  destruct (branchesOf pf (PullRequest.gh s)) as [[src wrk] tgt] eqn:Hb.
  mrun. answer.
  - split; [intros; exact I|]. left. auto.
  - destruct resetBody; mrun; (split; [intros; exact I|]).
    + left. auto.
    + right. split; [reflexivity|]. eexists _, _, _, _, _, _, _. split; [exact Hlookup|].
      reflexivity.
  - split; [intros; exact I|]. left. auto.
Qed.

Lemma closePullRequest_noPanic pf h s : noPanic (out (closePullRequest pf h s)).
Proof.
  pose proof (closePullRequest_runs pf h s) as C. cbv zeta in C.
  destruct (Platform.closePullRequest pf h _); rewrite C; exact I.
Qed.

Lemma EnablePullRequestAutoMerge_noPanic pf h s :
  noPanic (out (EnablePullRequestAutoMerge pf h s)).
Proof.
  unfold EnablePullRequestAutoMerge, isAutoMergedEnabledOnRepository. mrun.
  answer; [answer|idtac|idtac]; exact I.
Qed.

(** ** The steps of [CreateAction] *)

Section Steps.
Variables (pf : Platform.t) (p : PullRequest.t) (report : reports.Action)
  (reset : bool) (r : Repository.t) (s : PullRequest.t).
Hypothesis Ps : prepared p (chosenTitle (PullRequest.spec p) report) r s.
Hypothesis Rs : reportOf pf report reset (PullRequest.Report s).

Lemma step_lookup cs :
  PullRequest.Report s = reports.ToActionsString report ->
  PullRequest.remotePullRequest s = PullRequest.remotePullRequest p ->
  Forall (sentByLookup pf s) cs ->
  Forall (stepOfCreateAction pf p report reset r) cs.
Proof.
  intros Ht Hp. apply Forall_impl. intros c Hc. right. exists s.
  split; [exact Ps|]. split; [exact Rs|]. split.
  - destruct Hc as (r' & _ & ->). exact I.
  - left. auto.
Qed.

Lemma step_open cs :
  (String.length (PullRequestApi.ID (PullRequest.remotePullRequest s)) =? 0)%nat = true ->
  Forall (sentByOpen pf s) cs ->
  Forall (carriesBody pf (ActionSpec.Description (PullRequest.spec s))
            (PullRequest.Report s)) cs ->
  Forall (stepOfCreateAction pf p report reset r) cs.
Proof.
  intros Hid H1 H2. rewrite length_zero in Hid. apply String.eqb_eq in Hid.
  rewrite Forall_forall in *. intros c Hc. right. exists s.
  split; [exact Ps|]. split; [exact Rs|]. split.
  - rewrite <- (proj1 (proj2 Ps)). exact (H2 c Hc).
  - right. left. split; [exact Hid|exact (H1 c Hc)].
Qed.

Lemma step_update cs :
  Forall (sentByUpdate s) cs ->
  Forall (carriesBody pf (ActionSpec.Description (PullRequest.spec s))
            (PullRequest.Report s)) cs ->
  Forall (stepOfCreateAction pf p report reset r) cs.
Proof.
  intros H1 H2. rewrite Forall_forall in *. intros c Hc. right. exists s.
  split; [exact Ps|]. split; [exact Rs|]. split.
  - rewrite <- (proj1 (proj2 Ps)). exact (H2 c Hc).
  - right. right. left. exact (H1 c Hc).
Qed.

Lemma step_close cs :
  (Repository.Status r =? "AHEAD")%string = true ->
  (PullRequestApi.ChangedFiles (PullRequest.remotePullRequest s) =? 0)%Z = true ->
  Forall (sentByClose s) cs ->
  Forall (stepOfCreateAction pf p report reset r) cs.
Proof.
  intros Ha Hz. apply String.eqb_eq in Ha. apply Z.eqb_eq in Hz.
  apply Forall_impl. intros c Hc. right. exists s.
  split; [exact Ps|]. split; [exact Rs|]. split.
  - destruct Hc as [->| ->]; exact I.
  - right. right. right. left. auto.
Qed.

Lemma step_enable cs :
  (Repository.Status r =? "AHEAD")%string = true ->
  (PullRequestApi.ChangedFiles (PullRequest.remotePullRequest s) =? 0)%Z = false ->
  ActionSpec.AutoMerge (PullRequest.spec s) = true ->
  Forall (sentByEnable s) cs ->
  Forall (stepOfCreateAction pf p report reset r) cs.
Proof.
  intros Ha Hz Hm. apply String.eqb_eq in Ha. apply Z.eqb_neq in Hz.
  rewrite (proj1 (proj2 Ps)) in Hm.
  apply Forall_impl. intros c Hc. right. exists s.
  split; [exact Ps|]. split; [exact Rs|]. split.
  - destruct Hc as [->| ->]; exact I.
  - right. right. right. right. auto.
Qed.
End Steps.

(** A callee whose run the goal is waiting for, with what the source
    has tested before it is called. *)
Ltac step :=
  match goal with
  | Ps : prepared ?p (chosenTitle _ ?rep) ?r ?s,
    Rs : reportOf ?pf ?rep ?reset (PullRequest.Report ?s),
    Hid : (String.length (PullRequestApi.ID (PullRequest.remotePullRequest ?s)) =? 0)%nat = true
    |- context [OpenPullRequest ?pf ?h ?s] =>
      let F := fresh "Fr" in let C := fresh "Sent" in
      let E := fresh "Rep" in let B := fresh "Body" in let N := fresh "NoPanic" in
      pose proof (OpenPullRequest_sends pf h s) as [F C];
      pose proof (OpenPullRequest_more pf h s) as (E & B & N);
      specialize (N r (proj2 (proj2 (proj2 Ps))));
      apply (prepared_framed _ _ _ _ _ Ps) in F;
      apply (step_open pf p rep reset r s Ps Rs _ Hid C) in B; clear C;
      destruct (OpenPullRequest pf h s) as [[[?err|]| |] ?q ?cs ?ls];
      cbn [out self calls noPanic] in F, E, B, N; try contradiction;
      rewrite <- E in Rs
  | Ps : prepared ?p (chosenTitle _ ?rep) ?r ?s,
    Rs : reportOf ?pf ?rep ?reset (PullRequest.Report ?s)
    |- context [updatePullRequest ?f ?pf ?h ?s] =>
      let F := fresh "Fr" in let C := fresh "Sent" in
      let B := fresh "Body" in let N := fresh "NoPanic" in
      pose proof (updatePullRequest_sends f pf h s) as [F C];
      pose proof (updatePullRequest_more f pf h s) as (B & N);
      specialize (N r (proj2 (proj2 (proj2 Ps))));
      apply (step_update pf p rep reset r s Ps Rs _ C) in B; clear C;
      destruct (updatePullRequest f pf h s) as [[[?err|]| |] ?q ?cs ?ls];
      cbn [out self calls noPanic] in F, B, N; try contradiction; subst
  | Ps : prepared ?p (chosenTitle _ ?rep) ?r ?s,
    Rs : reportOf ?pf ?rep ?reset (PullRequest.Report ?s),
    Ha : (_ =? "AHEAD")%string = true,
    Hz : (PullRequestApi.ChangedFiles (PullRequest.remotePullRequest ?s) =? 0)%Z = true
    |- context [closePullRequest ?pf ?h ?s] =>
      let F := fresh "Fr" in let C := fresh "Sent" in let N := fresh "NoPanic" in
      pose proof (closePullRequest_sends pf h s) as [F C];
      pose proof (closePullRequest_noPanic pf h s) as N;
      apply (step_close pf p rep reset r s Ps Rs _ Ha Hz) in C;
      destruct (closePullRequest pf h s) as [[[?err|]| |] ?q ?cs ?ls];
      cbn [out self calls noPanic] in F, C, N; try contradiction; subst
  | Ps : prepared ?p (chosenTitle _ ?rep) ?r ?s,
    Rs : reportOf ?pf ?rep ?reset (PullRequest.Report ?s),
    Ha : (_ =? "AHEAD")%string = true,
    Hz : (PullRequestApi.ChangedFiles (PullRequest.remotePullRequest ?s) =? 0)%Z = false,
    Hm : ActionSpec.AutoMerge (PullRequest.spec ?s) = true
    |- context [EnablePullRequestAutoMerge ?pf ?h ?s] =>
      let F := fresh "Fr" in let C := fresh "Sent" in let N := fresh "NoPanic" in
      pose proof (EnablePullRequestAutoMerge_sends pf h s) as [F C];
      pose proof (EnablePullRequestAutoMerge_noPanic pf h s) as N;
      apply (step_enable pf p rep reset r s Ps Rs _ Ha Hz Hm) in C;
      destruct (EnablePullRequestAutoMerge pf h s) as [[[?err|]| |] ?q ?cs ?ls];
      cbn [out self calls noPanic] in F, C, N; try contradiction; subst
  end;
  mrun.

Ltac stepped := cbn [out calls noPanic]; split; [exact I|sent].

(** Every call of [CreateAction] is a step, and no run of it ends on a
    [nil] dereference. *)
Lemma CreateAction_steps report reset fuel pf h p :
  let R := CreateAction report reset fuel pf h p in
  noPanic (out R)
  /\ match Platform.queryRepository pf h (sourceOf pf (PullRequest.gh p))
             (workingOf pf (PullRequest.gh p)) with
     | inl r => Forall (stepOfCreateAction pf p report reset r) (calls R)
     | inr err => True
     end.
Proof.
  cbv zeta. unfold CreateAction, sourceOf, workingOf. mrun.
  destruct (negb (ActionSpec.Title (PullRequest.spec p) =? "")%string) eqn:HT; mrun;
    rewrite GetBranches_run; mrun;
    (destruct (branchesOf pf (PullRequest.gh p)) as [[src wrk] tgt] eqn:Hb); mrun;
    (answer; [|split; exact I]).
  all: assert (H0 : stepOfCreateAction pf p report reset repo (queryRepository_call src wrk))
         by (left; unfold sourceOf, workingOf; rewrite Hb; reflexivity).
  all: match goal with |- context [getRemotePullRequest _ _ ?h' ?s] =>
         assert (P0 : prepared p (chosenTitle (PullRequest.spec p) report) repo s)
           by (unfold chosenTitle; rewrite HT; repeat split);
         assert (R0 : reportOf pf report reset (PullRequest.Report s))
           by (left; reflexivity);
         pose proof (getRemotePullRequest_sends reset pf h' s) as [Fr Sent];
         pose proof (getRemotePullRequest_more reset pf h' s) as [N More];
         specialize (N repo eq_refl);
         apply (prepared_framed _ _ _ _ _ P0) in Fr;
         apply (step_lookup pf p report reset repo s P0 R0 _ eq_refl eq_refl) in Sent;
         assert (R1 : reportOf pf report reset
                        (PullRequest.Report (self (getRemotePullRequest reset pf h' s))))
           by (destruct More as [[-> _]|[Hreset More]];
               [left; reflexivity|right; split; [exact Hreset|exact More]]);
         clear More R0;
         destruct (getRemotePullRequest reset pf h' s) as [[[?err|]| |] q cs ls]
       end;
       cbn [out self calls noPanic] in Fr, Sent, N, R1; try contradiction; mrun;
       try solve [stepped].
  all: repeat first [ solve [stepped] | step | resolved | branch ].
Qed.

(** The calls of [CreateAction], step by step, whatever the platform
    answers. *)
Lemma CreateAction_stepwise report reset fuel pf h p (P : Call -> Prop) :
  P (queryRepository_call (sourceOf pf (PullRequest.gh p)) (workingOf pf (PullRequest.gh p))) ->
  (forall r c,
     Platform.queryRepository pf h (sourceOf pf (PullRequest.gh p))
       (workingOf pf (PullRequest.gh p)) = inl r ->
     stepOfCreateAction pf p report reset r c -> P c) ->
  Forall P (calls (CreateAction report reset fuel pf h p)).
Proof.
  intros H0 H. pose proof (CreateAction_steps report reset fuel pf h p) as [_ S].
  pose proof (CreateAction_sends report reset fuel pf h p) as S'.
  destruct (Platform.queryRepository pf h _ _) as [r|err].
  - revert S. apply Forall_impl. intros c. apply H. reflexivity.
  - destruct S' as [-> _]. apply Forall_one. exact H0.
Qed.

Lemma CleanAction_noPanic report pf h p : noPanic (out (CleanAction report pf h p)).
Proof.
  unfold CleanAction. mrun. answer; [|exact I].
  match goal with |- context [getRemotePullRequest ?b ?pf ?h' ?s] =>
    pose proof (getRemotePullRequest_more b pf h' s) as [N _];
    specialize (N repo eq_refl);
    destruct (getRemotePullRequest b pf h' s) as [[[err|]| |] q cs ls]
  end; cbn [out noPanic] in N; try contradiction; mrun; try exact I.
  branch; [exact I|]. branch; [|exact I].
  match goal with |- context [closePullRequest ?pf ?h' ?s] =>
    pose proof (closePullRequest_noPanic pf h' s) as N';
    destruct (closePullRequest pf h' s) as [[?| |] ? ? ?]
  end; exact N'.
Qed.

(** X1.  Neither [CreateAction] nor [CleanAction] ends on a [nil]
    dereference, whatever the receiver they are called on (also one
    whose repository was never resolved, as [NewAction] returns it) and
    whatever the platform answers: both set [p.repository] before the
    first method that reads it runs. *)
Theorem entry_points_never_panic report reset fuel pf h p :
  noPanic (out (CreateAction report reset fuel pf h p))
  /\ noPanic (out (CleanAction report pf h p)).
Proof.
  split.
  - exact (proj1 (CreateAction_steps report reset fuel pf h p)).
  - apply CleanAction_noPanic.
Qed.

Lemma stepOfCreateAction_kinds pf p report reset r c :
  stepOfCreateAction pf p report reset r c ->
  (ActionSpec.AutoMerge (PullRequest.spec p) = false -> isAutoMerge c = false)
  /\ asksAbout (Github.Spec_Owner (PullRequest.gh p))
       (Github.Spec_Repository (PullRequest.gh p)) c
  /\ opensFrom (workingOf pf (PullRequest.gh p)) (Github.Spec_Branch (PullRequest.gh p))
       (ActionSpec.Draft (PullRequest.spec p))
       (negb (ActionSpec.MaintainerCannotModify (PullRequest.spec p))) c
  /\ (ActionSpec.Parent (PullRequest.spec p) = false -> targetsSelf r c).
Proof.
  intros [->|(q & (Hg & Hs & Ht & Hr) & _ & _ & Hc)];
    [split; [reflexivity|]; split; [exact I|]; split; [exact I|intros; exact I]|].
  destruct Hc as [(_ & _ & r' & Hr' & ->)
                 |[(_ & r' & bodyPR & Hr' & Ha & ->)
                  |[[->|[(r' & before & Hr' & ->)|(bodyPR & catalog & attached & ->)]]
                   |[(_ & _ & [-> | ->])|(_ & _ & Hm & [-> | ->])]]]].
  - rewrite Hr in Hr'. injection Hr' as <-.
    split; [reflexivity|]. split; [exact I|]. split; [exact I|].
    intros Hp. unfold lookupOwner, lookupName. rewrite Hs, Hp. cbn. auto.
  - rewrite Hr in Hr'. injection Hr' as <-.
    split; [reflexivity|]. split; [exact I|]. split.
    + unfold createInput, opensFrom. cbn. rewrite Hs, Hg.
      unfold targetOf, branchesOf.
      destruct ((0 <? String.length (Github.pipelineID (PullRequest.gh p)))%nat
                && Github.workingBranch (PullRequest.gh p)); cbn; auto.
    + intros Hp. unfold createInput. rewrite Hs, Hp. cbn. auto.
  - split; [reflexivity|]. split; [exact I|]. split; [exact I|intros; exact I].
  - rewrite Hr in Hr'. injection Hr' as <-.
    split; [reflexivity|]. split; [exact I|]. split; [exact I|].
    intros Hp. unfold lookupOwner, lookupName. rewrite Hs, Hp. cbn. auto.
  - split; [reflexivity|]. split; [exact I|]. split; [exact I|intros; exact I].
  - split; [reflexivity|]. split; [exact I|]. split; [exact I|intros; exact I].
  - split; [reflexivity|]. split; [exact I|]. split; [exact I|intros; exact I].
  - split; [intros Hf; rewrite Hf in Hm; discriminate Hm|].
    split; [rewrite Hg; split; reflexivity|]. split; [exact I|intros; exact I].
  - split; [intros Hf; rewrite Hf in Hm; discriminate Hm|].
    split; [exact I|]. split; [exact I|intros; exact I].
Qed.

Lemma CleanAction_cleans report pf h p :
  Forall (fun c => cleans c = true) (calls (CleanAction report pf h p)).
Proof.
  pose proof (CleanAction_sends report pf h p) as S.
  destruct (Platform.queryRepository pf h "" "") as [r|err].
  - revert S. apply Forall_impl.
    intros c [->|(q & _ & [(r' & _ & ->)|[-> | ->]])]; reflexivity.
  - destruct S as [-> _]. apply Forall_one. reflexivity.
Qed.

(** X2.  With [AutoMerge] off in the configuration, [CreateAction]
    neither asks whether the repository allows auto-merge nor sends the
    mutation that enables it, whatever the platform answers. *)
Theorem AutoMerge_off_never_asks pf h p report reset fuel :
  ActionSpec.AutoMerge (PullRequest.spec p) = false ->
  Forall (fun c => isAutoMerge c = false)
    (calls (CreateAction report reset fuel pf h p)).
Proof.
  intros Hoff. apply CreateAction_stepwise; [reflexivity|].
  intros r c _ Hc. apply stepOfCreateAction_kinds in Hc. exact (proj1 Hc Hoff).
Qed.

(** The sample action with [AutoMerge] off, on the sample platform with
    the branch ahead. *)
Lemma AutoMerge_off_never_asks_witness :
  let spec := ActionSpec.mk false "Bump x to 2.0" "" ["chore"] false false "squash"
                true true in
  let p := PullRequest.mk Sample.gh "" "" spec PullRequestApi.zero None in
  let pf := Sample.platform "AHEAD" [] (inl (Sample.pullRequest 1)) None (inl true) in
  Forall (fun c => isAutoMerge c = false)
    (calls (CreateAction Sample.report false 5 pf [] p)).
Proof.
  exact (AutoMerge_off_never_asks
           (Sample.platform "AHEAD" [] (inl (Sample.pullRequest 1)) None (inl true)) []
           (PullRequest.mk Sample.gh "" ""
              (ActionSpec.mk false "Bump x to 2.0" "" ["chore"] false false "squash"
                 true true)
              PullRequestApi.zero None)
           Sample.report false 5 eq_refl).
Defined.

(** X3.  The question whether auto-merge is allowed is always asked
    about the repository of the configuration, [p.gh.Spec.Owner] and
    [p.gh.Spec.Repository]: also with [Parent] set, when the pull
    request itself is looked up and opened in the parent repository. *)
Theorem auto_merge_asks_own_repository pf h p report reset fuel :
  Forall (asksAbout (Github.Spec_Owner (PullRequest.gh p))
            (Github.Spec_Repository (PullRequest.gh p)))
    (calls (CreateAction report reset fuel pf h p)).
Proof.
  apply CreateAction_stepwise; [exact I|].
  intros r c _ Hc. apply stepOfCreateAction_kinds in Hc. tauto.
Qed.

(** X4.  Every create mutation of [CreateAction] asks for a pull request
    into the branch [p.gh.Spec.Branch] from the working branch that
    [GetBranches] returns, with [Draft] as configured and
    [MaintainerCanModify] the negation of the configured
    [MaintainerCannotModify]. *)
Theorem create_mutation_branches pf h p report reset fuel :
  Forall (opensFrom (workingOf pf (PullRequest.gh p)) (Github.Spec_Branch (PullRequest.gh p))
            (ActionSpec.Draft (PullRequest.spec p))
            (negb (ActionSpec.MaintainerCannotModify (PullRequest.spec p))))
    (calls (CreateAction report reset fuel pf h p)).
Proof.
  apply CreateAction_stepwise; [exact I|].
  intros r c _ Hc. apply stepOfCreateAction_kinds in Hc. tauto.
Qed.

(** X5.  Without [Parent], once the repository is resolved to [r], every
    lookup of pull requests and of the labels of the pull request that
    [CreateAction] or [CleanAction] sends addresses the owner and name
    of [r] itself, and the create mutation has [r] as its repository and
    names no head repository. *)
Theorem without_Parent_targets_self pf h p report reset fuel r :
  ActionSpec.Parent (PullRequest.spec p) = false ->
  (Platform.queryRepository pf h (sourceOf pf (PullRequest.gh p))
     (workingOf pf (PullRequest.gh p)) = inl r ->
   Forall (targetsSelf r) (calls (CreateAction report reset fuel pf h p)))
  /\ (Platform.queryRepository pf h "" "" = inl r ->
      Forall (targetsSelf r) (calls (CleanAction report pf h p))).
Proof.
  intros Hp. split; intros Hr.
  - apply CreateAction_stepwise; [exact I|].
    intros r' c Hr' Hc. rewrite Hr in Hr'. injection Hr' as <-.
    apply stepOfCreateAction_kinds in Hc. tauto.
  - pose proof (CleanAction_sends report pf h p) as S. rewrite Hr in S.
    revert S. apply Forall_impl.
    intros c [->|(q & (Hg & Hs & Ht & Hq) & [(r' & Hr' & ->)|[-> | ->]])]; try exact I.
    rewrite Hq in Hr'. injection Hr' as <-.
    unfold lookupOwner, lookupName. rewrite Hs, Hp. cbn. auto.
Qed.

(** The sample action without [Parent], on the sample platform. *)
Lemma without_Parent_targets_self_witness :
  let spec := ActionSpec.mk true "Bump x to 2.0" "" ["chore"] false false "squash"
                true false in
  let p := PullRequest.mk Sample.gh "" "" spec PullRequestApi.zero None in
  let pf := Sample.platform "AHEAD" [] (inl (Sample.pullRequest 1)) None (inl true) in
  Forall (targetsSelf (Sample.repository "AHEAD"))
    (calls (CreateAction Sample.report false 5 pf [] p))
  /\ Forall (targetsSelf (Sample.repository "AHEAD"))
       (calls (CleanAction Sample.report pf [] p)).
Proof.
  destruct (without_Parent_targets_self
              (Sample.platform "AHEAD" [] (inl (Sample.pullRequest 1)) None (inl true)) []
              (PullRequest.mk Sample.gh "" ""
                 (ActionSpec.mk true "Bump x to 2.0" "" ["chore"] false false "squash"
                    true false)
                 PullRequestApi.zero None)
              Sample.report false 5 (Sample.repository "AHEAD") eq_refl)
    as [Hcreate Hclean].
  split; [exact (Hcreate eq_refl)|exact (Hclean eq_refl)].
Defined.

(** ** Runs of the lookup and of the entry points around it *)

Lemma getRemotePullRequest_run resetBody pf h s r :
  PullRequest.repository s = Some r ->
  getRemotePullRequest resetBody pf h s
  = match lookupAnswer pf h s r with
    | inr err =>
        mkRun (Returns (Some err)) s [lookupCall pf s r]
          [Log DebugLevel "Error getting existing pull-request: %s" [Error err]]
    | inl [] =>
        mkRun (Returns None) s [lookupCall pf s r]
          [Log DebugLevel "No existing pull-request found in repo: %s/%s"
             [lookupOwner (PullRequest.spec s) r; lookupName (PullRequest.spec s) r]]
    | inl (node :: _) =>
        mkRun (Returns None) (found pf resetBody node s) [lookupCall pf s r]
          [Log DebugLevel
             (if resetBody then "Resetting pull-request body with new report"
              else "Merging existing pull-request body with new report") [];
           Log InfoLevel "Existing GitHub pull request found: %s" [PullRequestApi.Url node]]
    end.
Proof.
  intros Hr. unfold getRemotePullRequest, lookupAnswer, lookupCall, found, targetOf, workingOf.
  mrun. rewrite Hr. mrun. rewrite GetBranches_run. mrun.
  destruct (branchesOf pf (PullRequest.gh s)) as [[src wrk] tgt]. mrun.
  destruct (Platform.pullRequests pf h _ _ tgt wrk) as [[|node nodes]|err]; mrun;
    try reflexivity.
  destruct resetBody; mrun; reflexivity.
Qed.

(** The lookup that the goal is waiting for, on a receiver whose
    repository is known. *)
Ltac looked :=
  match goal with
  | |- context [getRemotePullRequest ?b ?pf ?h' ?s] =>
      rewrite (getRemotePullRequest_run b pf h' s _ eq_refl)
  end.

(** X7.  [CleanAction] closes nothing when no pull request is at hand
    or when the pull request has changed files: once the repository is
    resolved and the lookup answered, the pull request considered is
    the first one that the lookup returned, or the one that the receiver
    already held when the lookup returned none; if its ID is empty or
    its number of changed files is not zero, [CleanAction] returns
    [nil] after the resolution and the lookup, its only two calls. *)
Theorem CleanAction_nothing_to_close pf h p report r nodes :
  Platform.queryRepository pf h "" "" = inl r ->
  lookupAnswer pf (h ++ [queryRepository_call "" ""]) p r = inl nodes ->
  let pr := hd (PullRequest.remotePullRequest p) nodes in
  PullRequestApi.ID pr = "" \/ PullRequestApi.ChangedFiles pr <> 0%Z ->
  let R := CleanAction report pf h p in
  out R = Returns None
  /\ calls R = [queryRepository_call "" ""; lookupCall pf p r]
  /\ PullRequest.remotePullRequest (self R) = pr.
Proof.
  intros Hrepo Hlookup pr Hpr. cbv zeta. unfold CleanAction. mrun. rewrite Hrepo. mrun.
  looked.
  change (lookupAnswer pf (h ++ [queryRepository_call "" ""])
            (PullRequest.set_repository (Some r) p) r)
    with (lookupAnswer pf (h ++ [queryRepository_call "" ""]) p r).
  change (lookupCall pf (PullRequest.set_repository (Some r) p) r) with (lookupCall pf p r).
  rewrite Hlookup. subst pr.
  destruct nodes as [|node nodes]; cbn [hd] in Hpr |- *; mrun;
    unfold found; mrun;
    (destruct Hpr as [H|H];
     [rewrite H; cbn [String.eqb]; mrun; auto
     |apply Z.eqb_neq in H; rewrite H;
      match goal with |- context [(?x =? "")%string] => destruct (x =? "")%string end;
      mrun; auto]).
Qed.

(** On the sample platform: no pull request is open. *)
Lemma CleanAction_nothing_to_close_witness :
  let pf := Sample.platform "AHEAD" [] (inl (Sample.pullRequest 1)) None (inl true) in
  let R := CleanAction Sample.report pf [] Sample.action in
  out R = Returns None
  /\ calls R = [queryRepository_call "" "";
                Query_pullRequests "upstream" "project" "main" "updatecli_main_deps"]
  /\ PullRequest.remotePullRequest (self R) = PullRequestApi.zero.
Proof.
  exact (CleanAction_nothing_to_close
           (Sample.platform "AHEAD" [] (inl (Sample.pullRequest 1)) None (inl true)) []
           Sample.action Sample.report (Sample.repository "AHEAD") []
           eq_refl eq_refl (or_introl eq_refl)).
Defined.

(** X8.  [CleanAction] only resolves the repository, looks the pull
    request up, closes it and comments on it: whatever the platform
    answers it sends at most these four calls, and never a create, an
    update or an auto-merge mutation nor a lookup of labels. *)
Theorem CleanAction_only_cleans report pf h p :
  Forall (fun c => cleans c = true) (calls (CleanAction report pf h p))
  /\ length (calls (CleanAction report pf h p)) <= 4.
Proof.
  split; [apply CleanAction_cleans|].
  unfold CleanAction. mrun. answer; [|cbn; lia].
  looked.
  destruct (lookupAnswer pf _ _ repo) as [[|node nodes]|err]; mrun; try (cbn; lia).
  - branch; [cbn; lia|]. branch; [|cbn; lia].
    match goal with |- context [closePullRequest ?pf ?h' ?s] =>
      pose proof (closePullRequest_runs pf h' s) as C; cbv zeta in C;
      destruct (Platform.closePullRequest pf h' _); rewrite C
    end; cbn; lia.
  - unfold found. mrun. branch; [cbn; lia|]. branch; [|cbn; lia].
    match goal with |- context [closePullRequest ?pf ?h' ?s] =>
      pose proof (closePullRequest_runs pf h' s) as C; cbv zeta in C;
      destruct (Platform.closePullRequest pf h' _); rewrite C
    end; cbn; lia.
Qed.

(** X9.  When the lookup of pull requests fails, [CreateAction] and
    [CleanAction] return its error at once: the resolution of the
    repository and the lookup are their only two calls, and nothing is
    created, updated or closed. *)
Theorem lookup_failure_is_returned pf h p report reset fuel r err :
  (Platform.queryRepository pf h (sourceOf pf (PullRequest.gh p))
     (workingOf pf (PullRequest.gh p)) = inl r ->
   let resolve :=
     queryRepository_call (sourceOf pf (PullRequest.gh p))
       (workingOf pf (PullRequest.gh p)) in
   lookupAnswer pf (h ++ [resolve]) p r = inr err ->
   out (CreateAction report reset fuel pf h p) = Returns (Some err)
   /\ calls (CreateAction report reset fuel pf h p) = [resolve; lookupCall pf p r])
  /\ (Platform.queryRepository pf h "" "" = inl r ->
      lookupAnswer pf (h ++ [queryRepository_call "" ""]) p r = inr err ->
      out (CleanAction report pf h p) = Returns (Some err)
      /\ calls (CleanAction report pf h p) = [queryRepository_call "" ""; lookupCall pf p r]).
Proof.
  split.
  - cbv zeta. unfold CreateAction, sourceOf, workingOf. mrun.
    destruct (negb (ActionSpec.Title (PullRequest.spec p) =? "")%string); mrun;
      rewrite GetBranches_run; mrun;
      (destruct (branchesOf pf (PullRequest.gh p)) as [[src wrk] tgt] eqn:Hb); mrun;
      intros -> Hlookup; mrun;
      looked;
      match goal with |- context [lookupAnswer pf ?h' ?s r] =>
        change (lookupAnswer pf h' s r) with (lookupAnswer pf h' p r);
        change (lookupCall pf s r) with (lookupCall pf p r)
      end; rewrite Hlookup; mrun; auto.
  - intros Hrepo Hlookup. unfold CleanAction. mrun. rewrite Hrepo. mrun.
    looked.
    change (lookupAnswer pf (h ++ [queryRepository_call "" ""])
              (PullRequest.set_repository (Some r) p) r)
      with (lookupAnswer pf (h ++ [queryRepository_call "" ""]) p r).
    change (lookupCall pf (PullRequest.set_repository (Some r) p) r) with (lookupCall pf p r).
    rewrite Hlookup. mrun. auto.
Qed.

(** The sample platform with a lookup that fails. *)
Lemma lookup_failure_is_returned_witness :
  let pf := withLookup (inr Sample.unavailable)
              (Sample.platform "AHEAD" [] (inl (Sample.pullRequest 1)) None (inl true)) in
  let lookup := Query_pullRequests "upstream" "project" "main" "updatecli_main_deps" in
  (out (CreateAction Sample.report false 3 pf [] Sample.action)
   = Returns (Some Sample.unavailable)
   /\ calls (CreateAction Sample.report false 3 pf [] Sample.action)
      = [queryRepository_call "main" "updatecli_main_deps"; lookup])
  /\ (out (CleanAction Sample.report pf [] Sample.action) = Returns (Some Sample.unavailable)
      /\ calls (CleanAction Sample.report pf [] Sample.action)
         = [queryRepository_call "" ""; lookup]).
Proof.
  destruct (lookup_failure_is_returned
              (withLookup (inr Sample.unavailable)
                 (Sample.platform "AHEAD" [] (inl (Sample.pullRequest 1)) None (inl true)))
              [] Sample.action Sample.report false 3 (Sample.repository "AHEAD")
              Sample.unavailable) as [Hcreate Hclean].
  split; [exact (Hcreate eq_refl eq_refl)|exact (Hclean eq_refl eq_refl)].
Defined.

(** ** What follows the lookup *)

Lemma OpenPullRequest_run pf h s r :
  PullRequest.repository s = Some r ->
  OpenPullRequest pf h s
  = match Platform.GeneratePullRequestBody pf
            (ActionSpec.Description (PullRequest.spec s)) (PullRequest.Report s) with
    | inr err => mkRun (Returns (Some err)) s [] []
    | inl bodyPR =>
        if negb (Repository.Status r =? "AHEAD")%string
        then mkRun (Returns None) s [] [Log DebugLevel "GitHub pullrequest not needed" []]
        else
          let input :=
            createInput s r bodyPR (workingOf pf (PullRequest.gh s))
              (targetOf pf (PullRequest.gh s)) in
          let opening :=
            Log DebugLevel "Opening pull-request against repo from %q to %q"
              [CreatePullRequestInput.BaseRefName input;
               CreatePullRequestInput.HeadRefName input] in
          match Platform.createPullRequest pf h input with
          | inr err =>
              mkRun (Returns (Some err)) s [Mutate_createPullRequest input]
                [opening;
                 Log InfoLevel "\nError creating pull request:\n\n\t%s\n\n" [Error err]]
          | inl mutation =>
              mkRun (Returns None) (PullRequest.set_remotePullRequest mutation s)
                [Mutate_createPullRequest input] [opening]
          end
    end.
Proof.
  intros Hr. unfold OpenPullRequest, workingOf, targetOf. mrun.
  destruct (Platform.GeneratePullRequestBody pf _ _) as [bodyPR|err]; mrun; [|reflexivity].
  rewrite GetBranches_run. mrun.
  destruct (branchesOf pf (PullRequest.gh s)) as [[src wrk] tgt]. mrun.
  rewrite Hr. mrun.
  destruct (Repository.Status r =? "AHEAD")%string; mrun; [|reflexivity].
  rewrite Hr. mrun.
  destruct (Platform.createPullRequest pf h _) as [mutation|err]; mrun; reflexivity.
Qed.

Lemma update_not_create s cs :
  Forall (sentByUpdate s) cs -> Forall (fun c => isCreate c = false) cs.
Proof.
  apply Forall_impl.
  intros c [->|[(r & before & Hr & ->)|(bodyPR & catalog & attached & ->)]]; reflexivity.
Qed.

Lemma close_not_create s cs :
  Forall (sentByClose s) cs -> Forall (fun c => isCreate c = false) cs.
Proof. apply Forall_impl. intros c [->| ->]; reflexivity. Qed.

Lemma enable_not_create s cs :
  Forall (sentByEnable s) cs -> Forall (fun c => isCreate c = false) cs.
Proof. apply Forall_impl. intros c [->| ->]; reflexivity. Qed.

(** The steps of [CreateAction] that follow [OpenPullRequest]; [lu],
    [lc] and [le] say what is to be known of the calls of each. *)
Ltac later_step lu lc le :=
  match goal with
  | |- context [updatePullRequest ?f ?pf ?h ?s] =>
      let F := fresh "Fr" in let C := fresh "Sent" in
      pose proof (updatePullRequest_sends f pf h s) as [F C];
      apply (lu s) in C;
      destruct (updatePullRequest f pf h s) as [[[?err|]| |] ?q ?cs ?ls];
      cbn [self calls] in F, C; subst
  | |- context [closePullRequest ?pf ?h ?s] =>
      let F := fresh "Fr" in let C := fresh "Sent" in
      pose proof (closePullRequest_sends pf h s) as [F C];
      apply (lc s) in C;
      destruct (closePullRequest pf h s) as [[[?err|]| |] ?q ?cs ?ls];
      cbn [self calls] in F, C; subst
  | |- context [EnablePullRequestAutoMerge ?pf ?h ?s] =>
      let F := fresh "Fr" in let C := fresh "Sent" in
      pose proof (EnablePullRequestAutoMerge_sends pf h s) as [F C];
      apply (le s) in C;
      destruct (EnablePullRequestAutoMerge pf h s) as [[[?err|]| |] ?q ?cs ?ls];
      cbn [self calls] in F, C; subst
  end;
  mrun.

(** The goal says of each call of a run something that holds of the
    calls written out by evaluation and of the calls of each step by
    assumption. *)
Ltac each_call :=
  cbn [calls];
  repeat first
    [ assumption
    | apply Forall_nil
    | apply Forall_cons; [repeat split|]
    | apply Forall_app; split ].

(** X10.  A pull request that the lookup finds is never created again:
    when the first pull request returned has an ID, [CreateAction] sends
    no create mutation, whatever the status of the branch and whatever
    the platform answers afterwards. *)
Theorem existing_pull_request_is_not_recreated pf h p report reset fuel r node nodes :
  Platform.queryRepository pf h (sourceOf pf (PullRequest.gh p))
    (workingOf pf (PullRequest.gh p)) = inl r ->
  lookupAnswer pf
    (h ++ [queryRepository_call (sourceOf pf (PullRequest.gh p))
             (workingOf pf (PullRequest.gh p))]) p r = inl (node :: nodes) ->
  PullRequestApi.ID node <> "" ->
  Forall (fun c => isCreate c = false) (calls (CreateAction report reset fuel pf h p)).
Proof.
  intros Hrepo Hlookup Hid. apply String.eqb_neq in Hid.
  revert Hrepo Hlookup. unfold CreateAction, sourceOf, workingOf. mrun.
  destruct (negb (ActionSpec.Title (PullRequest.spec p) =? "")%string); mrun;
    rewrite GetBranches_run; mrun;
    (destruct (branchesOf pf (PullRequest.gh p)) as [[src wrk] tgt] eqn:Hb); mrun;
    intros -> Hlookup; mrun; looked;
    match goal with |- context [lookupAnswer pf ?h' ?s r] =>
      change (lookupAnswer pf h' s r) with (lookupAnswer pf h' p r)
    end; rewrite Hlookup; mrun; unfold found;
    destruct reset; mrun; rewrite length_zero, Hid; mrun.
  all: repeat first
         [ solve [each_call]
         | later_step update_not_create close_not_create enable_not_create
         | branch ].
Qed.

(** On the sample platform, with the branch ahead and a pull request
    open. *)
Lemma existing_pull_request_is_not_recreated_witness :
  let pf := Sample.platform "AHEAD" [Sample.pullRequest 1] (inl (Sample.pullRequest 1))
              None (inl true) in
  Forall (fun c => isCreate c = false)
    (calls (CreateAction Sample.report false 3 pf [] Sample.action)).
Proof.
  assert (Hid : PullRequestApi.ID (Sample.pullRequest 1) <> "") by discriminate.
  exact (existing_pull_request_is_not_recreated
           (Sample.platform "AHEAD" [Sample.pullRequest 1] (inl (Sample.pullRequest 1))
              None (inl true))
           [] Sample.action Sample.report false 3 (Sample.repository "AHEAD")
           (Sample.pullRequest 1) [] eq_refl eq_refl Hid).
Defined.

Lemma update_concerns s cs :
  Forall (sentByUpdate s) cs ->
  Forall (fun c => concerns (PullRequest.remotePullRequest s) c /\ isCreate c = false) cs.
Proof.
  apply Forall_impl.
  intros c [->|[(r & before & Hr & ->)|(bodyPR & catalog & attached & ->)]];
    split; reflexivity.
Qed.

Lemma close_concerns pr s cs :
  Forall (sentByClose s) cs -> Forall (fun c => concerns pr c /\ isCreate c = false) cs.
Proof. apply Forall_impl. intros c [->| ->]; split; reflexivity. Qed.

Lemma enable_concerns pr s cs :
  Forall (sentByEnable s) cs -> Forall (fun c => concerns pr c /\ isCreate c = false) cs.
Proof. apply Forall_impl. intros c [->| ->]; split; reflexivity. Qed.

(** [OpenPullRequest] on a receiver whose repository is known. *)
Ltac opened :=
  match goal with
  | |- context [OpenPullRequest ?pf ?h' ?s] =>
      rewrite (OpenPullRequest_run pf h' s _ eq_refl)
  end.

(** X11.  A pull request that [CreateAction] creates is the one that it
    then updates: when the lookup finds nothing, the receiver holds no
    pull request, the branch is ahead, the body renders and the platform
    answers the create mutation with [pr], the calls are the resolution,
    the lookup and one create mutation, and every lookup of labels and
    every update mutation that follows names [pr], by its number or by
    its ID; no second create mutation is sent. *)
Theorem created_pull_request_is_updated pf h p report reset fuel r bodyPR pr :
  Platform.queryRepository pf h (sourceOf pf (PullRequest.gh p))
    (workingOf pf (PullRequest.gh p)) = inl r ->
  Repository.Status r = "AHEAD" ->
  lookupAnswer pf
    (h ++ [queryRepository_call (sourceOf pf (PullRequest.gh p))
             (workingOf pf (PullRequest.gh p))]) p r = inl [] ->
  PullRequestApi.ID (PullRequest.remotePullRequest p) = "" ->
  Platform.GeneratePullRequestBody pf (ActionSpec.Description (PullRequest.spec p))
    (reports.ToActionsString report) = inl bodyPR ->
  creates pf pr ->
  exists rest,
    calls (CreateAction report reset fuel pf h p)
    = queryRepository_call (sourceOf pf (PullRequest.gh p)) (workingOf pf (PullRequest.gh p))
      :: lookupCall pf p r
      :: Mutate_createPullRequest
           (createInput (readied p report r) r bodyPR (workingOf pf (PullRequest.gh p))
              (targetOf pf (PullRequest.gh p)))
      :: rest
    /\ Forall (fun c => concerns pr c /\ isCreate c = false) rest.
Proof.
  intros Hrepo Ha Hlookup Hid Hbody Hcreates.
  revert Hrepo Hlookup. unfold CreateAction, readied, chosenTitle, sourceOf, workingOf. mrun.
  destruct (negb (ActionSpec.Title (PullRequest.spec p) =? "")%string); mrun;
    rewrite GetBranches_run; mrun;
    (destruct (branchesOf pf (PullRequest.gh p)) as [[src wrk] tgt] eqn:Hb); mrun;
    intros -> Hlookup; mrun; looked;
    match goal with |- context [lookupAnswer pf ?h' ?s r] =>
      change (lookupAnswer pf h' s r) with (lookupAnswer pf h' p r);
      change (lookupCall pf s r) with (lookupCall pf p r)
    end; rewrite Hlookup; mrun; rewrite length_zero, Hid; cbn [String.eqb]; mrun;
    opened; mrun; rewrite Hbody, Ha, String.eqb_refl; cbn [negb]; cbv zeta;
    rewrite Hcreates; mrun;
    unfold workingOf, targetOf; rewrite Hb; cbn [fst snd].
  all: repeat first
         [ solve [eexists; split; [reflexivity|each_call]]
         | later_step update_concerns (close_concerns pr) (enable_concerns pr)
         | branch ].
Qed.

(** On the sample platform, with the branch ahead and no pull request
    open. *)
Lemma created_pull_request_is_updated_witness :
  let pf := Sample.platform "AHEAD" [] (inl (Sample.pullRequest 1)) None (inl true) in
  exists rest,
    calls (CreateAction Sample.report false 3 pf [] Sample.action)
    = queryRepository_call "main" "updatecli_main_deps"
      :: Query_pullRequests "upstream" "project" "main" "updatecli_main_deps"
      :: Mutate_createPullRequest
           (CreatePullRequestInput.mk "R_parent" "main" "updatecli_main_deps"
              "Bump x to 2.0" (Some "x: 1.0 -> 2.0") (Some true) (Some false)
              (Some "R_fork"))
      :: rest
    /\ Forall (fun c => concerns (Sample.pullRequest 1) c /\ isCreate c = false) rest.
Proof.
  exact (created_pull_request_is_updated
           (Sample.platform "AHEAD" [] (inl (Sample.pullRequest 1)) None (inl true))
           [] Sample.action Sample.report false 3 (Sample.repository "AHEAD")
           "x: 1.0 -> 2.0" (Sample.pullRequest 1)
           eq_refl eq_refl eq_refl eq_refl eq_refl (fun _ _ => eq_refl)).
Defined.




(** ** Merge methods, numbers *)

Lemma Validate_enum (S : Type) spec pf h (s : S) :
  out (Validate spec pf h s) = Returns None ->
  ActionSpec.MergeMethod spec = ""
  \/ In (strings.ToUpper (ActionSpec.MergeMethod spec)) PullRequestMergeMethod.
Proof.
  unfold Validate, isMergeMethodValid, PullRequestMergeMethod. rewrite length_zero.
  destruct (String.eqb_spec (ActionSpec.MergeMethod spec) "") as [E|_]; [auto|].
  destruct (String.eqb_spec (strings.ToUpper (ActionSpec.MergeMethod spec)) "SQUASH")
    as [->|_]; [cbn; auto|].
  destruct (String.eqb_spec (strings.ToUpper (ActionSpec.MergeMethod spec)) "MERGE")
    as [->|_]; [cbn; auto|].
  destruct (String.eqb_spec (strings.ToUpper (ActionSpec.MergeMethod spec)) "REBASE")
    as [->|_]; [cbn; auto|].
  cbn [orb]. mrun. intros H. discriminate H.
Qed.

(** X13.  A configuration that [Validate] accepts never makes
    [CreateAction] send a merge method that the platform does not know:
    every enable mutation names no merge method (when none is
    configured) or one of [MERGE], [SQUASH] and [REBASE] of the GraphQL
    enumeration, whatever the case in which the method is configured. *)
Theorem validated_merge_method_is_known (S : Type) pf0 h0 (s0 : S) pf h p report reset fuel :
  out (Validate (PullRequest.spec p) pf0 h0 s0) = Returns None ->
  Forall namesMergeMethod (calls (CreateAction report reset fuel pf h p)).
Proof.
  intros Hv. apply Validate_enum in Hv.
  apply CreateAction_stepwise; [exact I|].
  intros r c _ [->|(q & (Hg & Hs & Ht & Hr) & _ & _ & Hc)]; [exact I|].
  destruct Hc as [(_ & _ & r' & Hr' & ->)
                 |[(_ & r' & bodyPR & Hr' & Ha & ->)
                  |[[->|[(r' & before & Hr' & ->)|(bodyPR & catalog & attached & ->)]]
                   |[(_ & _ & [-> | ->])|(_ & _ & Hm & [-> | ->])]]]]; try exact I.
  unfold namesMergeMethod, enableInput. cbn [EnablePullRequestAutoMergeInput.MergeMethod].
  rewrite Hs. destruct Hv as [->|Hv]; [exact I|].
  destruct (0 <? String.length (ActionSpec.MergeMethod (PullRequest.spec p)))%nat;
    [exact Hv|exact I].
Qed.

(** The sample action, whose merge method is [squash], on the sample
    platform. *)
Lemma validated_merge_method_is_known_witness :
  let pf := Sample.platform "AHEAD" [] (inl (Sample.pullRequest 1)) None (inl true) in
  Forall namesMergeMethod (calls (CreateAction Sample.report false 5 pf [] Sample.action)).
Proof.
  exact (validated_merge_method_is_known unit
           (Sample.platform "AHEAD" [] (inl (Sample.pullRequest 1)) None (inl true)) [] tt
           (Sample.platform "AHEAD" [] (inl (Sample.pullRequest 1)) None (inl true)) []
           Sample.action Sample.report false 5 eq_refl).
Defined.

Lemma githubv4_Int_int32 n :
  int32 (githubv4_Int n)
  /\ ((githubv4_Int n - n) mod 4294967296 = 0)%Z
  /\ (int32 n -> githubv4_Int n = n).
Proof.
  unfold githubv4_Int, int32.
  pose proof (Z.mod_pos_bound (n + 2147483648) 4294967296 eq_refl) as B.
  split; [lia|]. split.
  - rewrite (Z.mod_eq (n + 2147483648) 4294967296) by lia.
    replace (n + 2147483648 - 4294967296 * ((n + 2147483648) / 4294967296) - 2147483648 - n)%Z
      with (- ((n + 2147483648) / 4294967296) * 4294967296)%Z by lia.
    apply Z.mod_mul. lia.
  - intros Hn. rewrite Z.mod_small by lia. lia.
Qed.

(** X14.  [GetPullRequestLabelsInformation] converts the number of the
    pull request to [githubv4.Int], an [int32]: every query that it
    sends names a number of the range of [int32] that differs from the
    number of the pull request by a multiple of [2^32], and is that
    number itself when it fits in an [int32]. *)
Theorem label_lookup_number fuel pf h p :
  Forall (numbered (PullRequestApi.Number (PullRequest.remotePullRequest p)))
    (calls (GetPullRequestLabelsInformation fuel pf h p)).
Proof.
  pose proof (GetPullRequestLabelsInformation_sends fuel pf h p) as [_ S].
  revert S. apply Forall_impl. intros c (r & before & _ & ->).
  apply githubv4_Int_int32.
Qed.

(** ** A receiver whose repository is not resolved *)

(** X15.  The methods that read [p.repository] dereference a [nil]
    pointer when no entry point has resolved the repository before:
    [GetPullRequestLabelsInformation] and [getRemotePullRequest] panic
    before any call; [OpenPullRequest] panics before any call once the
    body has rendered; [updatePullRequest] panics after it has listed
    the labels of the repository. *)
Theorem unresolved_repository_panics pf h p fuel reset bodyPR catalog :
  PullRequest.repository p = None ->
  rendered pf p bodyPR ->
  Platform.getRepositoryLabels pf h = inl catalog ->
  (out (GetPullRequestLabelsInformation fuel pf h p) = Panics
   /\ calls (GetPullRequestLabelsInformation fuel pf h p) = [])
  /\ (out (getRemotePullRequest reset pf h p) = Panics
      /\ calls (getRemotePullRequest reset pf h p) = [])
  /\ (out (OpenPullRequest pf h p) = Panics /\ calls (OpenPullRequest pf h p) = [])
  /\ (out (updatePullRequest fuel pf h p) = Panics
      /\ calls (updatePullRequest fuel pf h p) = [getRepositoryLabels_call]).
Proof.
  intros Hr Hbody Hcatalog. unfold rendered in Hbody.
  split; [|split; [|split]].
  - unfold GetPullRequestLabelsInformation. mrun. rewrite Hr. mrun. auto.
  - unfold getRemotePullRequest. mrun. rewrite Hr. mrun. auto.
  - unfold OpenPullRequest. mrun. rewrite Hbody. mrun. rewrite GetBranches_run. mrun.
    destruct (branchesOf pf (PullRequest.gh p)) as [[src wrk] tgt]. mrun.
    rewrite Hr. mrun. auto.
  - unfold updatePullRequest, GetPullRequestLabelsInformation. mrun.
    rewrite Hbody. mrun. rewrite Hcatalog. mrun. rewrite Hr. mrun. auto.
Qed.

(** The action that [NewAction] returns, before any entry point has
    run. *)
Lemma unresolved_repository_panics_witness :
  let pf := Sample.platform "AHEAD" [] (inl (Sample.pullRequest 1)) None (inl true) in
  (out (GetPullRequestLabelsInformation 3 pf [] Sample.action) = Panics
   /\ calls (GetPullRequestLabelsInformation 3 pf [] Sample.action) = [])
  /\ (out (getRemotePullRequest false pf [] Sample.action) = Panics
      /\ calls (getRemotePullRequest false pf [] Sample.action) = [])
  /\ (out (OpenPullRequest pf [] Sample.action) = Panics
      /\ calls (OpenPullRequest pf [] Sample.action) = [])
  /\ (out (updatePullRequest 3 pf [] Sample.action) = Panics
      /\ calls (updatePullRequest 3 pf [] Sample.action) = [getRepositoryLabels_call]).
Proof.
  exact (unresolved_repository_panics
           (Sample.platform "AHEAD" [] (inl (Sample.pullRequest 1)) None (inl true)) []
           Sample.action 3 false "" Sample.catalog eq_refl eq_refl eq_refl).
Defined.

(** ** An update that cannot be prepared *)

(** X25.  [updatePullRequest] sends the update mutation only once
    everything that goes into it is at hand.  When the body does not
    render it returns the error without any call; when the labels of
    the repository cannot be listed it returns that error after this
    one call; when the lookup of the labels of the pull request fails
    after some pages it returns that error, and its calls are the
    listing and the queries for the pages: in no case is an update
    mutation sent. *)
Theorem updatePullRequest_aborts fuel pf h p r :
  PullRequest.repository p = Some r ->
  let R := updatePullRequest fuel pf h p in
  let owner := lookupOwner (PullRequest.spec p) r in
  let repo := lookupName (PullRequest.spec p) r in
  let number := githubv4_Int (PullRequestApi.Number (PullRequest.remotePullRequest p)) in
  (forall err,
     Platform.GeneratePullRequestBody pf (ActionSpec.Description (PullRequest.spec p))
       (PullRequest.Report p) = inr err ->
     out R = Returns (Some err) /\ calls R = [])
  /\ (forall bodyPR err,
        rendered pf p bodyPR ->
        Platform.getRepositoryLabels pf h = inr err ->
        out R = Returns (Some err) /\ calls R = [getRepositoryLabels_call])
  /\ (forall bodyPR catalog pages err,
        rendered pf p bodyPR ->
        Platform.getRepositoryLabels pf h = inl catalog ->
        served pf (h ++ [getRepositoryLabels_call]) owner repo number None pages (inr err) ->
        forallb hasPrevious pages = true ->
        length pages < fuel ->
        out R = Returns (Some err)
        /\ calls R = getRepositoryLabels_call :: labelQueries owner repo number None pages
        /\ existsb isUpdate (calls R) = false).
Proof.
  intros Hr. cbv zeta. unfold rendered, updatePullRequest, GetPullRequestLabelsInformation.
  mrun. split; [|split].
  - intros err ->. mrun. auto.
  - intros bodyPR err -> ->. mrun. auto.
  - intros bodyPR catalog pages err -> -> Hs Hp Hfuel. mrun. rewrite Hr. mrun.
    rewrite (labelsLoop_failed pf _ _ _ p pages fuel _ None [] err Hs Hp Hfuel). mrun.
    split; [reflexivity|]. split; [reflexivity|].
    cbn [existsb isUpdate orb]. unfold labelQueries.
    generalize (cursors None pages) as l. induction l as [|c l IH]; [reflexivity|exact IH].
Qed.

(** On the sample platform with a pull request whose second page of
    labels is asked for with a cursor that the platform does not
    know. *)
Lemma updatePullRequest_aborts_witness :
  let pf := withLabels stalePage
              (Sample.platform "AHEAD" [] (inl (Sample.pullRequest 1)) None (inl true)) in
  let p := PullRequest.set_repository (Some (Sample.repository "AHEAD"))
             (PullRequest.set_remotePullRequest (Sample.pullRequest 1) Sample.action) in
  out (updatePullRequest 3 pf [] p) = Returns (Some (errors_New "unknown cursor"))
  /\ calls (updatePullRequest 3 pf [] p)
     = [getRepositoryLabels_call;
        Query_pullRequestLabels "upstream" "project" 42 None;
        Query_pullRequestLabels "upstream" "project" 42 (Some "c9")]
  /\ existsb isUpdate (calls (updatePullRequest 3 pf [] p)) = false.
Proof.
  assert (Hfuel : 1 < 3) by lia.
  exact (proj2 (proj2
    (updatePullRequest_aborts 3
       (withLabels stalePage
          (Sample.platform "AHEAD" [] (inl (Sample.pullRequest 1)) None (inl true)))
       []
       (PullRequest.set_repository (Some (Sample.repository "AHEAD"))
          (PullRequest.set_remotePullRequest (Sample.pullRequest 1) Sample.action))
       (Sample.repository "AHEAD") eq_refl))
    "" Sample.catalog [Labels.mk 3 (PageInfo.mk false true "c9" "c9") []]
    (errors_New "unknown cursor") eq_refl eq_refl (conj eq_refl eq_refl) eq_refl Hfuel).
Defined.

(** * The paths of [CreateAction] *)

(** ** After the lookup *)

(** The start of [CreateAction] up to the answer of the lookup, when the
    repository resolves to [r]. *)
Ltac to_lookup Hrepo Hlookup :=
  revert Hrepo Hlookup;
  unfold CreateAction, resolveCall, rendered, readied, chosenTitle, sourceOf, workingOf; mrun;
  destruct (negb (ActionSpec.Title (PullRequest.spec _) =? "")%string); mrun;
  rewrite GetBranches_run; mrun;
  (destruct (branchesOf _ (PullRequest.gh _)) as [[?src ?wrk] ?tgt] eqn:?Hb); mrun;
  intros -> Hlookup; mrun; looked;
  match goal with |- context [lookupAnswer ?pf ?h' ?s ?r] =>
    match goal with H : lookupAnswer pf h' ?p r = _ |- _ =>
      change (lookupAnswer pf h' s r) with (lookupAnswer pf h' p r);
      change (lookupCall pf s r) with (lookupCall pf p r)
    end
  end; rewrite Hlookup; mrun.

(** The update that the goal speaks of is the one that the run reaches. *)
Ltac same_update :=
  match goal with
  | |- context [updatePullRequest ?f ?pf ?h1 ?s1] =>
      match goal with
      | |- context [updatePullRequest f pf ?h2 ?s2] =>
          lazymatch h2 with h1 => fail | _ => idtac end;
          replace (updatePullRequest f pf h2 s2) with (updatePullRequest f pf h1 s1)
            by (rewrite <- !app_assoc; reflexivity)
      end
  end.

(** The run of the update, taken apart; it leaves the receiver alone. *)
Ltac updated :=
  match goal with
  | |- context [updatePullRequest ?f ?pf ?h ?s] =>
      let F := fresh "Fr" in
      pose proof (updatePullRequest_sends f pf h s) as [F _];
      destruct (updatePullRequest f pf h s) as [[[?err|]| |] ?q ?cs ?ls];
      cbn [self] in F; subst
  end; mrun.

(** What follows the update, whatever it is: the calls of the run start
    with those written out so far. *)
Ltac whatever_follows :=
  repeat first
    [ solve [cbn [calls]; first
               [ eexists; reflexivity
               | exists []; rewrite app_nil_r; reflexivity ]]
    | branch
    | match goal with
      | |- context [OpenPullRequest ?pf ?h ?s] =>
          destruct (OpenPullRequest pf h s) as [[[?err|]| |] ?q ?cs ?ls]; mrun
      | |- context [updatePullRequest ?f ?pf ?h ?s] =>
          destruct (updatePullRequest f pf h s) as [[[?err|]| |] ?q ?cs ?ls]; mrun
      | |- context [closePullRequest ?pf ?h ?s] =>
          destruct (closePullRequest pf h s) as [[[?err|]| |] ?q ?cs ?ls]; mrun
      | |- context [EnablePullRequestAutoMerge ?pf ?h ?s] =>
          destruct (EnablePullRequestAutoMerge pf h s) as [[[?err|]| |] ?q ?cs ?ls]; mrun
      | |- context [match PullRequest.repository ?q with _ => _ end] =>
          destruct (PullRequest.repository q); mrun
      end ].

(** The branch is not ahead and the lookup finds nothing for a receiver
    that holds no pull request: [OpenPullRequest] sends nothing and the
    update runs on the receiver as it is. *)
Lemma CreateAction_not_ahead pf h p report reset fuel r bodyPR :
  Platform.queryRepository pf h (sourceOf pf (PullRequest.gh p))
    (workingOf pf (PullRequest.gh p)) = inl r ->
  Repository.Status r <> "AHEAD" ->
  lookupAnswer pf (h ++ [resolveCall pf p]) p r = inl [] ->
  PullRequestApi.ID (PullRequest.remotePullRequest p) = "" ->
  rendered pf (readied p report r) bodyPR ->
  let R := CreateAction report reset fuel pf h p in
  let U := updatePullRequest fuel pf (h ++ [resolveCall pf p; lookupCall pf p r])
             (readied p report r) in
  calls R = resolveCall pf p :: lookupCall pf p r :: calls U
  /\ out R = out U.
Proof.
  intros Hrepo Ha Hlookup Hid Hbody. cbv zeta. apply String.eqb_neq in Ha.
  revert Hbody. to_lookup Hrepo Hlookup.
  all: intros Hbody; rewrite length_zero, Hid; cbn [String.eqb]; mrun;
    opened; mrun; rewrite Hbody, Ha; cbn [negb]; mrun.
  all: same_update; updated; try (split; reflexivity).
  all: rewrite Ha; mrun; split; reflexivity.
Qed.

(** The lookup finds a pull request: nothing is created and the update
    runs on the receiver that holds the pull request found. *)
Lemma CreateAction_found pf h p report reset fuel r node nodes :
  Platform.queryRepository pf h (sourceOf pf (PullRequest.gh p))
    (workingOf pf (PullRequest.gh p)) = inl r ->
  lookupAnswer pf (h ++ [resolveCall pf p]) p r = inl (node :: nodes) ->
  PullRequestApi.ID node <> "" ->
  let R := CreateAction report reset fuel pf h p in
  let U := updatePullRequest fuel pf (h ++ [resolveCall pf p; lookupCall pf p r])
             (found pf reset node (readied p report r)) in
  exists rest, calls R = resolveCall pf p :: lookupCall pf p r :: calls U ++ rest.
Proof.
  intros Hrepo Hlookup Hid. cbv zeta. apply String.eqb_neq in Hid.
  to_lookup Hrepo Hlookup.
  all: unfold found; destruct reset; mrun; rewrite length_zero, Hid; mrun.
  all: same_update; updated; whatever_follows.
Qed.

(** The branch is ahead and the lookup finds nothing for a receiver that
    holds no pull request: the create mutation is sent. *)
Lemma CreateAction_creates pf h p report reset fuel r bodyPR :
  Platform.queryRepository pf h (sourceOf pf (PullRequest.gh p))
    (workingOf pf (PullRequest.gh p)) = inl r ->
  Repository.Status r = "AHEAD" ->
  lookupAnswer pf (h ++ [resolveCall pf p]) p r = inl [] ->
  PullRequestApi.ID (PullRequest.remotePullRequest p) = "" ->
  rendered pf (readied p report r) bodyPR ->
  exists rest,
    calls (CreateAction report reset fuel pf h p)
    = resolveCall pf p :: lookupCall pf p r
      :: Mutate_createPullRequest
           (createInput (readied p report r) r bodyPR (workingOf pf (PullRequest.gh p))
              (targetOf pf (PullRequest.gh p)))
      :: rest.
Proof.
  intros Hrepo Ha Hlookup Hid Hbody.
  revert Hbody. to_lookup Hrepo Hlookup.
  all: intros Hbody; rewrite length_zero, Hid; cbn [String.eqb]; mrun;
    opened; mrun; rewrite Hbody, Ha, String.eqb_refl; cbn [negb]; cbv zeta;
    unfold workingOf, targetOf; rewrite Hb; cbn [fst snd];
    match goal with |- context [Platform.createPullRequest ?pf' ?h' ?i] =>
      destruct (Platform.createPullRequest pf' h' i) as [mutation|err]
    end; mrun.
  all: try (eexists; reflexivity).
  all: whatever_follows.
Qed.

(** When the platform answers the create mutation with [pr], the update
    runs on the receiver that holds [pr]. *)
Lemma CreateAction_created pf h p report reset fuel r bodyPR pr :
  Platform.queryRepository pf h (sourceOf pf (PullRequest.gh p))
    (workingOf pf (PullRequest.gh p)) = inl r ->
  Repository.Status r = "AHEAD" ->
  lookupAnswer pf (h ++ [resolveCall pf p]) p r = inl [] ->
  PullRequestApi.ID (PullRequest.remotePullRequest p) = "" ->
  rendered pf (readied p report r) bodyPR ->
  let R := CreateAction report reset fuel pf h p in
  let input :=
    createInput (readied p report r) r bodyPR (workingOf pf (PullRequest.gh p))
      (targetOf pf (PullRequest.gh p)) in
  let U :=
    updatePullRequest fuel pf
      (h ++ [resolveCall pf p; lookupCall pf p r; Mutate_createPullRequest input])
      (PullRequest.set_remotePullRequest pr (readied p report r)) in
  Platform.createPullRequest pf (h ++ [resolveCall pf p; lookupCall pf p r]) input = inl pr ->
  exists rest,
    calls R
    = resolveCall pf p :: lookupCall pf p r :: Mutate_createPullRequest input
      :: calls U ++ rest.
Proof.
  intros Hrepo Ha Hlookup Hid Hbody. cbv zeta.
  revert Hbody. to_lookup Hrepo Hlookup.
  all: intros Hbody Hcreate; rewrite length_zero, Hid; cbn [String.eqb]; mrun;
    opened; mrun; rewrite Hbody, Ha, String.eqb_refl; cbn [negb]; cbv zeta;
    revert Hcreate; unfold workingOf, targetOf; rewrite Hb; cbn [fst snd]; intros Hcreate;
    match goal with |- context [Platform.createPullRequest ?pf' ?h' ?i] =>
      replace (Platform.createPullRequest pf' h' i) with (inl pr : PullRequestApi.t + error)
        by (symmetry; rewrite <- Hcreate, <- !app_assoc; reflexivity)
    end; mrun.
  all: same_update; updated; whatever_follows.
Qed.

(** ** The calls of the update *)

(** Once the body renders and the catalog is listed, the update asks
    for the labels of the pull request that the receiver holds, in the
    repository that its lookups address; an error of the platform there
    ends the update. *)
Lemma updatePullRequest_asks fuel pf h s r bodyPR catalog :
  PullRequest.repository s = Some r ->
  rendered pf s bodyPR ->
  Platform.getRepositoryLabels pf h = inl catalog ->
  0 < fuel ->
  let U := updatePullRequest fuel pf h s in
  let query :=
    Query_pullRequestLabels
      (lookupOwner (PullRequest.spec s) r) (lookupName (PullRequest.spec s) r)
      (githubv4_Int (PullRequestApi.Number (PullRequest.remotePullRequest s))) None in
  (exists rest, calls U = getRepositoryLabels_call :: query :: rest)
  /\ forall err,
       Platform.pullRequestLabels pf (h ++ [getRepositoryLabels_call])
         (lookupOwner (PullRequest.spec s) r) (lookupName (PullRequest.spec s) r)
         (githubv4_Int (PullRequestApi.Number (PullRequest.remotePullRequest s))) None
       = inr err ->
       calls U = [getRepositoryLabels_call; query] /\ out U = Returns (Some err).
Proof.
  intros Hr Hbody Hcatalog Hfuel. cbv zeta. unfold rendered in Hbody.
  destruct fuel as [|fuel]; [lia|].
  unfold updatePullRequest, GetPullRequestLabelsInformation. mrun.
  rewrite Hbody. mrun. rewrite Hcatalog. mrun. rewrite Hr. mrun.
  cbn [labelsLoop]. mrun.
  match goal with |- context [Platform.pullRequestLabels pf ?h' ?o ?n ?z None] =>
    destruct (Platform.pullRequestLabels pf h' o n z None) as [page|err'] eqn:Hpage
  end; mrun.
  - split; [|intros err H; discriminate H].
    destruct (negb (PageInfo.HasPreviousPage (Labels.PageInfo page))); mrun.
    + destruct (Platform.updatePullRequest pf _ _); mrun; eexists; reflexivity.
    + match goal with |- context [labelsLoop ?f ?o ?n ?z ?b ?a ?pf ?h' ?s'] =>
        destruct (labelsLoop f o n z b a pf h' s') as [[[attached [e|]]| |] q cs ls]
      end; mrun; try (eexists; reflexivity).
      destruct (Platform.updatePullRequest pf _ _); mrun; eexists; reflexivity.
  - split; [eexists; reflexivity|]. intros err H. injection H as ->. split; reflexivity.
Qed.

(** On a platform that renders the body and lists the labels, the update
    ends with its mutation, and returns what the platform answers to
    it. *)
Lemma updatePullRequest_sent fuel pf h s r bodyPR :
  PullRequest.repository s = Some r ->
  rendered pf s bodyPR ->
  listsLabels pf fuel ->
  let U := updatePullRequest fuel pf h s in
  exists before labelsID,
    calls U
       = getRepositoryLabels_call
         :: Query_pullRequestLabels
              (lookupOwner (PullRequest.spec s) r) (lookupName (PullRequest.spec s) r)
              (githubv4_Int (PullRequestApi.Number (PullRequest.remotePullRequest s))) None
         :: before ++ [Mutate_updatePullRequest (updateInput s bodyPR labelsID)]
    /\ forall err,
         (forall h', Platform.updatePullRequest pf h' (updateInput s bodyPR labelsID)
                     = inr err) ->
         out U = Returns (Some err).
Proof.
  intros Hr Hbody (Hcatalog & Hpages). cbv zeta. unfold rendered in Hbody.
  unfold updatePullRequest, GetPullRequestLabelsInformation. mrun.
  rewrite Hbody. mrun.
  destruct (Hcatalog h) as [catalog ->]. mrun. rewrite Hr. mrun.
  match goal with |- context [labelsLoop fuel ?o ?n ?z None [] pf ?h' s] =>
    destruct (Hpages h' o n z) as (pages & final & Hs & Hp & Hf & Hfuel);
    rewrite (labelsLoop_served pf o n z s pages fuel h' None [] final Hs Hp Hf Hfuel)
  end. mrun.
  unfold labelQueries, cursors. cbn [map app].
  match goal with |- context [Platform.updatePullRequest pf ?h' ?i] =>
    destruct (Platform.updatePullRequest pf h' i) as [mutation|err'] eqn:Hupdate
  end; mrun; eexists _, _; (split; [reflexivity|]);
    intros err H; rewrite H in Hupdate; [discriminate Hupdate|].
  injection Hupdate as ->. reflexivity.
Qed.

(** ** The lookup is always sent *)

Lemma CreateAction_looks pf h p report reset fuel r :
  Platform.queryRepository pf h (sourceOf pf (PullRequest.gh p))
    (workingOf pf (PullRequest.gh p)) = inl r ->
  exists rest,
    calls (CreateAction report reset fuel pf h p)
    = resolveCall pf p :: lookupCall pf p r :: rest.
Proof.
  intros Hrepo. revert Hrepo.
  unfold CreateAction, resolveCall, sourceOf, workingOf. mrun.
  destruct (negb (ActionSpec.Title (PullRequest.spec p) =? "")%string); mrun;
    rewrite GetBranches_run; mrun;
    (destruct (branchesOf pf (PullRequest.gh p)) as [[src wrk] tgt] eqn:Hb); mrun;
    intros ->; mrun; looked;
    match goal with |- context [lookupAnswer pf ?h' ?s r] =>
      change (lookupCall pf s r) with (lookupCall pf p r);
      destruct (lookupAnswer pf h' s r) as [[|node nodes]|err]
    end; mrun.
  all: whatever_follows.
Qed.

Lemma CleanAction_looks pf h p report r :
  Platform.queryRepository pf h "" "" = inl r ->
  exists rest,
    calls (CleanAction report pf h p)
    = queryRepository_call "" "" :: lookupCall pf p r :: rest.
Proof.
  intros Hrepo. unfold CleanAction. mrun. rewrite Hrepo. mrun. looked.
  match goal with |- context [lookupAnswer pf ?h' ?s r] =>
    change (lookupCall pf s r) with (lookupCall pf p r);
    destruct (lookupAnswer pf h' s r) as [[|node nodes]|err]
  end; mrun.
  all: whatever_follows.
Qed.

Lemma Sample_listsLabels status existing updated commented allowed :
  listsLabels (Sample.platform status existing updated commented allowed) 3.
Proof.
  split.
  - intros h. eexists. reflexivity.
  - intros h owner repo number. exists [Sample.newest; Sample.middle], Sample.oldest.
    repeat split. cbn. lia.
Qed.

(** ** The branch is not ahead *)

(** C1.  When the repository resolves to a branch status other than
    "AHEAD", [OpenPullRequest] sends no call and returns no error, and
    [CreateAction] sends no create mutation.  But when the lookup finds
    no pull request and the receiver holds none, [CreateAction] still
    runs [updatePullRequest], on a receiver whose pull request has the
    empty ID, and returns what the update returns: it lists the labels
    of the repository and asks for the labels of the pull request with
    the number that the receiver holds, 0 after [NewAction].  When the
    platform answers that lookup with an error, [CreateAction] returns
    the error after these four calls; when the platform lists labels
    there, the update mutation is sent for the empty ID and its
    rejection is returned. *)
Theorem not_ahead_still_updates pf h p report reset fuel r bodyPR :
  Platform.queryRepository pf h (sourceOf pf (PullRequest.gh p))
    (workingOf pf (PullRequest.gh p)) = inl r ->
  Repository.Status r <> "AHEAD" ->
  lookupAnswer pf (h ++ [resolveCall pf p]) p r = inl [] ->
  PullRequestApi.ID (PullRequest.remotePullRequest p) = "" ->
  rendered pf (readied p report r) bodyPR ->
  let R := CreateAction report reset fuel pf h p in
  let s := readied p report r in
  let U := updatePullRequest fuel pf (h ++ [resolveCall pf p; lookupCall pf p r]) s in
  let query :=
    Query_pullRequestLabels
      (lookupOwner (PullRequest.spec p) r) (lookupName (PullRequest.spec p) r)
      (githubv4_Int (PullRequestApi.Number (PullRequest.remotePullRequest p))) None in
  (forall h', OpenPullRequest pf h' s
              = mkRun (Returns None) s [] [Log DebugLevel "GitHub pullrequest not needed" []])
  /\ Forall (fun c => isCreate c = false) (calls R)
  /\ PullRequestApi.ID (PullRequest.remotePullRequest s) = ""
  /\ calls R = resolveCall pf p :: lookupCall pf p r :: calls U
  /\ out R = out U
  /\ (forall catalog err,
        0 < fuel ->
        Platform.getRepositoryLabels pf (h ++ [resolveCall pf p; lookupCall pf p r])
        = inl catalog ->
        Platform.pullRequestLabels pf
          (h ++ [resolveCall pf p; lookupCall pf p r; getRepositoryLabels_call])
          (lookupOwner (PullRequest.spec p) r) (lookupName (PullRequest.spec p) r)
          (githubv4_Int (PullRequestApi.Number (PullRequest.remotePullRequest p))) None
        = inr err ->
        calls R = [resolveCall pf p; lookupCall pf p r; getRepositoryLabels_call; query]
        /\ out R = Returns (Some err))
  /\ (forall err,
        listsLabels pf fuel ->
        rejectsEmptyID pf err ->
        (exists before input,
           calls R
           = resolveCall pf p :: lookupCall pf p r :: getRepositoryLabels_call :: query
             :: before ++ [Mutate_updatePullRequest input]
           /\ UpdatePullRequestInput.PullRequestID input = "")
        /\ out R = Returns (Some err)).
Proof.
  intros Hrepo Ha Hlookup Hid Hbody. cbv zeta.
  destruct (CreateAction_not_ahead pf h p report reset fuel r bodyPR
              Hrepo Ha Hlookup Hid Hbody) as [Hcalls Hout].
  assert (Hr : PullRequest.repository (readied p report r) = Some r) by reflexivity.
  split; [|split; [|split; [|split; [|split; [|split]]]]].
  - intros h'. rewrite (OpenPullRequest_run pf h' (readied p report r) r Hr).
    unfold rendered in Hbody. rewrite Hbody.
    apply String.eqb_neq in Ha. rewrite Ha. reflexivity.
  - rewrite Hcalls. constructor; [reflexivity|]. constructor; [reflexivity|].
    apply (update_not_create (readied p report r)).
    apply updatePullRequest_sends.
  - exact Hid.
  - exact Hcalls.
  - exact Hout.
  - intros catalog err Hfuel Hcatalog Hlabels.
    destruct (updatePullRequest_asks fuel pf _ (readied p report r) r bodyPR catalog
                Hr Hbody Hcatalog Hfuel) as [_ H].
    rewrite <- app_assoc in H. destruct (H err Hlabels) as [Hc Ho].
    rewrite Hcalls, Hout, Hc, Ho. split; reflexivity.
  - intros err Hlists Hrejects.
    destruct (updatePullRequest_sent fuel pf (h ++ [resolveCall pf p; lookupCall pf p r])
                (readied p report r) r bodyPR Hr Hbody Hlists)
      as (before & labelsID & Hc & Ho).
    rewrite Hcalls, Hout, Hc. split.
    + eexists _, _. split; [reflexivity|]. exact Hid.
    + apply Ho. intros h'. apply Hrejects. exact Hid.
Qed.

(** A receiver fresh from [NewAction] on platforms where the branch is
    behind and no pull request is open: one that does not know the pull
    request of number 0, and one that lists labels for it and rejects
    the update of the empty ID. *)
Lemma not_ahead_still_updates_witness :
  let pf := withoutNumber0
              (Sample.platform "BEHIND" [] (inl (Sample.pullRequest 1)) None (inl true)) in
  let pf' := Sample.platform "BEHIND" [] (inr unknownID) None (inl true) in
  let query := Query_pullRequestLabels "upstream" "project" 0 None in
  (calls (CreateAction Sample.report false 3 pf [] Sample.action)
   = [queryRepository_call "main" "updatecli_main_deps";
      Query_pullRequests "upstream" "project" "main" "updatecli_main_deps";
      getRepositoryLabels_call; query]
   /\ out (CreateAction Sample.report false 3 pf [] Sample.action)
      = Returns (Some unknownNumber))
  /\ ((exists before input,
         calls (CreateAction Sample.report false 3 pf' [] Sample.action)
         = queryRepository_call "main" "updatecli_main_deps"
           :: Query_pullRequests "upstream" "project" "main" "updatecli_main_deps"
           :: getRepositoryLabels_call :: query
           :: before ++ [Mutate_updatePullRequest input]
         /\ UpdatePullRequestInput.PullRequestID input = "")
      /\ out (CreateAction Sample.report false 3 pf' [] Sample.action)
         = Returns (Some unknownID)).
Proof.
  assert (Hbehind : Repository.Status (Sample.repository "BEHIND") <> "AHEAD")
    by discriminate.
  assert (Hfuel : 0 < 3) by lia.
  split.
  - exact (proj1 (proj2 (proj2 (proj2 (proj2 (proj2
             (not_ahead_still_updates
                (withoutNumber0
                   (Sample.platform "BEHIND" [] (inl (Sample.pullRequest 1)) None (inl true)))
                [] Sample.action Sample.report false 3 (Sample.repository "BEHIND")
                "x: 1.0 -> 2.0" eq_refl Hbehind eq_refl eq_refl eq_refl))))))
             Sample.catalog unknownNumber Hfuel eq_refl eq_refl).
  - exact (proj2 (proj2 (proj2 (proj2 (proj2 (proj2
             (not_ahead_still_updates
                (Sample.platform "BEHIND" [] (inr unknownID) None (inl true))
                [] Sample.action Sample.report false 3 (Sample.repository "BEHIND")
                "x: 1.0 -> 2.0" eq_refl Hbehind eq_refl eq_refl eq_refl))))))
             unknownID (Sample_listsLabels _ _ _ _ _) (fun _ _ _ => eq_refl)).
Defined.

(** ** The parent of a fork *)

Lemma targetsParent_addresses spec r c :
  ActionSpec.Parent spec = true -> targetsParent r c -> addressesParent spec r c.
Proof.
  intros Hp. unfold addressesParent.
  destruct c; cbn [targetsParent addressed]; try (intros; split; exact I).
  - intros _. unfold getRepositoryLabels_addresses, lookupOwner, lookupName.
    rewrite Hp. split; [reflexivity|exact I].
  - intros [-> ->]. split; [reflexivity|exact I].
  - intros [-> ->]. split; [reflexivity|exact I].
  - intros H. split; [exact I|exact H].
Qed.

Lemma lookupCall_parent pf p r :
  ActionSpec.Parent (PullRequest.spec p) = true ->
  lookupCall pf p r
  = Query_pullRequests (Repository.ParentOwner r) (Repository.ParentName r)
      (targetOf pf (PullRequest.gh p)) (workingOf pf (PullRequest.gh p)).
Proof. intros Hp. unfold lookupCall, lookupOwner, lookupName. rewrite Hp. reflexivity. Qed.

(** C5.  With [Parent] set, once the repository is resolved to [r]:
    every lookup that [CreateAction] or [CleanAction] sends, of pull
    requests, of the labels of a pull request or of the labels of the
    repository, addresses the owner and name of the parent of [r], and a
    create mutation has the parent as base repository and [r] itself as
    head repository.  These calls are sent: the lookup of pull requests
    to the parent always; the create mutation when the branch is ahead,
    nothing is found and the body renders; the lookups of labels, of
    the repository and of the pull request found, when a pull request
    is found, the body renders and the labels are listed.  What the
    lookup of the labels of the repository addresses is taken from the
    specification, [getRepositoryLabels_addresses]. *)
Theorem Parent_redirects pf h p report reset fuel r :
  ActionSpec.Parent (PullRequest.spec p) = true ->
  let lookup :=
    Query_pullRequests (Repository.ParentOwner r) (Repository.ParentName r)
      (targetOf pf (PullRequest.gh p)) (workingOf pf (PullRequest.gh p)) in
  (Platform.queryRepository pf h (sourceOf pf (PullRequest.gh p))
     (workingOf pf (PullRequest.gh p)) = inl r ->
   let R := CreateAction report reset fuel pf h p in
   let answer := lookupAnswer pf (h ++ [resolveCall pf p]) p r in
   Forall (addressesParent (PullRequest.spec p) r) (calls R)
   /\ (exists rest, calls R = resolveCall pf p :: lookup :: rest)
   /\ (forall bodyPR,
         Repository.Status r = "AHEAD" ->
         answer = inl [] ->
         PullRequestApi.ID (PullRequest.remotePullRequest p) = "" ->
         rendered pf (readied p report r) bodyPR ->
         exists input,
           In (Mutate_createPullRequest input) (calls R)
           /\ CreatePullRequestInput.RepositoryID input = Repository.ParentID r
           /\ CreatePullRequestInput.HeadRepositoryID input = Some (Repository.ID r))
   /\ (forall node nodes bodyPR,
         answer = inl (node :: nodes) ->
         PullRequestApi.ID node <> "" ->
         rendered pf (found pf reset node (readied p report r)) bodyPR ->
         listsCatalog pf ->
         0 < fuel ->
         In getRepositoryLabels_call (calls R)
         /\ In (Query_pullRequestLabels (Repository.ParentOwner r) (Repository.ParentName r)
                  (githubv4_Int (PullRequestApi.Number node)) None)
              (calls R)))
  /\ (Platform.queryRepository pf h "" "" = inl r ->
      let R := CleanAction report pf h p in
      Forall (addressesParent (PullRequest.spec p) r) (calls R)
      /\ exists rest, calls R = queryRepository_call "" "" :: lookup :: rest).
Proof.
  intros Hp. cbv zeta. rewrite <- (lookupCall_parent pf p r Hp). split; intros Hr.
  - split; [|split; [|split]].
    + pose proof (CreateAction_sends report reset fuel pf h p) as S. rewrite Hr in S.
      revert S. apply Forall_impl. intros c Hc.
      apply targetsParent_addresses; [exact Hp|].
      apply sentByCreateAction_carries in Hc. tauto.
    + exact (CreateAction_looks pf h p report reset fuel r Hr).
    + intros bodyPR Ha Hlookup Hid Hbody.
      destruct (CreateAction_creates pf h p report reset fuel r bodyPR
                  Hr Ha Hlookup Hid Hbody) as [rest ->].
      eexists. split; [right; right; left; reflexivity|].
      unfold createInput, readied. cbn [PullRequest.spec PullRequest.set_repository
        PullRequest.set_Title PullRequest.set_Report CreatePullRequestInput.RepositoryID
        CreatePullRequestInput.HeadRepositoryID].
      rewrite Hp. split; reflexivity.
    + intros node nodes bodyPR Hlookup Hid Hbody Hcatalog Hfuel.
      destruct (CreateAction_found pf h p report reset fuel r node nodes Hr Hlookup Hid)
        as [rest ->].
      destruct (Hcatalog (h ++ [resolveCall pf p; lookupCall pf p r])) as [catalog Hc].
      assert (Hq : PullRequest.repository (found pf reset node (readied p report r)) = Some r)
        by (unfold found; destruct reset; reflexivity).
      destruct (updatePullRequest_asks fuel pf _ _ r bodyPR catalog Hq Hbody Hc Hfuel)
        as [[rest' ->] _].
      assert (Hs : PullRequest.spec (found pf reset node (readied p report r))
                   = PullRequest.spec p)
        by (unfold found; destruct reset; reflexivity).
      assert (Hn : PullRequest.remotePullRequest (found pf reset node (readied p report r))
                   = node)
        by (unfold found; destruct reset; reflexivity).
      rewrite Hs, Hn. unfold lookupOwner, lookupName. rewrite Hp.
      split; [right; right; left; reflexivity|right; right; right; left; reflexivity].
  - split.
    + pose proof (CleanAction_sends report pf h p) as S. rewrite Hr in S.
      revert S. apply Forall_impl. intros c Hc.
      apply targetsParent_addresses; [exact Hp|].
      exact (sentByCleanAction_carries pf p r c Hc Hp).
    + exact (CleanAction_looks pf h p report r Hr).
Qed.

Lemma Sample_listsCatalog status existing updated commented allowed :
  listsCatalog (Sample.platform status existing updated commented allowed).
Proof. intros h. eexists. reflexivity. Qed.

(** On the sample platform, where the fork is octo/fork and its parent
    upstream/project, with the branch ahead: first with no pull request
    open, then with one. *)
Lemma Parent_redirects_witness :
  let pf := Sample.platform "AHEAD" [] (inl (Sample.pullRequest 1)) None (inl true) in
  let pf' := Sample.platform "AHEAD" [Sample.pullRequest 1] (inl (Sample.pullRequest 1))
               None (inl true) in
  let lookup := Query_pullRequests "upstream" "project" "main" "updatecli_main_deps" in
  ((exists rest,
      calls (CreateAction Sample.report false 3 pf [] Sample.action)
      = queryRepository_call "main" "updatecli_main_deps" :: lookup :: rest)
   /\ exists input,
        In (Mutate_createPullRequest input)
          (calls (CreateAction Sample.report false 3 pf [] Sample.action))
        /\ CreatePullRequestInput.RepositoryID input = "R_parent"
        /\ CreatePullRequestInput.HeadRepositoryID input = Some "R_fork")
  /\ (In getRepositoryLabels_call
        (calls (CreateAction Sample.report false 3 pf' [] Sample.action))
      /\ In (Query_pullRequestLabels "upstream" "project" 42 None)
           (calls (CreateAction Sample.report false 3 pf' [] Sample.action)))
  /\ (Forall (addressesParent Sample.spec (Sample.repository "AHEAD"))
        (calls (CleanAction Sample.report pf' [] Sample.action))
      /\ exists rest,
           calls (CleanAction Sample.report pf' [] Sample.action)
           = queryRepository_call "" "" :: lookup :: rest).
Proof.
  assert (Hid : PullRequestApi.ID (Sample.pullRequest 1) <> "") by discriminate.
  assert (Hfuel : 0 < 3) by lia.
  destruct (Parent_redirects
              (Sample.platform "AHEAD" [] (inl (Sample.pullRequest 1)) None (inl true))
              [] Sample.action Sample.report false 3 (Sample.repository "AHEAD") eq_refl)
    as [Hcreate _].
  destruct (Hcreate eq_refl) as (_ & Hlooks & Hcreates & _).
  destruct (Parent_redirects
              (Sample.platform "AHEAD" [Sample.pullRequest 1] (inl (Sample.pullRequest 1))
                 None (inl true))
              [] Sample.action Sample.report false 3 (Sample.repository "AHEAD") eq_refl)
    as [Hcreate' Hclean].
  destruct (Hcreate' eq_refl) as (_ & _ & _ & Hfound).
  split; [split; [exact Hlooks|]|split].
  - exact (Hcreates "x: 1.0 -> 2.0" eq_refl eq_refl eq_refl eq_refl).
  - exact (Hfound (Sample.pullRequest 1) [] "x: 0.9 -> 1.0x: 1.0 -> 2.0" eq_refl Hid eq_refl
             (Sample_listsCatalog _ _ _ _ _) Hfuel).
  - exact (Hclean eq_refl).
Defined.

(** ** The title *)

(** The receiver at the end of the run is prepared: it has the title. *)
Ltac titled :=
  cbn [self];
  match goal with
  | Ps : prepared _ ?t _ ?q |- PullRequest.Title ?q = ?t => exact (proj1 (proj2 (proj2 Ps)))
  end.

(** [CreateAction] leaves the chosen title in [p.Title]. *)
Lemma CreateAction_keeps_title report reset fuel pf h p :
  PullRequest.Title (self (CreateAction report reset fuel pf h p))
  = chosenTitle (PullRequest.spec p) report.
Proof.
  unfold CreateAction, sourceOf, workingOf. mrun.
  destruct (negb (ActionSpec.Title (PullRequest.spec p) =? "")%string) eqn:HT; mrun;
    rewrite GetBranches_run; mrun;
    (destruct (branchesOf pf (PullRequest.gh p)) as [[src wrk] tgt] eqn:Hb); mrun;
    (answer; [|unfold chosenTitle; rewrite HT; reflexivity]).
  all: match goal with |- context [getRemotePullRequest _ _ _ ?s] =>
         assert (P0 : prepared p (chosenTitle (PullRequest.spec p) report) repo s)
           by (unfold chosenTitle; rewrite HT; repeat split) end.
  all: callee; try solve [titled].
  all: repeat first [ solve [titled] | callee | resolved | branch ].
Qed.

Lemma found_prepared pf reset node p report r :
  let q := found pf reset node (readied p report r) in
  PullRequest.repository q = Some r
  /\ PullRequest.spec q = PullRequest.spec p
  /\ PullRequest.Title q = chosenTitle (PullRequest.spec p) report
  /\ PullRequest.remotePullRequest q = node
  /\ PullRequest.Report q
     = reportText pf report reset (inl (node :: nil)).
Proof. cbv zeta. unfold found. destruct reset; repeat split. Qed.

(** C10.  The title that [CreateAction] gives the pull request is the
    configured title when it is not empty and the title of the report
    otherwise.  [CreateAction] leaves it in [p.Title], and every create
    and every update mutation that it sends carries it.  These mutations
    are sent: the create mutation when the branch is ahead, the lookup
    finds nothing, the receiver holds no pull request and the body
    renders, and after it the update mutation for the pull request
    created when the platform lists the labels; the update mutation for
    the pull request found when the lookup finds one, the body renders
    and the platform lists the labels. *)
Theorem CreateAction_title pf h p report reset fuel :
  let title := chosenTitle (PullRequest.spec p) report in
  let R := CreateAction report reset fuel pf h p in
  (ActionSpec.Title (PullRequest.spec p) <> "" -> title = ActionSpec.Title (PullRequest.spec p))
  /\ (ActionSpec.Title (PullRequest.spec p) = "" -> title = reports.Title report)
  /\ PullRequest.Title (self R) = title
  /\ Forall (carriesTitle title) (calls R)
  /\ forall r,
       Platform.queryRepository pf h (sourceOf pf (PullRequest.gh p))
         (workingOf pf (PullRequest.gh p)) = inl r ->
       let answer := lookupAnswer pf (h ++ [resolveCall pf p]) p r in
       (forall bodyPR,
          Repository.Status r = "AHEAD" ->
          answer = inl [] ->
          PullRequestApi.ID (PullRequest.remotePullRequest p) = "" ->
          rendered pf (readied p report r) bodyPR ->
          (exists input,
             In (Mutate_createPullRequest input) (calls R)
             /\ CreatePullRequestInput.Title input = title)
          /\ forall pr,
               creates pf pr ->
               listsLabels pf fuel ->
               exists input,
                 In (Mutate_updatePullRequest input) (calls R)
                 /\ UpdatePullRequestInput.Title input = Some title
                 /\ UpdatePullRequestInput.PullRequestID input = PullRequestApi.ID pr)
       /\ (forall node nodes bodyPR,
             answer = inl (node :: nodes) ->
             PullRequestApi.ID node <> "" ->
             rendered pf (found pf reset node (readied p report r)) bodyPR ->
             listsLabels pf fuel ->
             exists input,
               In (Mutate_updatePullRequest input) (calls R)
               /\ UpdatePullRequestInput.Title input = Some title
               /\ UpdatePullRequestInput.PullRequestID input = PullRequestApi.ID node).
Proof.
  cbv zeta. split; [|split; [|split; [|split]]].
  - intros Hne. unfold chosenTitle.
    destruct (String.eqb_spec (ActionSpec.Title (PullRequest.spec p)) ""); [contradiction|].
    reflexivity.
  - intros He. unfold chosenTitle. rewrite He. reflexivity.
  - apply CreateAction_keeps_title.
  - apply CreateAction_carries; [exact I|]. intros r c _ Hc.
    apply sentByCreateAction_carries in Hc. tauto.
  - intros r Hr. split.
    + intros bodyPR Ha Hlookup Hid Hbody. split.
      * destruct (CreateAction_creates pf h p report reset fuel r bodyPR
                    Hr Ha Hlookup Hid Hbody) as [rest ->].
        eexists. split; [right; right; left; reflexivity|reflexivity].
      * intros pr Hcreates Hlists.
        destruct (CreateAction_created pf h p report reset fuel r bodyPR pr
                    Hr Ha Hlookup Hid Hbody (Hcreates _ _)) as [rest ->].
        match goal with |- context [updatePullRequest fuel pf ?h' ?s] =>
          destruct (updatePullRequest_sent fuel pf h' s r bodyPR eq_refl Hbody Hlists)
            as (before & labelsID & -> & _)
        end.
        eexists. split; [|split].
        -- right; right; right; right; right. apply in_or_app. left.
           apply in_or_app. right. left. reflexivity.
        -- reflexivity.
        -- reflexivity.
    + intros node nodes bodyPR Hlookup Hid Hbody Hlists.
      destruct (CreateAction_found pf h p report reset fuel r node nodes Hr Hlookup Hid)
        as [rest ->].
      destruct (found_prepared pf reset node p report r) as (Hq & _ & Ht & Hn & _).
      destruct (updatePullRequest_sent fuel pf (h ++ [resolveCall pf p; lookupCall pf p r])
                  _ r bodyPR Hq Hbody Hlists) as (before & labelsID & -> & _).
      eexists. split; [|split].
      * right; right; right; right. apply in_or_app. left.
        apply in_or_app. right. left. reflexivity.
      * cbn [updateInput UpdatePullRequestInput.Title]. rewrite Ht. reflexivity.
      * cbn [updateInput UpdatePullRequestInput.PullRequestID]. rewrite Hn. reflexivity.
Qed.

(** On the sample platform, with the configured title "Bump x to 2.0"
    and the report title "bump x", and with the branch ahead: first with
    no pull request open, then with one. *)
Lemma CreateAction_title_witness :
  let pf := Sample.platform "AHEAD" [] (inl (Sample.pullRequest 1)) None (inl true) in
  let pf' := Sample.platform "AHEAD" [Sample.pullRequest 1] (inl (Sample.pullRequest 1))
               None (inl true) in
  ((exists input,
      In (Mutate_createPullRequest input)
        (calls (CreateAction Sample.report false 3 pf [] Sample.action))
      /\ CreatePullRequestInput.Title input = "Bump x to 2.0")
   /\ exists input,
        In (Mutate_updatePullRequest input)
          (calls (CreateAction Sample.report false 3 pf [] Sample.action))
        /\ UpdatePullRequestInput.Title input = Some "Bump x to 2.0"
        /\ UpdatePullRequestInput.PullRequestID input = "PR_42")
  /\ exists input,
       In (Mutate_updatePullRequest input)
         (calls (CreateAction Sample.report false 3 pf' [] Sample.action))
       /\ UpdatePullRequestInput.Title input = Some "Bump x to 2.0"
       /\ UpdatePullRequestInput.PullRequestID input = "PR_42".
Proof.
  assert (Hid : PullRequestApi.ID (Sample.pullRequest 1) <> "") by discriminate.
  destruct (CreateAction_title
              (Sample.platform "AHEAD" [] (inl (Sample.pullRequest 1)) None (inl true))
              [] Sample.action Sample.report false 3) as (_ & _ & _ & _ & Hsent).
  destruct (Hsent (Sample.repository "AHEAD") eq_refl) as [Hcreate _].
  destruct (Hcreate "x: 1.0 -> 2.0" eq_refl eq_refl eq_refl eq_refl) as [Hc Hu].
  destruct (CreateAction_title
              (Sample.platform "AHEAD" [Sample.pullRequest 1] (inl (Sample.pullRequest 1))
                 None (inl true))
              [] Sample.action Sample.report false 3) as (_ & _ & _ & _ & Hsent').
  destruct (Hsent' (Sample.repository "AHEAD") eq_refl) as [_ Hfound].
  split; [split; [exact Hc|]|].
  - exact (Hu (Sample.pullRequest 1) (fun _ _ => eq_refl) (Sample_listsLabels _ _ _ _ _)).
  - exact (Hfound (Sample.pullRequest 1) [] "x: 0.9 -> 1.0x: 1.0 -> 2.0" eq_refl Hid eq_refl
             (Sample_listsLabels _ _ _ _ _)).
Defined.

(** ** The body *)

Lemma close_body pf description text s cs :
  Forall (sentByClose s) cs -> Forall (carriesBody pf description text) cs.
Proof. apply Forall_impl. intros c [->| ->]; exact I. Qed.

Lemma enable_body pf description text s cs :
  Forall (sentByEnable s) cs -> Forall (carriesBody pf description text) cs.
Proof. apply Forall_impl. intros c [->| ->]; exact I. Qed.

(** A step of [CreateAction] after the lookup, with the body that its
    mutation carries. *)
Ltac body_step :=
  match goal with
  | |- context [OpenPullRequest ?pf ?h ?s] =>
      rewrite (OpenPullRequest_run pf h s _ eq_refl); mrun;
      destruct (Platform.GeneratePullRequestBody pf _ _) as [?bodyPR|?err] eqn:?Hbody; mrun;
      [ destruct (negb (_ =? "AHEAD")%string); mrun;
        [|cbv zeta; destruct (Platform.createPullRequest pf _ _) as [?mutation|?err]; mrun]
      |]
  | |- context [updatePullRequest ?f ?pf ?h ?s] =>
      let F := fresh "Fr" in let B := fresh "Body" in
      pose proof (updatePullRequest_sends f pf h s) as [F _];
      pose proof (updatePullRequest_more f pf h s) as [B _];
      destruct (updatePullRequest f pf h s) as [[[?err|]| |] ?q ?cs ?ls];
      cbn [self calls PullRequest.spec PullRequest.Report PullRequest.set_Report
           PullRequest.set_Title PullRequest.set_remotePullRequest
           PullRequest.set_repository] in F, B; subst
  | |- context [closePullRequest ?pf ?h ?s] =>
      let F := fresh "Fr" in let C := fresh "Sent" in
      pose proof (closePullRequest_sends pf h s) as [F C];
      destruct (closePullRequest pf h s) as [[[?err|]| |] ?q ?cs ?ls];
      cbn [self calls] in F, C; subst
  | |- context [EnablePullRequestAutoMerge ?pf ?h ?s] =>
      let F := fresh "Fr" in let C := fresh "Sent" in
      pose proof (EnablePullRequestAutoMerge_sends pf h s) as [F C];
      destruct (EnablePullRequestAutoMerge pf h s) as [[[?err|]| |] ?q ?cs ?ls];
      cbn [self calls] in F, C; subst
  end;
  mrun.

(** Every call written out or sent by a step carries the body. *)
Ltac bodies :=
  cbn [calls];
  repeat first
    [ assumption
    | apply Forall_nil
    | eapply close_body; eassumption
    | eapply enable_body; eassumption
    | apply Forall_cons;
      [first [exact I|eexists; split; [eassumption|reflexivity]]|]
    | apply Forall_app; split ].

(** X6.  Once the repository is resolved, the body of every create and
    of every update mutation that [CreateAction] sends is what
    [utils.GeneratePullRequestBody] renders from the configured
    description and one text, fixed by the answer to the lookup of pull
    requests that this run sends: the text of the report, merged by
    [reports.MergeFromString] into the body of the first pull request of
    that answer when there is one and the description is not reset.
    Such mutations are sent: the update mutation for the pull request
    found, when the platform lists the labels, and the create mutation
    when nothing is found, no pull request is held and the branch is
    ahead. *)
Theorem CreateAction_body pf h p report reset fuel r :
  Platform.queryRepository pf h (sourceOf pf (PullRequest.gh p))
    (workingOf pf (PullRequest.gh p)) = inl r ->
  let answer := lookupAnswer pf (h ++ [resolveCall pf p]) p r in
  let description := ActionSpec.Description (PullRequest.spec p) in
  let text := reportText pf report reset answer in
  let R := CreateAction report reset fuel pf h p in
  Forall (carriesBody pf description text) (calls R)
  /\ (forall node nodes bodyPR,
        answer = inl (node :: nodes) ->
        PullRequestApi.ID node <> "" ->
        Platform.GeneratePullRequestBody pf description text = inl bodyPR ->
        listsLabels pf fuel ->
        exists input,
          In (Mutate_updatePullRequest input) (calls R)
          /\ UpdatePullRequestInput.Body input = Some bodyPR
          /\ UpdatePullRequestInput.PullRequestID input = PullRequestApi.ID node)
  /\ (forall bodyPR,
        answer = inl [] ->
        PullRequestApi.ID (PullRequest.remotePullRequest p) = "" ->
        Repository.Status r = "AHEAD" ->
        Platform.GeneratePullRequestBody pf description text = inl bodyPR ->
        exists input,
          In (Mutate_createPullRequest input) (calls R)
          /\ CreatePullRequestInput.Body input = Some bodyPR).
Proof.
  intros Hrepo. cbv zeta. split; [|split].
  - revert Hrepo. unfold CreateAction, resolveCall, sourceOf, workingOf. mrun.
    destruct (negb (ActionSpec.Title (PullRequest.spec p) =? "")%string); mrun;
      rewrite GetBranches_run; mrun;
      (destruct (branchesOf pf (PullRequest.gh p)) as [[src wrk] tgt] eqn:Hb); mrun;
      intros ->; mrun; looked;
      match goal with |- context [lookupAnswer pf ?h' (PullRequest.set_repository ?a ?b) r] =>
        change (lookupAnswer pf h' (PullRequest.set_repository a b) r)
          with (lookupAnswer pf h' p r)
      end;
      (destruct (lookupAnswer pf _ p r) as [[|node nodes]|err]); mrun; cbn [reportText];
      try (unfold found; destruct reset; mrun).
    all: repeat first [ solve [bodies] | body_step | branch ].
  - intros node nodes bodyPR Hlookup Hid Hbody Hlists. rewrite Hlookup in Hbody.
    destruct (CreateAction_found pf h p report reset fuel r node nodes Hrepo Hlookup Hid)
      as [rest ->].
    destruct (found_prepared pf reset node p report r) as (Hq & Hs & _ & Hn & Ht).
    assert (Hb : rendered pf (found pf reset node (readied p report r)) bodyPR)
      by (unfold rendered; rewrite Hs, Ht; exact Hbody).
    destruct (updatePullRequest_sent fuel pf (h ++ [resolveCall pf p; lookupCall pf p r])
                _ r bodyPR Hq Hb Hlists) as (before & labelsID & -> & _).
    eexists. split; [|split].
    + right; right; right; right. apply in_or_app. left.
      apply in_or_app. right. left. reflexivity.
    + reflexivity.
    + cbn [updateInput UpdatePullRequestInput.PullRequestID]. rewrite Hn. reflexivity.
  - intros bodyPR Hlookup Hid Ha Hbody. rewrite Hlookup in Hbody.
    destruct (CreateAction_creates pf h p report reset fuel r bodyPR
                Hrepo Ha Hlookup Hid Hbody) as [rest ->].
    eexists. split; [right; right; left; reflexivity|reflexivity].
Qed.

(** On the sample platform, whose rendering puts the description before
    the text and whose merge puts the old body before the new text:
    the open pull request has the body "x: 0.9 -> 1.0", the report the
    text "x: 1.0 -> 2.0". *)
Lemma CreateAction_body_witness :
  let pf := Sample.platform "AHEAD" [Sample.pullRequest 1] (inl (Sample.pullRequest 1))
              None (inl true) in
  Forall (carriesBody pf "" "x: 0.9 -> 1.0x: 1.0 -> 2.0")
    (calls (CreateAction Sample.report false 3 pf [] Sample.action))
  /\ (exists input,
        In (Mutate_updatePullRequest input)
          (calls (CreateAction Sample.report false 3 pf [] Sample.action))
        /\ UpdatePullRequestInput.Body input = Some "x: 0.9 -> 1.0x: 1.0 -> 2.0"
        /\ UpdatePullRequestInput.PullRequestID input = "PR_42")
  /\ Forall (carriesBody pf "" "x: 1.0 -> 2.0")
       (calls (CreateAction Sample.report true 3 pf [] Sample.action)).
Proof.
  assert (Hid : PullRequestApi.ID (Sample.pullRequest 1) <> "") by discriminate.
  destruct (CreateAction_body
              (Sample.platform "AHEAD" [Sample.pullRequest 1] (inl (Sample.pullRequest 1))
                 None (inl true))
              [] Sample.action Sample.report false 3 (Sample.repository "AHEAD") eq_refl)
    as (Hall & Hupdate & _).
  destruct (CreateAction_body
              (Sample.platform "AHEAD" [Sample.pullRequest 1] (inl (Sample.pullRequest 1))
                 None (inl true))
              [] Sample.action Sample.report true 3 (Sample.repository "AHEAD") eq_refl)
    as (Hreset & _).
  split; [exact Hall|split; [|exact Hreset]].
  exact (Hupdate (Sample.pullRequest 1) [] "x: 0.9 -> 1.0x: 1.0 -> 2.0" eq_refl Hid eq_refl
           (Sample_listsLabels _ _ _ _ _)).
Defined.

(** * Commits through the API *)

Lemma CreateCommit_additions_spec ws workingDir files : forall acc additions,
  CreateCommit_additions ws workingDir files acc = inl additions ->
  exists added,
    additions = acc ++ added
    /\ map FileAddition.Path added = files
    /\ Forall (addsFile ws workingDir) added.
Proof.
  induction files as [|f files IH]; intros acc additions; cbn [CreateCommit_additions].
  - intros H. injection H as <-. exists []. rewrite app_nil_r. repeat constructor.
  - unfold base64EncodeFile.
    destruct (Workspace.Open ws (workingDir ++ "/" ++ f)%string) as [file|err] eqn:Hopen;
      [|discriminate].
    destruct (contents file) as [content|err] eqn:Hcontent; [|discriminate].
    intros H. apply IH in H as (added & -> & Hpaths & Hadds).
    exists (FileAddition.mk f (Workspace.EncodeToString ws content) :: added).
    rewrite <- app_assoc. split; [reflexivity|]. split; [cbn; rewrite Hpaths; reflexivity|].
    constructor; [|exact Hadds]. exists file, content. cbn. auto.
Qed.

(** The two ways in which [CreateCommit] ends. *)
Lemma CreateCommit_cases ws g commitMessage :
  let (err, calls) := CreateCommit ws g commitMessage in
  (calls = [] /\ err <> None)
  \/ exists input,
       calls = [Mutate_createCommitOnBranch input]
       /\ commitsChanges ws g commitMessage input
       /\ err = Workspace.createCommitOnBranch ws input.
Proof.
  unfold CreateCommit, GetDirectory.
  destruct (Workspace.GetChangedFiles ws (Scm.Spec_Directory g)) as [files|e] eqn:Hfiles;
    [|left; split; [reflexivity|discriminate]].
  destruct (CreateCommit_additions ws (Scm.Spec_Directory g) files []) as [additions|e]
    eqn:Hadd; [|left; split; [reflexivity|discriminate]].
  destruct (Workspace.GetLatestCommitHash ws (Scm.Spec_Directory g)) as [headOid|e]
    eqn:Hhead; [|left; split; [reflexivity|discriminate]].
  apply CreateCommit_additions_spec in Hadd as (added & -> & Hpaths & Hadds).
  cbn [app].
  match goal with |- context [Workspace.createCommitOnBranch ws ?i] =>
    set (input := i);
    assert (Hin : commitsChanges ws g commitMessage input)
  end.
  { unfold commitsChanges. subst input. cbn. rewrite Hhead.
    repeat (split; [reflexivity|]). exists added.
    split; [reflexivity|]. split; [rewrite Hfiles, Hpaths; reflexivity|exact Hadds]. }
  destruct (Workspace.createCommitOnBranch ws input) as [e|] eqn:Hm;
    right; exists input; rewrite Hm; auto.
Qed.

(** X22.  [CreateCommit] sends at most one mutation.  When it sends none
    it returns an error: the changed files could not be listed, one of
    them could not be opened or read, or the latest commit could not be
    found.  The mutation that it sends adds exactly the changed files
    of the working directory, in the order in which they are listed,
    each under its path relative to the working directory and with the
    encoding of its content, deletes nothing, expects the latest local
    commit as head, and commits to the branch [g.Spec.Branch] of the
    repository [g.Spec.Owner]/[g.Spec.Repository]; the answer to the
    mutation is what [CreateCommit] returns. *)
Theorem CreateCommit_commits_changes ws g commitMessage :
  let (err, calls) := CreateCommit ws g commitMessage in
  (calls = [] /\ err <> None)
  \/ exists input,
       calls = [Mutate_createCommitOnBranch input]
       /\ commitsChanges ws g commitMessage input
       /\ err = Workspace.createCommitOnBranch ws input.
Proof. exact (CreateCommit_cases ws g commitMessage). Qed.

(** X23.  [Commit] commits in one way only and at most once: every
    command that it issues is a mutation when [commitUsingApi] is set
    and a commit of the native git handler when it is not; and when it
    returns no error it has issued exactly one command. *)
Theorem Commit_one_way ws g message :
  let (err, calls) := Commit ws g message in
  length calls <= 1
  /\ (err = None -> length calls = 1)
  /\ Forall (fun c => isApiCommit c = Scm.commitUsingApi g) calls.
Proof.
  unfold Commit.
  destruct (Workspace.Generate ws message) as [commitMessage|e].
  2: { split; [cbn; lia|]. split; [discriminate|constructor]. }
  destruct (Scm.commitUsingApi g).
  - pose proof (CreateCommit_cases ws g commitMessage) as H.
    destruct (CreateCommit ws g commitMessage) as [[e|] calls];
      destruct H as [[-> Hn]|(input & -> & _)]; cbn [length];
      (split; [lia|]); (split; [try discriminate; try reflexivity|]);
      try (intros _; exfalso; apply Hn; reflexivity);
      repeat constructor.
  - destruct (Workspace.Commit ws _ _ _ _ _ _) as [e|]; cbn [length];
      (split; [lia|]); (split; [try discriminate; try reflexivity|]);
      repeat constructor.
Qed.

Example CreateCommit_run :
  CreateCommit (Workdir.workspace "") (Workdir.g true) "chore: bump x"
  = (None,
     [Mutate_createCommitOnBranch
        (CreateCommitOnBranchInput.mk (Some "octo/fork") (Some "main") "4f2a9c1"
           "chore: bump x"
           (Some [FileAddition.mk "Chart.yaml" "b64:/tmp/updatecli/octo/fork/Chart.yaml";
                  FileAddition.mk "values.yaml" "b64:/tmp/updatecli/octo/fork/values.yaml"])
           None)])
  /\ CreateCommit (Workdir.workspace "/tmp/updatecli/octo/fork/values.yaml")
       (Workdir.g true) "chore: bump x"
     = (Some (errors_New "permission denied"), []).
Proof. vm_compute. split; reflexivity. Qed.

(** * The key of a YAML file *)

Example searchAndUpdateVersion_run :
  searchAndUpdateVersion Values.SetString (Values.document (Values.root "1.0"))
    ["image"; "tag"] "2.0" 1
  = Some (true, "1.0", 8%Z, Values.document (Values.root "2.0"))
  /\ searchAndUpdateVersion Values.SetString (Values.document (Values.root "1.0"))
       ["image"; "name"] "2.0" 1
     = Some (false, "", 3%Z, Values.document (Values.root "1.0"))
  /\ searchAndUpdateVersion Values.SetString (Values.document (Values.root "1.0"))
       ["replicas"] "3" 1
     = Some (true, "2", 11%Z,
             Values.document
               (Values.mapping [Values.scalar "image" 1 1; Values.image "1.0";
                                Values.scalar "replicas" 4 1; Values.scalar "3" 4 11] 1 1))
  /\ searchAndUpdateVersion Values.SetString (Values.document (Values.root "1.0"))
       [] "2.0" 1
     = None.
Proof. vm_compute. repeat split. Qed.

Lemma searchAndUpdateVersion_unfold SetString entry keys version columnRef :
  searchAndUpdateVersion SetString entry keys version columnRef
  = searched (yaml.withContent entry)
      (searchAndUpdateVersion_loop SetString
         (fun content keys column =>
            searchAndUpdateVersion SetString content keys version column)
         version columnRef (yaml.Content entry) keys false "" columnRef false).
Proof. destruct entry. reflexivity. Qed.

Lemma withContent_same n : yaml.withContent n (yaml.Content n) = n.
Proof. destruct n. reflexivity. Qed.

Lemma Forall2_rewrites_same SetString version l :
  Forall2 (rewrites SetString version) l l.
Proof. induction l; constructor; [apply rewrites_none|assumption]. Qed.

(** ** What the search leaves of any tree *)

Section Loop.
Variable SetString : string -> yaml.Node -> yaml.Node.
Variable rec : yaml.Node -> list string -> Z -> Searched yaml.Node.
Variables (version : string) (columnRef : Z).

(** The recursive call returns, rewrites scalars only and does not
    move the column to the left. *)
Definition sound (m : yaml.Node) : Prop :=
  forall key keys column,
  exists found oldVersion column' m',
    rec m (key :: keys) column = Some (found, oldVersion, column', m')
    /\ rewrites SetString version m m'
    /\ (column <= column')%Z.

Lemma loop_rewrites contents :
  Forall sound contents ->
  forall key keys valueFound oldVersion column nextLevel,
  exists found oldVersion' column' contents',
    searchAndUpdateVersion_loop SetString rec version columnRef contents (key :: keys)
      valueFound oldVersion column nextLevel
    = Some (found, oldVersion', column', contents')
    /\ Forall2 (rewrites SetString version) contents contents'
    /\ (column <= column')%Z.
Proof.
  induction 1 as [|content rest Hc _ IH]; intros key keys valueFound oldVersion column nextLevel.
  - cbn. eexists _, _, _, _. split; [reflexivity|]. split; [constructor|lia].
  - assert (Hgo : forall ks vf old col nl, (column <= col)%Z -> ks <> [] ->
              exists found oldVersion' column' contents',
                searched (cons content)
                  (searchAndUpdateVersion_loop SetString rec version columnRef rest ks
                     vf old col nl)
                = Some (found, oldVersion', column', contents')
                /\ Forall2 (rewrites SetString version) (content :: rest) contents'
                /\ (column <= column')%Z).
    { intros ks vf old col nl Hcol Hks. destruct ks as [|k ks]; [contradiction|].
      destruct (IH k ks vf old col nl) as (f & o & c' & cs' & -> & Hr & Hle).
      cbn. eexists _, _, _, _. split; [reflexivity|].
      split; [constructor; [apply rewrites_none|exact Hr]|lia]. }
    cbn [searchAndUpdateVersion_loop].
    destruct (yaml.Column content <? column)%Z eqn:Hlt.
    { eexists _, _, _, _. split; [reflexivity|].
      split; [apply Forall2_rewrites_same|lia]. }
    apply Z.ltb_ge in Hlt.
    set (column1 := if nextLevel then yaml.Column content else column).
    assert (H1 : (column <= column1)%Z) by (subst column1; destruct nextLevel; lia).
    set (matched := ((yaml.Value content =? key)%string
                     && (yaml.Column content =? columnRef)%Z)).
    set (column2 := if matched then yaml.Column content else column1).
    assert (H2 : (column <= column2)%Z) by (subst column2; destruct matched; lia).
    destruct (matched && (length (key :: keys) =? 1)%nat) eqn:Hlast.
    { apply Hgo; [exact H2|discriminate]. }
    set (keys2 := if matched && (1 <? length (key :: keys))%nat then keys else key :: keys).
    assert (Hk : keys2 <> []).
    { subst keys2. destruct matched; cbn [andb]; [|discriminate].
      destruct keys; cbn; discriminate. }
    destruct ((yaml.Kind_ content =? yaml.ScalarNode)%N && Bool.eqb valueFound true)
      eqn:Hscalar.
    { apply andb_prop in Hscalar as [Hs _]. apply N.eqb_eq in Hs.
      eexists _, _, _, _. split; [reflexivity|]. split; [|lia].
      constructor; [apply rewrites_scalar; exact Hs|apply Forall2_rewrites_same]. }
    destruct (yaml.Kind_ content =? yaml.MappingNode)%N.
    + destruct keys2 as [|k2 ks2] eqn:Ek; [contradiction|].
      destruct (Hc k2 ks2 column2) as (f & o & c' & m' & -> & Hm & Hle).
      destruct (IH k2 ks2 f o c' (if matched then true else if nextLevel then false else nextLevel))
        as (f' & o' & c'' & cs' & -> & Hr & Hle').
      cbn. eexists _, _, _, _. split; [reflexivity|].
      split; [constructor; assumption|lia].
    + apply Hgo; [exact H2|exact Hk].
Qed.
End Loop.

(** X17.  For a path of at least one key, [searchAndUpdateVersion]
    returns on every tree (no index is out of range), the tree that it
    leaves has the shape of the tree that it was given and differs from
    it only by [SetString version] applied to scalars, and the column
    that it returns is not to the left of [columnRef]. *)
Theorem searchAndUpdateVersion_rewrites SetString version entry :
  forall key keys columnRef,
  exists found oldVersion column entry',
    searchAndUpdateVersion SetString entry (key :: keys) version columnRef
    = Some (found, oldVersion, column, entry')
    /\ rewrites SetString version entry entry'
    /\ (columnRef <= column)%Z.
Proof.
  induction entry as [entry IH] using Node_ind'. intros key keys columnRef.
  rewrite searchAndUpdateVersion_unfold.
  destruct (loop_rewrites SetString
              (fun content keys column =>
                 searchAndUpdateVersion SetString content keys version column)
              version columnRef (yaml.Content entry) IH key keys false "" columnRef false)
    as (f & o & c & cs' & -> & Hr & Hle).
  cbn. eexists _, _, _, _. split; [reflexivity|].
  split; [apply rewrites_below; exact Hr|exact Hle].
Qed.

(** ** Documents in block style *)

Lemma pairs_ind (P : list yaml.Node -> Prop) :
  P [] -> (forall k, P [k]) -> (forall k v rest, P rest -> P (k :: v :: rest)) ->
  forall l, P l.
Proof.
  intros H0 H1 H2 l. enough (H : P l /\ forall k, P (k :: l)) by exact (proj1 H).
  induction l as [|a l [IH1 IH2]]; split; auto.
Qed.

Lemma block_unfold n :
  block n
  = (yaml.Kind_ n =? yaml.MappingNode)%N && (yaml.Value n =? "")%string
    && entries block (yaml.Column n) (yaml.Content n).
Proof. destruct n. reflexivity. Qed.

Lemma beyond_unfold c n :
  beyond c n
  = forallb
      (fun m =>
         (c <? yaml.Column m)%Z
         && (if (yaml.Kind_ m =? yaml.MappingNode)%N then beyond c m else true))
      (yaml.Content n).
Proof. destruct n. reflexivity. Qed.

Lemma isValue_column c v : isValue block c v = true -> (c <= yaml.Column v)%Z.
Proof.
  unfold isValue. destruct (yaml.Kind_ v =? yaml.ScalarNode)%N.
  - intros H. apply Z.ltb_lt in H. lia.
  - destruct (yaml.Kind_ v =? yaml.MappingNode)%N; intros H;
      apply andb_prop in H as [H _]; [apply Z.ltb_lt in H|apply Z.leb_le in H]; lia.
Qed.

(** A block mapping lies to the right of every column to the left of
    its own. *)
Lemma block_beyond n :
  forall c, block n = true -> (c < yaml.Column n)%Z -> beyond c n = true.
Proof.
  induction n as [n IH] using Node_ind'. intros c Hb Hc.
  rewrite block_unfold in Hb. rewrite beyond_unfold.
  apply andb_prop in Hb as [_ He].
  revert IH He. generalize (yaml.Content n) as l.
  induction l as [|k|k v rest IHl] using pairs_ind; intros IH He; cbn in He |- *;
    [reflexivity|discriminate He|].
  apply andb_prop in He as [He Hrest]. apply andb_prop in He as [Hk Hv].
  inversion IH as [|? ? _ IH']; subst. inversion IH' as [|? ? IHv IH'']; subst.
  rewrite (IHl IH'' Hrest), andb_true_r.
  unfold isKey in Hk. apply andb_prop in Hk as [Hks Hkc].
  apply N.eqb_eq in Hks. apply Z.eqb_eq in Hkc.
  rewrite Hks. cbn [N.eqb Pos.eqb yaml.ScalarNode yaml.MappingNode]. rewrite andb_true_r.
  replace (c <? yaml.Column k)%Z with true by (symmetry; apply Z.ltb_lt; lia).
  cbn [andb]. pose proof (isValue_column _ _ Hv) as Hvc.
  replace (c <? yaml.Column v)%Z with true by (symmetry; apply Z.ltb_lt; lia).
  cbn [andb]. unfold isValue in Hv.
  destruct (yaml.Kind_ v =? yaml.ScalarNode)%N eqn:Hs.
  - apply N.eqb_eq in Hs. rewrite Hs. reflexivity.
  - destruct (yaml.Kind_ v =? yaml.MappingNode)%N; [|reflexivity].
    apply andb_prop in Hv as [Hv1 Hv2]. apply Z.ltb_lt in Hv1.
    apply IHv; [exact Hv2|lia].
Qed.

Section Search.
Variable SetString : string -> yaml.Node -> yaml.Node.
Variable version : string.

Let search (content : yaml.Node) (keys : list string) (column : Z) :=
  searchAndUpdateVersion SetString content keys version column.
Let loop := searchAndUpdateVersion_loop SetString search version.

(** Below a node that lies to the right of [columnRef] nothing is
    found and nothing is rewritten. *)
Lemma beyond_search n :
  forall c key keys,
    beyond c n = true ->
    searchAndUpdateVersion SetString n (key :: keys) version c = Some (false, "", c, n).
Proof.
  induction n as [n IH] using Node_ind'. intros c key keys Hb.
  rewrite searchAndUpdateVersion_unfold. rewrite beyond_unfold in Hb.
  enough (H : searchAndUpdateVersion_loop SetString search version c (yaml.Content n)
                (key :: keys) false "" c false
              = Some (false, "", c, yaml.Content n)).
  { unfold search in H. rewrite H. cbn. rewrite withContent_same. reflexivity. }
  revert IH Hb. generalize (yaml.Content n) as l.
  induction l as [|m l IHl]; intros IH Hb; [reflexivity|].
  cbn [forallb] in Hb. apply andb_prop in Hb as [Hm Hl]. apply andb_prop in Hm as [Hc Hm].
  apply Z.ltb_lt in Hc. inversion IH as [|? ? IHm IH']; subst.
  cbn [searchAndUpdateVersion_loop].
  replace (yaml.Column m <? c)%Z with false by (symmetry; apply Z.ltb_ge; lia).
  replace (yaml.Column m =? c)%Z with false by (symmetry; apply Z.eqb_neq; lia).
  rewrite andb_false_r. cbn [andb Bool.eqb].
  rewrite andb_false_r.
  destruct (yaml.Kind_ m =? yaml.MappingNode)%N.
  - unfold search at 1. rewrite (IHm c key keys Hm). rewrite (IHl IH' Hl). reflexivity.
  - rewrite (IHl IH' Hl). reflexivity.
Qed.

(** Once the column has moved to the right of the keys of a mapping,
    the loop stops at the next key. *)
Lemma loop_stops c rest keys valueFound oldVersion column nextLevel :
  entries block c rest = true ->
  (c < column)%Z ->
  loop c rest keys valueFound oldVersion column nextLevel
  = Some (valueFound, oldVersion, column, rest).
Proof.
  intros He Hc. destruct rest as [|k [|v rest]]; [reflexivity|discriminate He|].
  cbn in He. apply andb_prop in He as [He _]. apply andb_prop in He as [Hk _].
  unfold isKey in Hk. apply andb_prop in Hk as [_ Hk]. apply Z.eqb_eq in Hk.
  unfold loop. cbn [searchAndUpdateVersion_loop].
  replace (yaml.Column k <? column)%Z with true by (symmetry; apply Z.ltb_lt; lia).
  reflexivity.
Qed.

(** An entry whose key is not the key looked for is passed over. *)
Lemma loop_next c k v rest key keys :
  isKey c k = true ->
  isValue block c v = true ->
  yaml.Value k <> key ->
  key <> "" ->
  loop c (k :: v :: rest) (key :: keys) false "" c false
  = searched (fun l => k :: v :: l) (loop c rest (key :: keys) false "" c false).
Proof.
  intros Hk Hv Hn Hkey. unfold isKey in Hk. apply andb_prop in Hk as [Hks Hkc].
  apply N.eqb_eq in Hks. apply Z.eqb_eq in Hkc.
  unfold loop. cbn [searchAndUpdateVersion_loop].
  rewrite Hkc, Z.ltb_irrefl.
  replace (yaml.Value k =? key)%string with false by (symmetry; apply String.eqb_neq; exact Hn).
  cbn [andb Bool.eqb]. rewrite andb_false_r. rewrite Hks.
  cbn [N.eqb Pos.eqb yaml.ScalarNode yaml.MappingNode].
  pose proof (isValue_column _ _ Hv) as Hvc.
  replace (yaml.Column v <? c)%Z with false by (symmetry; apply Z.ltb_ge; lia).
  assert (Hm : (yaml.Value v =? key)%string && (yaml.Column v =? c)%Z = false).
  { unfold isValue in Hv.
    destruct (yaml.Kind_ v =? yaml.ScalarNode)%N;
      [apply Z.ltb_lt in Hv;
       replace (yaml.Column v =? c)%Z with false by (symmetry; apply Z.eqb_neq; lia);
       apply andb_false_r|].
    destruct (yaml.Kind_ v =? yaml.MappingNode)%N; apply andb_prop in Hv as [Hv1 Hv2].
    - apply Z.ltb_lt in Hv1.
      replace (yaml.Column v =? c)%Z with false by (symmetry; apply Z.eqb_neq; lia).
      apply andb_false_r.
    - apply String.eqb_eq in Hv2. rewrite Hv2.
      replace ("" =? key)%string with false
        by (symmetry; apply String.eqb_neq; congruence).
      reflexivity. }
  rewrite Hm. cbn [andb]. rewrite andb_false_r.
  unfold isValue in Hv.
  destruct (yaml.Kind_ v =? yaml.MappingNode)%N eqn:Hvm.
  - assert (Hs : (yaml.Kind_ v =? yaml.ScalarNode)%N = false).
    { apply N.eqb_eq in Hvm. rewrite Hvm. reflexivity. }
    rewrite Hs in Hv. apply andb_prop in Hv as [Hv1 Hv2]. apply Z.ltb_lt in Hv1.
    unfold search at 1.
    rewrite (beyond_search v c key keys (block_beyond v c Hv2 Hv1)).
    destruct (searchAndUpdateVersion_loop SetString search version c rest (key :: keys)
                false "" c false) as [[[[? ?] ?] ?]|]; reflexivity.
  - destruct (searchAndUpdateVersion_loop SetString search version c rest (key :: keys)
                false "" c false) as [[[[? ?] ?] ?]|]; reflexivity.
Qed.

Lemma loop_resolves keys contents oldVersion column contents' :
  resolves SetString version keys contents oldVersion column contents' ->
  forall c,
    entries block c contents = true ->
    Forall (fun key => key <> "") keys ->
    loop c contents keys false "" c false = Some (true, oldVersion, column, contents')
    /\ (c < column)%Z.
Proof.
  induction 1 as [key k v rest Hkey Hscalar
                 |key keys k v rest oldVersion column contents' Hkey Hkeys Hmapping _ IH
                 |key keys k v rest oldVersion column rest' Hkey _ IH];
    intros c He Hne; cbn in He;
    apply andb_prop in He as [He Hrest]; apply andb_prop in He as [Hk Hv].
  - pose proof Hk as Hk'. unfold isKey in Hk'. apply andb_prop in Hk' as [Hks Hkc].
    apply Z.eqb_eq in Hkc. unfold isValue in Hv. rewrite Hscalar in Hv.
    cbn [N.eqb Pos.eqb yaml.ScalarNode] in Hv. apply Z.ltb_lt in Hv.
    split; [|exact Hv].
    unfold loop. cbn [searchAndUpdateVersion_loop].
    rewrite Hkc, Z.ltb_irrefl, Hkey, String.eqb_refl, Z.eqb_refl.
    cbn [andb length Nat.eqb].
    replace (yaml.Column v <? c)%Z with false by (symmetry; apply Z.ltb_ge; lia).
    replace (yaml.Column v =? c)%Z with false by (symmetry; apply Z.eqb_neq; lia).
    rewrite andb_false_r. cbn [andb]. rewrite Hscalar.
    cbn [N.eqb Pos.eqb yaml.ScalarNode Bool.eqb andb searched]. reflexivity.
  - pose proof Hk as Hk'. unfold isKey in Hk'. apply andb_prop in Hk' as [Hks Hkc].
    apply N.eqb_eq in Hks. apply Z.eqb_eq in Hkc.
    unfold isValue in Hv. rewrite Hmapping in Hv.
    cbn [N.eqb Pos.eqb yaml.ScalarNode yaml.MappingNode] in Hv.
    apply andb_prop in Hv as [Hvc Hvb]. apply Z.ltb_lt in Hvc.
    pose proof (Forall_inv Hne) as Hkey0. pose proof (Forall_inv_tail Hne) as Hne'.
    rewrite block_unfold in Hvb. apply andb_prop in Hvb as [Hvb Hve].
    apply andb_prop in Hvb as [_ Hvv]. apply String.eqb_eq in Hvv.
    destruct (IH (yaml.Column v) Hve Hne') as [IHrun IHcol].
    split; [|lia].
    destruct keys as [|key2 keys]; [contradiction|].
    unfold loop. cbn [searchAndUpdateVersion_loop].
    rewrite Hkc, Z.ltb_irrefl, Hkey, String.eqb_refl, Z.eqb_refl.
    cbn [andb length Nat.eqb Nat.ltb Nat.leb]. rewrite Hks.
    cbn [N.eqb Pos.eqb yaml.ScalarNode yaml.MappingNode Bool.eqb andb].
    replace (yaml.Column v <? c)%Z with false by (symmetry; apply Z.ltb_ge; lia).
    replace (yaml.Column v =? c)%Z with false by (symmetry; apply Z.eqb_neq; lia).
    rewrite andb_false_r. cbn [andb]. rewrite Hmapping.
    cbn [N.eqb Pos.eqb yaml.ScalarNode yaml.MappingNode Bool.eqb andb].
    unfold search at 1. rewrite searchAndUpdateVersion_unfold.
    fold search. fold loop. rewrite IHrun. cbn [searched].
    fold loop. rewrite (loop_stops c rest _ _ _ _ _ Hrest) by lia.
    reflexivity.
  - pose proof (Forall_inv Hne) as Hkey0. pose proof (Forall_inv_tail Hne) as Hne'.
    destruct (IH c Hrest Hne) as [IHrun IHcol]. split; [|exact IHcol].
    rewrite (loop_next c k v rest key keys Hk Hv Hkey Hkey0), IHrun. reflexivity.
Qed.

(** The loop over entries none of whose keys is the key looked
    for. *)
Lemma loop_absent c key keys contents :
  entries block c contents = true ->
  absent key contents = true ->
  key <> "" ->
  loop c contents (key :: keys) false "" c false = Some (false, "", c, contents).
Proof.
  intros He Ha Hkey. revert He Ha.
  induction contents as [|k|k v rest IH] using pairs_ind; intros He Ha;
    [reflexivity|discriminate He|].
  cbn in He, Ha. apply andb_prop in He as [He Hrest]. apply andb_prop in He as [Hk Hv].
  apply andb_prop in Ha as [Hn Ha]. apply negb_true_iff in Hn. apply String.eqb_neq in Hn.
  rewrite (loop_next c k v rest key keys Hk Hv Hn Hkey), (IH Hrest Ha). reflexivity.
Qed.

(** The document node hands the search over to its root. *)
Lemma document_search doc root key keys :
  yaml.Content doc = [root] ->
  block root = true ->
  yaml.Column root = 1%Z ->
  key <> "" ->
  searchAndUpdateVersion SetString doc (key :: keys) version 1
  = searched (fun r => yaml.withContent doc [r])
      (searchAndUpdateVersion SetString root (key :: keys) version 1).
Proof.
  intros Hdoc Hb Hc Hkey. rewrite (searchAndUpdateVersion_unfold SetString doc), Hdoc.
  rewrite block_unfold in Hb. apply andb_prop in Hb as [Hb _].
  apply andb_prop in Hb as [Hm Hv]. apply N.eqb_eq in Hm. apply String.eqb_eq in Hv.
  cbn [searchAndUpdateVersion_loop]. rewrite Hc, Hv, Hm.
  replace ("" =? key)%string with false by (symmetry; apply String.eqb_neq; congruence).
  cbn [Z.ltb Z.compare Pos.compare Pos.compare_cont andb N.eqb Pos.eqb
       yaml.ScalarNode yaml.MappingNode Bool.eqb].
  destruct (searchAndUpdateVersion SetString root (key :: keys) version 1)
    as [[[[? ?] ?] ?]|]; reflexivity.
Qed.
End Search.

(** ** The scalar at the end of the path *)

(** The search on a document in block style whose path leads to a
    scalar. *)
Lemma document_resolves SetString version doc root keys oldVersion column contents' :
  yaml.Content doc = [root] ->
  block root = true ->
  yaml.Column root = 1%Z ->
  Forall (fun key => key <> "") keys ->
  resolves SetString version keys (yaml.Content root) oldVersion column contents' ->
  searchAndUpdateVersion SetString doc keys version 1
  = Some (true, oldVersion, column,
          yaml.withContent doc [yaml.withContent root contents']).
Proof.
  intros Hdoc Hb Hc Hne Hres.
  assert (Hk : exists key keys', keys = key :: keys')
    by (inversion Hres; eexists _, _; reflexivity).
  destruct Hk as (key & keys' & ->).
  rewrite (document_search SetString version doc root key keys' Hdoc Hb Hc (Forall_inv Hne)).
  rewrite searchAndUpdateVersion_unfold.
  pose proof Hb as He. rewrite block_unfold in He. apply andb_prop in He as [_ He].
  rewrite Hc in He.
  destruct (loop_resolves SetString version _ _ _ _ _ Hres 1%Z He Hne) as [-> _].
  reflexivity.
Qed.

(** X18.  On a document in block style, as [Update] passes it with
    [columnRef] 1: when the path of (non-empty) keys leads, through the
    first entry of each mapping whose key is the next key of the path,
    to a scalar, [searchAndUpdateVersion] reports it found, returns the
    value that the scalar had and the column where it starts, and
    leaves the document with [SetString version] applied to that
    scalar and to nothing else. *)
Theorem searchAndUpdateVersion_resolves SetString version doc root keys oldVersion column
  contents' :
  yaml.Content doc = [root] ->
  block root = true ->
  yaml.Column root = 1%Z ->
  Forall (fun key => key <> "") keys ->
  resolves SetString version keys (yaml.Content root) oldVersion column contents' ->
  searchAndUpdateVersion SetString doc keys version 1
  = Some (true, oldVersion, column,
          yaml.withContent doc [yaml.withContent root contents']).
Proof. exact (document_resolves SetString version doc root keys oldVersion column contents'). Qed.

(** The tag of the image in the sample document. *)
Lemma searchAndUpdateVersion_resolves_witness :
  searchAndUpdateVersion Values.SetString (Values.document (Values.root "1.0"))
    ["image"; "tag"] "2.0" 1
  = Some (true, "1.0", 8%Z, Values.document (Values.root "2.0")).
Proof.
  assert (Hne : Forall (fun key => key <> "") ["image"; "tag"])
    by (repeat constructor; discriminate).
  assert (Htag : "tag" :: nil <> nil) by discriminate.
  assert (Hrep : "repository" <> "tag") by discriminate.
  exact (searchAndUpdateVersion_resolves Values.SetString "2.0"
           (Values.document (Values.root "1.0")) (Values.root "1.0") ["image"; "tag"]
           "1.0" 8%Z _ eq_refl eq_refl eq_refl Hne
           (@resolves_below Values.SetString "2.0" "image" ["tag"]
              (Values.scalar "image" 1 1) (Values.image "1.0")
              [Values.scalar "replicas" 4 1; Values.scalar "2" 4 11] "1.0" 8%Z _
              eq_refl Htag eq_refl
              (@resolves_next Values.SetString "2.0" "tag" []
                 (Values.scalar "repository" 2 3) (Values.scalar "nginx" 2 15)
                 [Values.scalar "tag" 3 3; Values.scalar "1.0" 3 8] "1.0" 8%Z _
                 Hrep
                 (@resolves_here Values.SetString "2.0" "tag"
                    (Values.scalar "tag" 3 3) (Values.scalar "1.0" 3 8) []
                    eq_refl eq_refl)))).
Defined.

(** X19.  On a document in block style, when no key of the root mapping
    is the first key of the path, [searchAndUpdateVersion] reports
    nothing found, with an empty old value and column 1, and leaves the
    document as it is. *)
Theorem searchAndUpdateVersion_absent SetString version doc root key keys :
  yaml.Content doc = [root] ->
  block root = true ->
  yaml.Column root = 1%Z ->
  key <> "" ->
  absent key (yaml.Content root) = true ->
  searchAndUpdateVersion SetString doc (key :: keys) version 1 = Some (false, "", 1%Z, doc).
Proof.
  intros Hdoc Hb Hc Hkey Ha.
  rewrite (document_search SetString version doc root key keys Hdoc Hb Hc Hkey).
  rewrite searchAndUpdateVersion_unfold.
  pose proof Hb as He. rewrite block_unfold in He. apply andb_prop in He as [_ He].
  rewrite Hc in He.
  rewrite (loop_absent SetString version 1%Z key keys _ He Ha Hkey).
  cbn [searched]. rewrite withContent_same, <- Hdoc, withContent_same. reflexivity.
Qed.

(** The sample document has no key [version]. *)
Lemma searchAndUpdateVersion_absent_witness :
  searchAndUpdateVersion Values.SetString (Values.document (Values.root "1.0"))
    ["version"; "tag"] "2.0" 1
  = Some (false, "", 1%Z, Values.document (Values.root "1.0")).
Proof.
  assert (Hkey : "version" <> "") by discriminate.
  exact (searchAndUpdateVersion_absent Values.SetString "2.0"
           (Values.document (Values.root "1.0")) (Values.root "1.0") "version" ["tag"]
           eq_refl eq_refl eq_refl Hkey eq_refl).
Defined.

(** ** The empty key *)

(** X24.  The empty key is found at once.  When the key of [Update] is
    empty the path is the empty string alone; on a document whose root
    has no value of its own and starts in column 1, as a mapping does,
    the search takes the root itself for the key: it reports the key
    found, with an empty old value, without looking at any entry, and
    leaves the document as it is. *)
Theorem empty_key_is_found SetString version doc root :
  yaml.Content doc = [root] ->
  yaml.Value root = "" ->
  yaml.Column root = 1%Z ->
  searchAndUpdateVersion SetString doc [""] version 1 = Some (true, "", 1%Z, doc).
Proof.
  intros Hdoc Hv Hc. rewrite searchAndUpdateVersion_unfold, Hdoc.
  cbn [searchAndUpdateVersion_loop]. rewrite Hc, Hv.
  cbn [Z.ltb Z.compare Pos.compare Pos.compare_cont String.eqb Z.eqb Pos.eqb andb length
       Nat.eqb searched].
  rewrite <- Hdoc, withContent_same. reflexivity.
Qed.

(** The sample document. *)
Lemma empty_key_is_found_witness :
  searchAndUpdateVersion Values.SetString (Values.document (Values.root "1.0")) [""] "2.0" 1
  = Some (true, "", 1%Z, Values.document (Values.root "1.0")).
Proof.
  exact (empty_key_is_found Values.SetString "2.0" (Values.document (Values.root "1.0"))
           (Values.root "1.0") eq_refl eq_refl eq_refl).
Defined.

(** ** A key whose value is a sequence *)

Lemma entries_app c before tail :
  entries block c before = true ->
  entries block c (before ++ tail) = entries block c tail.
Proof.
  induction before as [|k|k v rest IH] using pairs_ind; intros He;
    [reflexivity|discriminate He|].
  cbn in He |- *. apply andb_prop in He as [He Hrest]. rewrite He, (IH Hrest). reflexivity.
Qed.

Lemma loop_prefix SetString version c key keys before tail :
  entries block c before = true ->
  absent key before = true ->
  key <> "" ->
  searchAndUpdateVersion_loop SetString
    (fun content keys column => searchAndUpdateVersion SetString content keys version column)
    version c (before ++ tail) (key :: keys) false "" c false
  = searched (app before)
      (searchAndUpdateVersion_loop SetString
         (fun content keys column =>
            searchAndUpdateVersion SetString content keys version column)
         version c tail (key :: keys) false "" c false).
Proof.
  intros He Ha Hkey. revert He Ha.
  induction before as [|k|k v rest IH] using pairs_ind; intros He Ha.
  - cbn [app]. destruct (searchAndUpdateVersion_loop _ _ _ _ _ _ _ _ _ _)
      as [[[[? ?] ?] ?]|]; reflexivity.
  - discriminate He.
  - cbn in He, Ha. apply andb_prop in He as [He Hrest]. apply andb_prop in He as [Hk Hv].
    apply andb_prop in Ha as [Hn Ha]. apply negb_true_iff in Hn. apply String.eqb_neq in Hn.
    cbn [app].
    rewrite (loop_next SetString version c k v (rest ++ tail) key keys Hk Hv Hn Hkey).
    rewrite (IH Hrest Ha).
    match goal with |- context [searched (app rest) ?X] =>
      destruct X as [[[[? ?] ?] ?]|]
    end; reflexivity.
Qed.

(** X20.  A sequence is not taken for the value of a key.  On a document
    in block style whose root mapping has the key looked for, the key
    being the whole path and its value a sequence, followed by another
    entry: when the sequence starts in the column of the keys, the
    search overwrites the key of the next entry with [version] and
    reports that key as the old value; when the sequence starts further
    to the right, the search reports the key found with an empty old
    value and leaves the document as it is. *)
Theorem sequence_is_not_a_value SetString version doc root before k s k2 rest key :
  yaml.Content doc = [root] ->
  block root = true ->
  yaml.Column root = 1%Z ->
  yaml.Content root = before ++ k :: s :: k2 :: rest ->
  entries block 1 before = true ->
  absent key before = true ->
  key <> "" ->
  yaml.Value k = key ->
  yaml.Kind_ s = yaml.SequenceNode ->
  yaml.Value k2 <> key ->
  (yaml.Column s = 1%Z ->
   searchAndUpdateVersion SetString doc [key] version 1
   = Some (true, yaml.Value k2, 1%Z,
           yaml.withContent doc
             [yaml.withContent root (before ++ k :: s :: SetString version k2 :: rest)]))
  /\ ((1 < yaml.Column s)%Z ->
      searchAndUpdateVersion SetString doc [key] version 1
      = Some (true, "", yaml.Column s, doc)).
Proof.
  intros Hdoc Hb Hc Hroot Hbefore Ha Hkey Hk Hs Hk2.
  rewrite (document_search SetString version doc root key [] Hdoc Hb Hc Hkey).
  rewrite searchAndUpdateVersion_unfold.
  pose proof Hb as He. rewrite block_unfold in He. apply andb_prop in He as [_ He].
  rewrite Hc, Hroot, (entries_app _ _ _ Hbefore) in He.
  rewrite Hroot, (loop_prefix SetString version 1%Z key [] before _ Hbefore Ha Hkey).
  cbn [entries] in He. apply andb_prop in He as [He Hrest].
  apply andb_prop in He as [Hkk Hsv].
  unfold isKey in Hkk. apply andb_prop in Hkk as [_ Hkc]. apply Z.eqb_eq in Hkc.
  unfold isValue in Hsv. rewrite Hs in Hsv.
  cbn [N.eqb Pos.eqb yaml.SequenceNode yaml.ScalarNode yaml.MappingNode] in Hsv.
  apply andb_prop in Hsv as [Hsc Hsv]. apply Z.leb_le in Hsc. apply String.eqb_eq in Hsv.
  destruct rest as [|v2 rest]; [discriminate Hrest|].
  cbn [entries] in Hrest. apply andb_prop in Hrest as [Hrest _].
  apply andb_prop in Hrest as [Hk2k _].
  unfold isKey in Hk2k. apply andb_prop in Hk2k as [Hk2s Hk2c].
  apply N.eqb_eq in Hk2s. apply Z.eqb_eq in Hk2c.
  cbn [searchAndUpdateVersion_loop].
  rewrite Hkc, Z.ltb_irrefl, Hk, String.eqb_refl, Z.eqb_refl.
  cbn [andb length Nat.eqb].
  replace (yaml.Column s <? 1)%Z with false by (symmetry; apply Z.ltb_ge; lia).
  rewrite Hsv.
  replace ("" =? key)%string with false by (symmetry; apply String.eqb_neq; congruence).
  cbn [andb]. rewrite Hs.
  cbn [N.eqb Pos.eqb yaml.SequenceNode yaml.ScalarNode yaml.MappingNode andb].
  rewrite Hk2c.
  split; intros Hcol.
  - rewrite Hcol, Z.ltb_irrefl.
    replace (yaml.Value k2 =? key)%string with false
      by (symmetry; apply String.eqb_neq; exact Hk2).
    cbn [andb]. rewrite Hk2s.
    cbn [N.eqb Pos.eqb yaml.ScalarNode Bool.eqb andb searched].
    reflexivity.
  - replace (1 <? yaml.Column s)%Z with true by (symmetry; apply Z.ltb_lt; lia).
    cbn [searched]. rewrite <- Hroot, withContent_same, <- Hdoc, withContent_same.
    reflexivity.
Qed.

(** The sample document whose first key has a sequence as value. *)
Lemma sequence_is_not_a_value_witness :
  searchAndUpdateVersion Values.SetString (Values.document (Values.flat "tag")) ["args"]
    "2.0" 1
  = Some (true, "tag", 1%Z, Values.document (Values.flat "2.0")).
Proof.
  assert (Hkey : "args" <> "") by discriminate.
  assert (Hk2 : "tag" <> "args") by discriminate.
  exact (proj1
           (sequence_is_not_a_value Values.SetString "2.0"
              (Values.document (Values.flat "tag")) (Values.flat "tag") []
              (Values.scalar "args" 1 1)
              (Values.sequence [Values.scalar "--verbose" 2 3] 2 1)
              (Values.scalar "tag" 3 1) [Values.scalar "1.0" 3 6] "args"
              eq_refl eq_refl eq_refl eq_refl eq_refl eq_refl Hkey eq_refl eq_refl Hk2)
           eq_refl).
Defined.

(** ** A second search *)

Section Again.
Variable SetString : string -> yaml.Node -> yaml.Node.
Variable version : string.
Hypothesis SetString_Kind :
  forall n, yaml.Kind_ (SetString version n) = yaml.ScalarNode.
Hypothesis SetString_Column :
  forall n, yaml.Column (SetString version n) = yaml.Column n.
Hypothesis SetString_Value : forall n, yaml.Value (SetString version n) = version.
Hypothesis SetString_again :
  forall n, SetString version (SetString version n) = SetString version n.

Lemma resolves_again keys contents oldVersion column contents' :
  resolves SetString version keys contents oldVersion column contents' ->
  resolves SetString version keys contents' version column contents'.
Proof.
  induction 1 as [key k v rest Hkey Hscalar
                 |key keys k v rest oldVersion column contents' Hkey Hkeys Hmapping _ IH
                 |key keys k v rest oldVersion column rest' Hkey _ IH].
  - pose proof (@resolves_here SetString version key k (SetString version v) rest Hkey
                  (SetString_Kind v)) as R.
    rewrite SetString_Value, SetString_Column, SetString_again in R. exact R.
  - exact (@resolves_below SetString version key keys k (yaml.withContent v contents')
             rest version column contents' Hkey Hkeys Hmapping IH).
  - exact (@resolves_next SetString version key keys k v rest' version column rest'
             Hkey IH).
Qed.

Lemma entries_resolved keys contents oldVersion column contents' :
  resolves SetString version keys contents oldVersion column contents' ->
  forall c, entries block c contents = true -> entries block c contents' = true.
Proof.
  induction 1 as [key k v rest Hkey Hscalar
                 |key keys k v rest oldVersion column contents' Hkey Hkeys Hmapping _ IH
                 |key keys k v rest oldVersion column rest' Hkey _ IH];
    intros c He; cbn in He |- *;
    apply andb_prop in He as [He Hrest]; apply andb_prop in He as [Hk Hv];
    rewrite Hk; cbn [andb].
  - rewrite Hrest, andb_true_r. unfold isValue in Hv |- *.
    rewrite Hscalar in Hv. rewrite SetString_Kind, SetString_Column. exact Hv.
  - rewrite Hrest, andb_true_r. unfold isValue in Hv |- *.
    cbn [yaml.withContent yaml.Kind_ yaml.Column yaml.Value].
    rewrite Hmapping in Hv |- *.
    cbn [N.eqb Pos.eqb yaml.ScalarNode yaml.MappingNode] in Hv |- *.
    apply andb_prop in Hv as [Hvc Hvb]. rewrite Hvc. cbn [andb].
    rewrite block_unfold in Hvb |- *.
    cbn [yaml.withContent yaml.Kind_ yaml.Column yaml.Value yaml.Content].
    apply andb_prop in Hvb as [Hvb Hve]. rewrite Hvb. cbn [andb].
    exact (IH _ Hve).
  - rewrite Hv. cbn [andb]. exact (IH c Hrest).
Qed.

(** X21.  A second search changes nothing.  With a [SetString] that
    makes a scalar of value [version] in the column of the node and
    that has no further effect when applied again: on the document
    that a search left after it reached the scalar at the end of the
    path, the same search reports the scalar found with [version] as
    old value, in the same column, and leaves the document as it
    is. *)
Theorem second_search_changes_nothing doc root keys oldVersion column contents' :
  yaml.Content doc = [root] ->
  block root = true ->
  yaml.Column root = 1%Z ->
  Forall (fun key => key <> "") keys ->
  resolves SetString version keys (yaml.Content root) oldVersion column contents' ->
  let doc' := yaml.withContent doc [yaml.withContent root contents'] in
  searchAndUpdateVersion SetString doc keys version 1
  = Some (true, oldVersion, column, doc')
  /\ searchAndUpdateVersion SetString doc' keys version 1
     = Some (true, version, column, doc').
Proof.
  intros Hdoc Hb Hc Hne Hres doc'. split.
  - exact (document_resolves SetString version doc root keys oldVersion
             column contents' Hdoc Hb Hc Hne Hres).
  - pose proof Hb as He. rewrite block_unfold in He.
    apply andb_prop in He as [Hkv He].
    assert (Hb' : block (yaml.withContent root contents') = true).
    { rewrite block_unfold.
      cbn [yaml.withContent yaml.Kind_ yaml.Column yaml.Value yaml.Content].
      rewrite Hkv. exact (entries_resolved _ _ _ _ _ Hres _ He). }
    assert (E : Some (true, version, column, doc')
                = Some (true, version, column,
                        yaml.withContent doc'
                          [yaml.withContent (yaml.withContent root contents') contents']))
      by reflexivity.
    rewrite E.
    apply (document_resolves SetString version doc'
             (yaml.withContent root contents') keys version column contents');
      [reflexivity|exact Hb'|exact Hc|exact Hne|].
    exact (resolves_again _ _ _ _ _ Hres).
Qed.
End Again.

(** With the sample [SetString]: the tag of the image is searched
    twice. *)
Lemma second_search_changes_nothing_witness :
  searchAndUpdateVersion Values.SetString (Values.document (Values.root "1.0"))
    ["image"; "tag"] "2.0" 1
  = Some (true, "1.0", 8%Z, Values.document (Values.root "2.0"))
  /\ searchAndUpdateVersion Values.SetString (Values.document (Values.root "2.0"))
       ["image"; "tag"] "2.0" 1
     = Some (true, "2.0", 8%Z, Values.document (Values.root "2.0")).
Proof.
  assert (Hne : Forall (fun key => key <> "") ["image"; "tag"])
    by (repeat constructor; discriminate).
  assert (Htag : "tag" :: nil <> nil) by discriminate.
  assert (Hrep : "repository" <> "tag") by discriminate.
  exact (second_search_changes_nothing Values.SetString "2.0"
           (fun _ => eq_refl) (fun _ => eq_refl) (fun _ => eq_refl) (fun _ => eq_refl)
           (Values.document (Values.root "1.0")) (Values.root "1.0") ["image"; "tag"]
           "1.0" 8%Z _ eq_refl eq_refl eq_refl Hne
           (@resolves_below Values.SetString "2.0" "image" ["tag"]
              (Values.scalar "image" 1 1) (Values.image "1.0")
              [Values.scalar "replicas" 4 1; Values.scalar "2" 4 11] "1.0" 8%Z _
              eq_refl Htag eq_refl
              (@resolves_next Values.SetString "2.0" "tag" []
                 (Values.scalar "repository" 2 3) (Values.scalar "nginx" 2 15)
                 [Values.scalar "tag" 3 3; Values.scalar "1.0" 3 8] "1.0" 8%Z _
                 Hrep
                 (@resolves_here Values.SetString "2.0" "tag"
                    (Values.scalar "tag" 3 3) (Values.scalar "1.0" 3 8) []
                    eq_refl eq_refl)))).
Defined.
